(** * MCP Intelligence: registry, router, validation and learning

    A shallow embedding of the TypeScript sources

      - [src/registry/ServerRegistry.ts]       (module [ServerRegistry])
      - [src/routing/SemanticRouter.ts]        (module [SemanticRouter])
      - [src/validation/ValidationEngine.ts]   (module [ValidationEngine])
      - [src/learning/LearningSystem.ts]       (module [LearningSystem])
      - [src/types/intelligence.ts]            (the record modules)

    Conventions of the embedding.
      - A JavaScript [Map] / [Set] is an association list / list in
        insertion order (module [JsMap], [JsSet]): iteration order is
        observable in the sources (candidate order, FIFO eviction).
      - A JavaScript number that counts things is a [Z]; a number that
        is averaged or scored is an exact rational [Q] in the four
        modules.  Where the rounding of binary64 decides a statement
        (the running averages), module [Binary64] has the numbers as
        the code computes them.
      - A function that may throw returns [Result]; a method that
        mutates [this] takes the state and returns the new one.
      - [new Date()] is an explicit argument [now].
      - [Fuse] (fuse.js) is an external library: its [search] is a
        parameter of the registry. *)

From Stdlib Require Import String Ascii List ZArith QArith Qminmax Qfield.
From Stdlib Require Import Bool Lia Lqa DecimalString Permutation Sorted.
From Stdlib Require Import OrderedTypeEx.
From Stdlib Require PrimFloat.
Import ListNotations.

Local Close Scope Q_scope.
Local Open Scope list_scope.
Local Open Scope string_scope.

Set Warnings "-register-all".

(* ================================================================= *)
(** ** Exceptions *)

Inductive Exn :=
| TypeError (message : string)
| RangeError (message : string)
| Error (message : string).

Definition exn_message (e : Exn) : string :=
  match e with
  | TypeError m | RangeError m | Error m => m
  end.

Inductive Result (E A : Type) :=
| Ok (a : A)
| Throw (e : E).

Arguments Ok {E A} a.
Arguments Throw {E A} e.

Definition bind {E A B} (r : Result E A) (k : A -> Result E B) : Result E B :=
  match r with
  | Ok a => k a
  | Throw e => Throw e
  end.

Notation "x <- r ;; k" := (bind r (fun x => k))
  (at level 61, r at next level, right associativity).

(* ================================================================= *)
(** ** JavaScript values and built-ins *)

Module Js.

(** [any]-typed data: filter values, parameter objects, results.
    Numbers are restricted to integers that print in plain decimal. *)
Inductive Value :=
| Undefined
| Null
| Bool (b : bool)
| Num (n : Z)
| Str (s : string)
| Arr (items : list Value)
| Obj (fields : list (string * Value)).

Definition string_of_Z (n : Z) : string :=
  NilZero.string_of_int (Z.to_int n).

(** [String(v)], as used by template literals. *)
Fixpoint toString (v : Value) : string :=
  match v with
  | Undefined => "undefined"
  | Null => "null"
  | Bool true => "true"
  | Bool false => "false"
  | Num n => string_of_Z n
  | Str s => s
  | Arr items =>
      String.concat ","
        (map (fun x => match x with
                       | Undefined | Null => ""
                       | _ => toString x
                       end) items)
  | Obj _ => "[object Object]"
  end.

(** [Boolean(v)]. *)
Definition truthy (v : Value) : bool :=
  match v with
  | Undefined | Null => false
  | Bool b => b
  | Num n => negb (n =? 0)%Z
  | Str s => negb (s =? "")
  | Arr _ | Obj _ => true
  end.

(** [a || b]. *)
Definition or (a b : Value) : Value := if truthy a then a else b.

Fixpoint lookup (fields : list (string * Value)) (k : string) : Value :=
  match fields with
  | [] => Undefined
  | (k', v) :: rest => if k' =? k then v else lookup rest k
  end.

(** [v.k] for a [v] that is neither [null] nor [undefined]; the keys
    read by the sources are never inherited properties. *)
Definition prop (v : Value) (k : string) : Value :=
  match v with
  | Obj fields => lookup fields k
  | _ => Undefined
  end.

(** [v.k] in general: a [TypeError] on [null] and [undefined]. *)
Definition get (v : Value) (k : string) : Result Exn Value :=
  match v with
  | Undefined | Null =>
      Throw (TypeError ("Cannot read properties of " ++ toString v))
  | _ => Ok (prop v k)
  end.

(** [obj[k] = v]: overwrite in place or append. *)
Fixpoint assign (fields : list (string * Value)) (k : string) (v : Value)
  : list (string * Value) :=
  match fields with
  | [] => [(k, v)]
  | (k', v') :: rest =>
      if k' =? k then (k', v) :: rest else (k', v') :: assign rest k v
  end.

(** *** [JSON.stringify] *)

Definition hex_digit (n : nat) : ascii :=
  match n with
  | 0 => "0" | 1 => "1" | 2 => "2" | 3 => "3" | 4 => "4" | 5 => "5"
  | 6 => "6" | 7 => "7" | 8 => "8" | 9 => "9" | 10 => "a" | 11 => "b"
  | 12 => "c" | 13 => "d" | 14 => "e" | _ => "f"
  end%char.

Definition dquote : ascii := ascii_of_nat 34.
Definition backslash : ascii := ascii_of_nat 92.

Definition escape_char (c : ascii) : string :=
  let n := nat_of_ascii c in
  if Nat.eqb n 34 then String backslash (String dquote "")
  else if Nat.eqb n 92 then String backslash (String backslash "")
  else if Nat.eqb n 8 then String backslash "b"
  else if Nat.eqb n 9 then String backslash "t"
  else if Nat.eqb n 10 then String backslash "n"
  else if Nat.eqb n 12 then String backslash "f"
  else if Nat.eqb n 13 then String backslash "r"
  else if Nat.ltb n 32 then
    String backslash
      ("u00" ++ String (hex_digit (n / 16)) (String (hex_digit (n mod 16)) ""))
  else String c "".

Fixpoint escape (s : string) : string :=
  match s with
  | EmptyString => ""
  | String c rest => escape_char c ++ escape rest
  end.

Definition quote (s : string) : string :=
  String dquote (escape s ++ String dquote "").

(** [None] stands for the [undefined] that [JSON.stringify] returns on
    [undefined]; object members with such a value are skipped and
    array slots print as [null]. *)
Fixpoint stringify (v : Value) : option string :=
  match v with
  | Undefined => None
  | Null => Some "null"
  | Bool true => Some "true"
  | Bool false => Some "false"
  | Num n => Some (string_of_Z n)
  | Str s => Some (quote s)
  | Arr items =>
      Some ("[" ++ String.concat ","
              (map (fun x => match stringify x with
                             | Some s => s
                             | None => "null"
                             end) items) ++ "]")
  | Obj fields =>
      Some ("{" ++ String.concat ","
              ((fix members (fs : list (string * Value)) : list string :=
                  match fs with
                  | [] => []
                  | (k, x) :: rest =>
                      match stringify x with
                      | Some s => (quote k ++ ":" ++ s) :: members rest
                      | None => members rest
                      end
                  end) fields) ++ "}")
  end.

(** *** [Date] *)

Inductive Date :=
| ValidDate (ms : Z)
| InvalidDate.

Definition pad (width : nat) (n : Z) : string :=
  let s := string_of_Z n in
  (fix zeros (k : nat) : string :=
     match k with
     | 0 => s
     | S k' => String "0"%char (zeros k')
     end) (width - String.length s).

(** Proleptic Gregorian date of a day number counted from 1970-01-01. *)
Definition civil_from_days (days : Z) : Z * Z * Z :=
  (let z := days + 719468 in
   let era := z / 146097 in
   let doe := z - era * 146097 in
   let yoe := (doe - doe / 1460 + doe / 36524 - doe / 146096) / 365 in
   let y := yoe + era * 400 in
   let doy := doe - (365 * yoe + yoe / 4 - yoe / 100) in
   let mp := (5 * doy + 2) / 153 in
   let d := doy - (153 * mp + 2) / 5 + 1 in
   let m := if mp <? 10 then mp + 3 else mp - 9 in
   (if m <=? 2 then y + 1 else y, m, d))%Z.

Definition iso_year (y : Z) : string :=
  if ((0 <=? y) && (y <=? 9999))%Z then pad 4 y
  else if (y <? 0)%Z then "-" ++ pad 6 (- y)
  else "+" ++ pad 6 y.

Definition iso_string (ms : Z) : string :=
  let '(y, m, d) := civil_from_days (ms / 86400000) in
  let t := (ms mod 86400000)%Z in
  iso_year y ++ "-" ++ pad 2 m ++ "-" ++ pad 2 d ++ "T"
    ++ pad 2 (t / 3600000) ++ ":" ++ pad 2 (t mod 3600000 / 60000) ++ ":"
    ++ pad 2 (t mod 60000 / 1000) ++ "." ++ pad 3 (t mod 1000) ++ "Z".

Definition toISOString (d : Date) : Result Exn string :=
  match d with
  | ValidDate ms =>
      if (Z.abs ms <=? 8640000000000000)%Z then Ok (iso_string ms)
      else Throw (RangeError "Invalid time value")
  | InvalidDate => Throw (RangeError "Invalid time value")
  end.

(** [sort()] on strings: ascending code-unit order, stable. *)
Fixpoint insert_sorted (x : string) (l : list string) : list string :=
  match l with
  | [] => [x]
  | y :: rest =>
      if String.ltb y x then y :: insert_sorted x rest else x :: l
  end.

Definition sort (l : list string) : list string :=
  fold_right insert_sorted [] l.

End Js.

(* ================================================================= *)
(** ** [Map] and [Set] in insertion order *)

Module JsMap.
Section Ops.
Context {V : Type}.

Definition t := list (string * V).

Definition empty : t := [].

Fixpoint get (m : t) (k : string) : option V :=
  match m with
  | [] => None
  | (k', v) :: rest => if k' =? k then Some v else get rest k
  end.

Definition has (m : t) (k : string) : bool :=
  match get m k with
  | Some _ => true
  | None => false
  end.

(** An existing key keeps its place; a new key goes last. *)
Fixpoint set (m : t) (k : string) (v : V) : t :=
  match m with
  | [] => [(k, v)]
  | (k', v') :: rest =>
      if k' =? k then (k', v) :: rest else (k', v') :: set rest k v
  end.

Definition delete (m : t) (k : string) : t :=
  filter (fun kv => negb (fst kv =? k)) m.

Definition keys (m : t) : list string := map fst m.
Definition values (m : t) : list V := map snd m.
Definition size (m : t) : nat := length m.

(** [m.keys().next().value] *)
Definition firstKey (m : t) : option string :=
  match m with
  | [] => None
  | (k, _) :: _ => Some k
  end.
End Ops.
Arguments t : clear implicits.
End JsMap.

Module JsSet.
Definition t := list string.

Definition has (s : t) (x : string) : bool := existsb (String.eqb x) s.

Definition add (s : t) (x : string) : t :=
  if has s x then s else (s ++ [x])%list.

Definition delete (s : t) (x : string) : t :=
  filter (fun y => negb (y =? x)) s.
End JsSet.

(* ================================================================= *)
(** ** Type definitions ([types/intelligence.ts]) *)

(** [IntentAction]; [action_string] is the string the value is at run
    time. *)
Inductive IntentAction :=
| ActQuery | ActCreate | ActUpdate | ActDelete | ActSync
| ActAnalyze | ActCompare | ActSummarize | ActValidate.

Definition action_string (a : IntentAction) : string :=
  match a with
  | ActQuery => "query"
  | ActCreate => "create"
  | ActUpdate => "update"
  | ActDelete => "delete"
  | ActSync => "sync"
  | ActAnalyze => "analyze"
  | ActCompare => "compare"
  | ActSummarize => "summarize"
  | ActValidate => "validate"
  end.

Inductive EntityRole := RoleSubject | RoleObject | RoleFilter.

Module Entity.
Record t := mk {
  type : string;
  value : string;
  role : option EntityRole;
  confidence : option Q
}.
End Entity.

Inductive FilterOperator :=
| OpEquals | OpNotEquals | OpContains | OpGreaterThan | OpLessThan
| OpIn | OpNotIn.

Definition operator_string (o : FilterOperator) : string :=
  match o with
  | OpEquals => "equals"
  | OpNotEquals => "not_equals"
  | OpContains => "contains"
  | OpGreaterThan => "greater_than"
  | OpLessThan => "less_than"
  | OpIn => "in"
  | OpNotIn => "not_in"
  end.

Module Filter.
Record t := mk {
  field : string;
  operator : FilterOperator;
  value : Js.Value
}.
End Filter.

Module TimeRange.
Record t := mk {
  start : option Js.Date;
  end_ : option Js.Date;
  relative : option string
}.
End TimeRange.

Inductive AggregationType :=
| AggCount | AggSum | AggAverage | AggMin | AggMax | AggGroupBy.

Definition aggregation_string (a : AggregationType) : string :=
  match a with
  | AggCount => "count"
  | AggSum => "sum"
  | AggAverage => "average"
  | AggMin => "min"
  | AggMax => "max"
  | AggGroupBy => "group_by"
  end.

(** The caller context ([any] in the sources): the fields that are
    read, [context.domain] and [context.currentUser]. *)
Module User.
Record t := mk {
  permissions : option (list string);
  role : string
}.
End User.

Module Context.
Record t := mk {
  domain : option string;
  currentUser : option User.t
}.
End Context.

Module Intent.
Record t := mk {
  action : IntentAction;
  entities : list Entity.t;
  filters : option (list Filter.t);
  timeframe : option TimeRange.t;
  aggregation : option AggregationType;
  confidence : option Q;
  context : option Context.t
}.
End Intent.

(** [intent.context?.domain], when truthy. *)
Definition context_domain (i : Intent.t) : option string :=
  match Intent.context i with
  | Some c =>
      match Context.domain c with
      | Some d => if d =? "" then None else Some d
      | None => None
      end
  | None => None
  end.

(** [package], [url] and [auth] are never read and are left out. *)
Module ServerCapability.
Record t := mk {
  protocol : string;
  domains : list string;
  entities : list string;
  operations : list string;
  description : string;
  rateLimit : option (Z * Z)
}.
End ServerCapability.

Inductive ServerStatus := active | inactive | error.

Definition status_eqb (a b : ServerStatus) : bool :=
  match a, b with
  | active, active | inactive, inactive | error, error => true
  | _, _ => false
  end.

Module Metrics.
Record t := mk {
  totalRequests : Z;
  avgResponseTime : Q;
  errorRate : Q
}.
End Metrics.

(** [lastHealthCheck] and [metrics] are optional in the type and always
    set by [register], the only place that builds a registration. *)
Module ServerRegistration.
Record t := mk {
  name : string;
  capability : ServerCapability.t;
  status : ServerStatus;
  lastHealthCheck : Js.Date;
  metrics : Metrics.t
}.
End ServerRegistration.

Definition Params := list (string * Js.Value).

Module RoutingDecision.
Inductive t := mk {
  server : string;
  tool : option string;
  params : option Params;
  protocol : string;
  confidence : option Q;
  alternates : option (list t);
  reasoning : option string
}.
End RoutingDecision.

Inductive ValidationMetadata :=
| OperationMetadata (validatedAt : Js.Date) (rulesApplied : nat)
    (context : option Context.t).

Module ValidationResult.
Record t := mk {
  isValid : bool;
  errors : list string;
  warnings : option (list string);
  suggestions : option (list string);
  metadata : option ValidationMetadata
}.
End ValidationResult.

Inductive RuleType := RuleBusiness | RuleData | RulePermission | RuleIntegrity.
Inductive Severity := SevError | SevWarning | SevInfo.

(** [condition] receives [routing.params]; the predicates installed by
    the engine itself read properties of it and so may throw. *)
Module ValidationRule.
Record t := mk {
  id : string;
  name : string;
  type : RuleType;
  condition : option Params -> Result Exn bool;
  message : string;
  severity : Severity
}.
End ValidationRule.

Module UserFeedback.
Record t := mk {
  helpful : bool;
  rating : option Z;
  comment : option string;
  correctServer : option string;
  correctAction : option string
}.
End UserFeedback.

Module QueryPattern.
Record t := mk {
  pattern : string;
  frequency : Z;
  avgDuration : Q;
  successRate : Q;
  lastUsed : Js.Date
}.
End QueryPattern.

Module LearningInteraction.
Record t := mk {
  query : string;
  intent : Intent.t;
  routing : RoutingDecision.t;
  result : Js.Value;
  duration : Q;
  validation : ValidationResult.t;
  timestamp : option Js.Date;
  feedback : option UserFeedback.t
}.
End LearningInteraction.

(** What [route] can throw: [RoutingError(message, { intent, error })],
    whose [error] is the exception it wraps, if any. *)
Inductive Thrown :=
| Native (e : Exn)
| RoutingError (message : string) (intent : Intent.t) (error : option Thrown).

Definition thrown_message (t : Thrown) : string :=
  match t with
  | Native e => exn_message e
  | RoutingError m _ _ => m
  end.

(* ================================================================= *)
(** ** Server registry ([registry/ServerRegistry.ts]) *)

Module ServerRegistry.

(** One result of [Fuse.search] with [includeScore: true]. *)
Module FuseResult.
Record t := mk {
  item : ServerRegistration.t;
  score : Q
}.
End FuseResult.

(** The registry object.  [fuzzySearch] is [None] until the first
    [updateFuzzySearch]; afterwards it holds the indexed collection.
    Fuse keeps references to the registration objects, which
    [markHealthy], [markUnhealthy], [updateMetrics] and the health
    sweep mutate in place: the collection is therefore kept as the
    list of names and read through [servers] when searched. *)
Record t := mk {
  servers : JsMap.t ServerRegistration.t;
  domainIndex : JsMap.t JsSet.t;
  entityIndex : JsMap.t JsSet.t;
  operationIndex : JsMap.t JsSet.t;
  fuzzySearch : option (list string)
}.

Definition new : t := mk JsMap.empty JsMap.empty JsMap.empty JsMap.empty None.

(** One step of the [forEach] bodies of [updateIndices]. *)
Definition index_add (name : string) (index : JsMap.t JsSet.t) (key : string)
  : JsMap.t JsSet.t :=
  let index' := if JsMap.has index key then index
                else JsMap.set index key [] in
  match JsMap.get index' key with
  | Some s => JsMap.set index' key (JsSet.add s name)
  | None => index'
  end.

(** One step of the [forEach] bodies of [unregister]. *)
Definition index_remove (name : string) (index : JsMap.t JsSet.t)
  (key : string) : JsMap.t JsSet.t :=
  match JsMap.get index key with
  | Some s => JsMap.set index key (JsSet.delete s name)
  | None => index
  end.

Definition updateIndices (r : t) (name : string)
  (capability : ServerCapability.t) : t :=
  mk (servers r)
     (fold_left (index_add name) (ServerCapability.domains capability)
        (domainIndex r))
     (fold_left (index_add name) (ServerCapability.entities capability)
        (entityIndex r))
     (fold_left (index_add name) (ServerCapability.operations capability)
        (operationIndex r))
     (fuzzySearch r).

Definition updateFuzzySearch (r : t) : t :=
  mk (servers r) (domainIndex r) (entityIndex r) (operationIndex r)
     (Some (JsMap.keys (servers r))).

Definition with_servers (r : t) (s : JsMap.t ServerRegistration.t) : t :=
  mk s (domainIndex r) (entityIndex r) (operationIndex r) (fuzzySearch r).

Definition register (r : t) (now : Js.Date) (name : string)
  (capability : ServerCapability.t) : t :=
  let registration :=
    ServerRegistration.mk name capability active now
      (Metrics.mk 0 (0 # 1) (0 # 1)) in
  let r1 := with_servers r (JsMap.set (servers r) name registration) in
  let r2 := updateIndices r1 name capability in
  updateFuzzySearch r2.

Definition unregister (r : t) (serverName : string) : t :=
  match JsMap.get (servers r) serverName with
  | None => r
  | Some server =>
      let c := ServerRegistration.capability server in
      let r1 :=
        mk (JsMap.delete (servers r) serverName)
           (fold_left (index_remove serverName)
              (ServerCapability.domains c) (domainIndex r))
           (fold_left (index_remove serverName)
              (ServerCapability.entities c) (entityIndex r))
           (fold_left (index_remove serverName)
              (ServerCapability.operations c) (operationIndex r))
           (fuzzySearch r) in
      updateFuzzySearch r1
  end.

Definition initialize (r : t) : t := updateFuzzySearch r.

Definition getServer (r : t) (name : string) : option ServerRegistration.t :=
  JsMap.get (servers r) name.

Definition getAllServers (r : t) : list ServerRegistration.t :=
  JsMap.values (servers r).

(** [names.map(name => servers.get(name)).filter(reg => reg && reg.status
    === 'active')] *)
Definition active_registrations (r : t) (names : list string)
  : list ServerRegistration.t :=
  flat_map
    (fun name =>
       match JsMap.get (servers r) name with
       | Some reg =>
           if status_eqb (ServerRegistration.status reg) active
           then [reg] else []
       | None => []
       end) names.

Definition index_lookup (index : JsMap.t JsSet.t) (key : string) : JsSet.t :=
  match JsMap.get index key with
  | Some s => s
  | None => []
  end.

Definition findServersByDomain (r : t) (domain : string) :=
  active_registrations r (index_lookup (domainIndex r) domain).

Definition findServersByEntity (r : t) (entityType : string) :=
  active_registrations r (index_lookup (entityIndex r) entityType).

Definition findServersByOperation (r : t) (operation : string) :=
  active_registrations r (index_lookup (operationIndex r) operation).

(** The candidate set of [findServersForIntent], in insertion order. *)
Definition candidates (r : t) (intent : Intent.t) : JsSet.t :=
  let c1 :=
    fold_left
      (fun c entity =>
         fold_left JsSet.add (index_lookup (entityIndex r) (Entity.type entity)) c)
      (Intent.entities intent) [] in
  let c2 :=
    fold_left JsSet.add
      (index_lookup (operationIndex r) (action_string (Intent.action intent)))
      c1 in
  match context_domain intent with
  | Some d => fold_left JsSet.add (index_lookup (domainIndex r) d) c2
  | None => c2
  end.

Definition searchTerms (intent : Intent.t) : string :=
  String.concat " "
    (action_string (Intent.action intent)
       :: (map Entity.type (Intent.entities intent)
             ++ map Entity.value (Intent.entities intent))%list).

(** The documents Fuse holds, as they are now. *)
Definition fuzzyDocs (r : t) (names : list string)
  : list ServerRegistration.t :=
  flat_map
    (fun name =>
       match JsMap.get (servers r) name with
       | Some reg => [reg]
       | None => []
       end) names.

(** The new metrics of [updateMetrics], in exact arithmetic;
    [Binary64.metrics_update] has them rounded. *)
Definition metrics_update (m : Metrics.t) (requestTime : Q) (success : bool)
  : Metrics.t :=
  let n := (Metrics.totalRequests m + 1)%Z in
  let avg :=
    ((Metrics.avgResponseTime m * inject_Z (n - 1) + requestTime)
       / inject_Z n)%Q in
  let err :=
    if success
    then ((Metrics.errorRate m * inject_Z (n - 1)) / inject_Z n)%Q
    else ((Metrics.errorRate m * inject_Z (n - 1) + 1) / inject_Z n)%Q in
  Metrics.mk n avg err.

Definition updateMetrics (r : t) (serverName : string) (requestTime : Q)
  (success : bool) : t :=
  match JsMap.get (servers r) serverName with
  | None => r
  | Some server =>
      with_servers r
        (JsMap.set (servers r) serverName
           (ServerRegistration.mk
              (ServerRegistration.name server)
              (ServerRegistration.capability server)
              (ServerRegistration.status server)
              (ServerRegistration.lastHealthCheck server)
              (metrics_update (ServerRegistration.metrics server)
                 requestTime success)))
  end.

Definition with_status (server : ServerRegistration.t) (s : ServerStatus)
  (checked : Js.Date) : ServerRegistration.t :=
  ServerRegistration.mk
    (ServerRegistration.name server)
    (ServerRegistration.capability server)
    s checked
    (ServerRegistration.metrics server).

Definition markHealthy (r : t) (now : Js.Date) (serverName : string) : t :=
  match JsMap.get (servers r) serverName with
  | Some server =>
      with_servers r
        (JsMap.set (servers r) serverName (with_status server active now))
  | None => r
  end.

Definition markUnhealthy (r : t) (serverName : string) : t :=
  match JsMap.get (servers r) serverName with
  | Some server =>
      with_servers r
        (JsMap.set (servers r) serverName
           (with_status server error
              (ServerRegistration.lastHealthCheck server)))
  | None => r
  end.

(** The body of the [setInterval] callback of [startHealthChecks], run
    at time [now] (milliseconds). *)
Definition healthCheck (r : t) (now : Z) : t :=
  with_servers r
    (map
       (fun kv : string * ServerRegistration.t =>
          let server := snd kv in
          match ServerRegistration.lastHealthCheck server with
          | Js.ValidDate checked =>
              if (300000 <? now - checked)%Z
              then (fst kv,
                    with_status server inactive
                      (ServerRegistration.lastHealthCheck server))
              else kv
          | Js.InvalidDate => kv
          end)
       (servers r)).

(** The score that [rankServersByRelevance] gives a server. *)
Definition relevance (intent : Intent.t) (server : ServerRegistration.t) : Q :=
  let c := ServerRegistration.capability server in
  let entityMatches :=
    length
      (filter
         (fun e => existsb (String.eqb (Entity.type e))
                     (ServerCapability.entities c))
         (Intent.entities intent)) in
  let s1 := (inject_Z (Z.of_nat entityMatches) * 3)%Q in
  let s2 :=
    if existsb (String.eqb (action_string (Intent.action intent)))
         (ServerCapability.operations c)
    then (s1 + 5)%Q else s1 in
  let s3 :=
    match context_domain intent with
    | Some d =>
        if existsb (String.eqb d) (ServerCapability.domains c)
        then (s2 + 4)%Q else s2
    | None => s2
    end in
  let errorPenalty :=
    (Metrics.errorRate (ServerRegistration.metrics server) * 2)%Q in
  let timePenalty :=
    ((Metrics.avgResponseTime (ServerRegistration.metrics server) / 1000)
       * (1 # 2))%Q in
  (s3 - errorPenalty - timePenalty)%Q.

(** [scored.sort((a, b) => b.score - a.score)]: descending and stable. *)
Fixpoint insert_scored (x : ServerRegistration.t * Q)
  (l : list (ServerRegistration.t * Q)) : list (ServerRegistration.t * Q) :=
  match l with
  | [] => [x]
  | y :: rest =>
      if Qlt_le_dec (snd x) (snd y) then y :: insert_scored x rest
      else x :: l
  end.

Definition rankServersByRelevance (servers : list ServerRegistration.t)
  (intent : Intent.t) : list ServerRegistration.t :=
  let scored := map (fun server => (server, relevance intent server)) servers in
  map fst (fold_right insert_scored [] scored).

Definition canHandleEntities (r : t) (serverName : string)
  (entities : list Entity.t) : bool :=
  match JsMap.get (servers r) serverName with
  | None => false
  | Some server =>
      forallb
        (fun e =>
           existsb (String.eqb (Entity.type e))
             (ServerCapability.entities (ServerRegistration.capability server)))
        entities
  end.

Definition canPerformOperation (r : t) (serverName operation : string) : bool :=
  match JsMap.get (servers r) serverName with
  | None => false
  | Some server =>
      existsb (String.eqb operation)
        (ServerCapability.operations (ServerRegistration.capability server))
  end.

(** [result.score! < 0.5] *)
Definition good_match (result : FuseResult.t) : bool :=
  if Qlt_le_dec (FuseResult.score result) (1 # 2) then true else false.

Section WithFuse.

(** [fuse.search(query)] over the collection the index was built
    from. *)
Variable Fuse_search :
  list ServerRegistration.t -> string -> list FuseResult.t.

Definition fuzzyFindServers (r : t) (intent : Intent.t)
  : Result Exn (list ServerRegistration.t) :=
  match fuzzySearch r with
  | None =>
      Throw (TypeError "Cannot read properties of undefined (reading 'search')")
  | Some names =>
      let results := Fuse_search (fuzzyDocs r names) (searchTerms intent) in
      Ok (map FuseResult.item (filter good_match results))
  end.

Definition findServersForIntent (r : t) (intent : Intent.t)
  : Result Exn (list ServerRegistration.t) :=
  let registrations := active_registrations r (candidates r intent) in
  match registrations with
  | [] => fuzzyFindServers r intent
  | _ => Ok registrations
  end.

End WithFuse.

End ServerRegistry.

(* ================================================================= *)
(** ** Semantic router ([routing/SemanticRouter.ts]) *)

Module SemanticRouter.

Definition Cache := JsMap.t RoutingDecision.t.

(** The literal [operationMap] of [selectTool], with its
    [|| [action]] default. *)
Definition possibleOps (action : IntentAction) : list string :=
  match action with
  | ActQuery => ["list"; "get"; "find"; "search"; "query"]
  | ActCreate => ["create"; "add"; "insert"; "post"]
  | ActUpdate => ["update"; "modify"; "patch"; "put"]
  | ActDelete => ["delete"; "remove"; "destroy"]
  | ActSync => ["sync"; "synchronize"; "replicate"]
  | ActAnalyze => ["analyze"; "aggregate"; "report"]
  | _ => [action_string action]
  end.

Definition includes (l : list string) (x : string) : bool :=
  existsb (String.eqb x) l.

Definition selectTool (server : ServerRegistration.t) (intent : Intent.t)
  : string :=
  let operations :=
    ServerCapability.operations (ServerRegistration.capability server) in
  match find (includes operations) (possibleOps (Intent.action intent)) with
  | Some op =>
      match Intent.entities intent with
      | e :: _ => op ++ "_" ++ Entity.type e
      | [] => op
      end
  | None =>
      match operations with
      | first :: _ => if first =? "" then "query" else first
      | [] => "query"
      end
  end.

Definition is_filter_role (r : option EntityRole) : bool :=
  match r with
  | Some RoleFilter => true
  | _ => false
  end.

Definition buildParameters (intent : Intent.t) : Result Exn Params :=
  let p1 :=
    match Intent.filters intent with
    | Some fs =>
        fold_left
          (fun p f => Js.assign p (Filter.field f) (Filter.value f)) fs []
    | None => []
    end in
  let p2 :=
    fold_left
      (fun p e =>
         if is_filter_role (Entity.role e)
         then Js.assign p (Entity.type e) (Js.Str (Entity.value e))
         else p)
      (Intent.entities intent) p1 in
  p3 <- match Intent.timeframe intent with
        | Some tf =>
            a <- match TimeRange.start tf with
                 | Some d =>
                     s <- Js.toISOString d ;;
                     Ok (Js.assign p2 "startDate" (Js.Str s))
                 | None => Ok p2
                 end ;;
            b <- match TimeRange.end_ tf with
                 | Some d =>
                     s <- Js.toISOString d ;;
                     Ok (Js.assign a "endDate" (Js.Str s))
                 | None => Ok a
                 end ;;
            Ok match TimeRange.relative tf with
               | Some rel =>
                   if rel =? "" then b
                   else Js.assign b "timeframe" (Js.Str rel)
               | None => b
               end
        | None => Ok p2
        end ;;
  Ok match Intent.aggregation intent with
     | Some agg => Js.assign p3 "aggregation" (Js.Str (aggregation_string agg))
     | None => p3
     end.

Definition supports_entity (server : ServerRegistration.t) (e : Entity.t)
  : bool :=
  includes
    (ServerCapability.entities (ServerRegistration.capability server))
    (Entity.type e).

Definition supports_action (server : ServerRegistration.t) (intent : Intent.t)
  : bool :=
  includes
    (ServerCapability.operations (ServerRegistration.capability server))
    (action_string (Intent.action intent)).

Definition calculateRoutingConfidence (server : ServerRegistration.t)
  (intent : Intent.t) : Q :=
  let supportedEntities :=
    filter (supports_entity server) (Intent.entities intent) in
  let c1 :=
    ((1 # 2)
     + (inject_Z (Z.of_nat (length supportedEntities))
          / inject_Z (Z.of_nat (Nat.max (length (Intent.entities intent)) 1)))
       * (2 # 10))%Q in
  let c2 := if supports_action server intent then (c1 + (2 # 10))%Q else c1 in
  let healthScore :=
    (1 - Metrics.errorRate (ServerRegistration.metrics server))%Q in
  Qmin (c2 + healthScore * (1 # 10))%Q 1%Q.

Definition generateRoutingReasoning (server : ServerRegistration.t)
  (intent : Intent.t) : string :=
  let supportedEntities :=
    map Entity.type (filter (supports_entity server) (Intent.entities intent)) in
  let r1 :=
    match supportedEntities with
    | [] => []
    | _ => ["Supports entities: " ++ String.concat ", " supportedEntities]
    end in
  let r2 :=
    if supports_action server intent
    then ["Can perform " ++ action_string (Intent.action intent) ++ " operations"]
    else [] in
  let r3 :=
    match context_domain intent with
    | Some d =>
        if includes
             (ServerCapability.domains (ServerRegistration.capability server)) d
        then ["Specializes in " ++ d] else []
    | None => []
    end in
  let r4 :=
    if Qlt_le_dec
         (Metrics.avgResponseTime (ServerRegistration.metrics server)) 1000%Q
    then ["Fast response time"] else [] in
  String.concat "; " (r1 ++ r2 ++ r3 ++ r4)%list.

Definition entity_pair (e : Entity.t) : string :=
  Entity.type e ++ ":" ++ Entity.value e.

Definition filter_triple (f : Filter.t) : string :=
  Filter.field f ++ ":" ++ operator_string (Filter.operator f) ++ ":"
    ++ Js.toString (Filter.value f).

Definition filters_or_empty (intent : Intent.t) : list Filter.t :=
  match Intent.filters intent with
  | Some fs => fs
  | None => []
  end.

Definition getCacheKey (intent : Intent.t) : string :=
  String.concat "|"
    (action_string (Intent.action intent)
       :: (map entity_pair (Intent.entities intent)
             ++ map filter_triple (filters_or_empty intent))%list).

Definition alternate (intent : Intent.t) (params : Params)
  (server : ServerRegistration.t) : RoutingDecision.t :=
  RoutingDecision.mk
    (ServerRegistration.name server)
    (Some (selectTool server intent))
    (Some params)
    (ServerCapability.protocol (ServerRegistration.capability server))
    (Some (calculateRoutingConfidence server intent))
    None None.

(** The [try] block of [route] after the cache miss, given the
    candidates. *)
Definition decide (intent : Intent.t)
  (candidates : list ServerRegistration.t) : Result Thrown RoutingDecision.t :=
  match candidates with
  | [] => Throw (RoutingError "No servers found for intent" intent None)
  | _ =>
      match ServerRegistry.rankServersByRelevance candidates intent with
      | [] =>
          Throw (Native (TypeError
            "Cannot read properties of undefined (reading 'capability')"))
      | bestServer :: others =>
          match buildParameters intent with
          | Throw e => Throw (Native e)
          | Ok params =>
              Ok (RoutingDecision.mk
                    (ServerRegistration.name bestServer)
                    (Some (selectTool bestServer intent))
                    (Some params)
                    (ServerCapability.protocol
                       (ServerRegistration.capability bestServer))
                    (Some (calculateRoutingConfidence bestServer intent))
                    (Some (map (alternate intent params) (firstn 2 others)))
                    (Some (generateRoutingReasoning bestServer intent)))
          end
      end
  end.

(** [this.routingCache.set(cacheKey, decision)] and the clean-up that
    follows it. *)
Definition cache_insert (cache : Cache) (cacheKey : string)
  (decision : RoutingDecision.t) : Cache :=
  let cache' := JsMap.set cache cacheKey decision in
  if Nat.ltb 1000 (JsMap.size cache') then
    match JsMap.firstKey cache' with
    | Some firstKey => JsMap.delete cache' firstKey
    | None => cache'
    end
  else cache'.

(** The [catch] clause of [route]. *)
Definition wrap (intent : Intent.t) (e : Thrown) : Thrown :=
  RoutingError ("Failed to route intent: " ++ thrown_message e) intent (Some e).

Section WithFuse.

Variable Fuse_search :
  list ServerRegistration.t -> string -> list ServerRegistry.FuseResult.t.

(** [route]: the registry is read, the cache is read and written. *)
Definition route (registry : ServerRegistry.t) (cache : Cache)
  (intent : Intent.t) : Result Thrown RoutingDecision.t * Cache :=
  let cacheKey := getCacheKey intent in
  match JsMap.get cache cacheKey with
  | Some decision => (Ok decision, cache)
  | None =>
      match ServerRegistry.findServersForIntent Fuse_search registry intent with
      | Throw e => (Throw (wrap intent (Native e)), cache)
      | Ok candidates =>
          match decide intent candidates with
          | Throw e => (Throw (wrap intent e), cache)
          | Ok decision =>
              (Ok decision, cache_insert cache cacheKey decision)
          end
      end
  end.

End WithFuse.

Definition clearCache (cache : Cache) : Cache := JsMap.empty.

(** [getStatistics]: [{ cacheSize, cachedRoutes }]. *)
Definition getStatistics (cache : Cache) : nat * list string :=
  (JsMap.size cache, JsMap.keys cache).

End SemanticRouter.

(* ================================================================= *)
(** ** Validation engine ([validation/ValidationEngine.ts]) *)

Module ValidationEngine.

(** *** The regular expression of [validateParameters]

    [/(\bDROP\b|\bDELETE\b|\bUNION\b|\bSELECT\b.*\bFROM\b)/i] on
    strings of 8-bit code units. *)

Definition in_range (lo hi : nat) (c : ascii) : bool :=
  let n := nat_of_ascii c in (Nat.leb lo n && Nat.leb n hi)%bool.

Definition is_word_char (c : ascii) : bool :=
  (in_range 48 57 c || in_range 65 90 c || in_range 97 122 c
   || Nat.eqb (nat_of_ascii c) 95)%bool.

Definition upper (c : ascii) : ascii :=
  if in_range 97 122 c then ascii_of_nat (nat_of_ascii c - 32) else c.

Definition is_line_terminator (c : ascii) : bool :=
  (Nat.eqb (nat_of_ascii c) 10 || Nat.eqb (nat_of_ascii c) 13)%bool.

(** The subject with the keyword [w] removed from its front, case
    ignored. *)
Fixpoint strip_keyword (w s : string) : option string :=
  match w with
  | EmptyString => Some s
  | String a w' =>
      match s with
      | EmptyString => None
      | String b s' =>
          if Ascii.eqb (upper a) (upper b) then strip_keyword w' s' else None
      end
  end.

(** [\bw\b] at the front of [s], where [prev] is the code unit before
    [s], if any. *)
Definition word_at (prev : option ascii) (w s : string) : option string :=
  let boundary_before :=
    match prev with
    | None => true
    | Some c => negb (is_word_char c)
    end in
  if boundary_before then
    match strip_keyword w s with
    | Some rest =>
        match rest with
        | EmptyString => Some rest
        | String c _ => if is_word_char c then None else Some rest
        end
    | None => None
    end
  else None.

Definition is_some {A} (o : option A) : bool :=
  match o with
  | Some _ => true
  | None => false
  end.

(** [.*\bFROM\b] at the front of [s]. *)
Fixpoint from_follows (prev : ascii) (s : string) : bool :=
  if is_some (word_at (Some prev) "FROM" s) then true
  else
    match s with
    | EmptyString => false
    | String c s' =>
        if is_line_terminator c then false else from_follows c s'
    end.

Definition match_here (prev : option ascii) (s : string) : bool :=
  (is_some (word_at prev "DROP" s)
   || is_some (word_at prev "DELETE" s)
   || is_some (word_at prev "UNION" s)
   || match word_at prev "SELECT" s with
      | Some rest => from_follows "T"%char rest
      | None => false
      end)%bool.

Fixpoint search (prev : option ascii) (s : string) : bool :=
  if match_here prev s then true
  else
    match s with
    | EmptyString => false
    | String c s' => search (Some c) s'
    end.

Definition suspiciousPatterns_test (s : string) : bool := search None s.

(** *** The engine *)

Definition Validator := option Params -> Result Exn ValidationResult.t.

Record t := mk {
  rules : JsMap.t (list ValidationRule.t);
  customValidators : JsMap.t Validator
}.

Definition new : t := mk JsMap.empty JsMap.empty.

Definition rule_key (server action : string) : string :=
  server ++ ":" ++ action.

Definition addRule (v : t) (server action : string) (rule : ValidationRule.t)
  : t :=
  let key := rule_key server action in
  let rules1 := if JsMap.has (rules v) key then rules v
                else JsMap.set (rules v) key [] in
  match JsMap.get rules1 key with
  | Some l => mk (JsMap.set rules1 key (l ++ [rule])%list) (customValidators v)
  | None => mk rules1 (customValidators v)
  end.

Definition registerValidator (v : t) (server : string) (validator : Validator)
  : t :=
  mk (rules v) (JsMap.set (customValidators v) server validator).

Definition rules_at (v : t) (key : string) : list ValidationRule.t :=
  match JsMap.get (rules v) key with
  | Some l => l
  | None => []
  end.

Definition getRules (v : t) (server action : string) : list ValidationRule.t :=
  let specific := rules_at v (rule_key server action) in
  let general := rules_at v (rule_key "*" action) in
  (general ++ specific)%list.

(** The argument of a rule or validator as a JavaScript value. *)
Definition data_value (data : option Params) : Js.Value :=
  match data with
  | Some p => Js.Obj p
  | None => Js.Undefined
  end.

Definition require_data : ValidationRule.t :=
  ValidationRule.mk "require-data" "Require data for create" RuleData
    (fun data =>
       Ok match data with
          | Some p => Nat.ltb 0 (length p)
          | None => false
          end)
    "Create operation requires data" SevError.

Definition require_id : ValidationRule.t :=
  ValidationRule.mk "require-id" "Require ID for update" RuleData
    (fun data =>
       Ok match data with
          | Some p =>
              Js.truthy (Js.or (Js.lookup p "id") (Js.lookup p "_id"))
          | None => false
          end)
    "Update operation requires an ID" SevError.

Definition loadDefaultRules (v : t) : t :=
  addRule (addRule v "*" "create" require_data) "*" "update" require_id.

Definition pw_portfolio_required : ValidationRule.t :=
  ValidationRule.mk "pw-portfolio-required" "Portfolio required" RuleBusiness
    (fun data =>
       a <- Js.get (data_value data) "portfolioId" ;;
       if Js.truthy a then Ok true
       else b <- Js.get (data_value data) "portfolio" ;; Ok (Js.truthy b))
    "PropertyWare operations require a portfolio" SevError.

Definition sf_customer_required : ValidationRule.t :=
  ValidationRule.mk "sf-customer-required" "Customer required" RuleBusiness
    (fun data =>
       a <- Js.get (data_value data) "customerId" ;;
       if Js.truthy a then Ok true
       else b <- Js.get (data_value data) "customer" ;; Ok (Js.truthy b))
    "ServiceFusion jobs require a customer" SevError.

Definition validPriorities : list string :=
  ["emergency"; "high"; "medium"; "low"].

Definition wo_priority_valid : ValidationRule.t :=
  ValidationRule.mk "wo-priority-valid" "Valid work order priority"
    RuleBusiness
    (fun data =>
       a <- Js.get (data_value data) "work_order" ;;
       b <- (if Js.truthy a then Ok a
             else Js.get (data_value data) "workOrder") ;;
       if negb (Js.truthy b) then Ok true
       else
         let wo := b in
         let priority := Js.prop wo "priority" in
         Ok (negb (Js.truthy priority)
             || match priority with
                | Js.Str s => existsb (String.eqb s) validPriorities
                | _ => false
                end)%bool)
    "Invalid work order priority" SevError.

Definition loadPropertyManagementRules (v : t) : t :=
  addRule
    (addRule
       (addRule v "propertyware" "create" pw_portfolio_required)
       "servicefusion" "create" sf_customer_required)
    "*" "create" wo_priority_valid.

Definition initialize (v : t) : t :=
  loadPropertyManagementRules (loadDefaultRules v).

(** [validateParameters] returns [{ isValid, errors, warnings }]; the
    pair is [(errors, warnings)]. *)
Definition validateParameters (params : option Params) (intent : Intent.t)
  : list string * list string :=
  let missing_id :=
    match params with
    | Some p => negb (Js.truthy (Js.lookup p "id"))
    | None => true
    end in
  let errors1 :=
    match Intent.action intent with
    | ActCreate =>
        match params with
        | Some (_ :: _) => []
        | _ => ["Create operation requires data"]
        end
    | ActUpdate =>
        if missing_id then ["Update operation requires an ID"] else []
    | ActDelete =>
        if missing_id then ["Delete operation requires an ID"] else []
    | _ => []
    end in
  match params with
  | Some p =>
      let errors2 :=
        flat_map
          (fun kv : string * Js.Value =>
             match snd kv with
             | Js.Str s =>
                 if suspiciousPatterns_test s
                 then ["Potentially malicious input detected"] else []
             | _ => []
             end) p in
      let size :=
        match Js.stringify (Js.Obj p) with
        | Some json => String.length json
        | None => 0
        end in
      ((errors1 ++ errors2)%list,
       if (100000 <? Z.of_nat size)%Z
       then ["Large parameter size may affect performance"] else [])
  | None => (errors1, [])
  end.

Definition requiredPermissions (action : IntentAction) : list string :=
  match action with
  | ActCreate => ["write"; "admin"]
  | ActUpdate => ["write"; "admin"]
  | ActDelete => ["admin"]
  | ActSync => ["admin"]
  | ActQuery => ["read"; "write"; "admin"]
  | _ => ["admin"]
  end.

Definition validatePermissions (user : User.t) (action : IntentAction)
  (server : string) : list string :=
  let hasPermission :=
    existsb
      (fun perm =>
         (match User.permissions user with
          | Some ps => existsb (String.eqb perm) ps
          | None => false
          end
          || (User.role user =? "admin"))%bool)
      (requiredPermissions action) in
  let e1 :=
    if hasPermission then []
    else ["User lacks permission for " ++ action_string action ++ " operation"] in
  let e2 :=
    if ((server =? "propertyware") && (User.role user =? "tenant"))%bool
    then ["Tenants cannot access PropertyWare directly"] else [] in
  (e1 ++ e2)%list.

(** The business-rule loop: the findings of the rules in order, or
    the exception of the first predicate that throws. *)
Fixpoint applyRules (businessRules : list ValidationRule.t)
  (params : option Params) (errors warnings : list string)
  : Result Exn (list string * list string) :=
  match businessRules with
  | [] => Ok (errors, warnings)
  | rule :: rest =>
      holds <- ValidationRule.condition rule params ;;
      if holds then applyRules rest params errors warnings
      else
        match ValidationRule.severity rule with
        | SevError =>
            applyRules rest params
              (errors ++ [ValidationRule.message rule])%list warnings
        | SevWarning =>
            applyRules rest params errors
              (warnings ++ [ValidationRule.message rule])%list
        | SevInfo => applyRules rest params errors warnings
        end
  end.

Definition or_empty (l : option (list string)) : list string :=
  match l with
  | Some x => x
  | None => []
  end.

Definition validateOperation (v : t) (now : Js.Date)
  (routing : RoutingDecision.t) (intent : Intent.t)
  (context : option Context.t) : Result Exn ValidationResult.t :=
  let params := RoutingDecision.params routing in
  let server := RoutingDecision.server routing in
  let '(errors0, warnings0) := validateParameters params intent in
  let errors1 :=
    match context with
    | Some c =>
        match Context.currentUser c with
        | Some user =>
            (errors0 ++ validatePermissions user (Intent.action intent) server)%list
        | None => errors0
        end
    | None => errors0
    end in
  let businessRules :=
    rules_at v (rule_key server (action_string (Intent.action intent))) in
  ew <- applyRules businessRules params errors1 warnings0 ;;
  let '(errors2, warnings2) := ew in
  efs <- match JsMap.get (customValidators v) server with
         | Some customValidator =>
             customResult <- customValidator params ;;
             Ok ((errors2 ++ ValidationResult.errors customResult)%list,
                 (warnings2
                    ++ or_empty (ValidationResult.warnings customResult))%list,
                 or_empty (ValidationResult.suggestions customResult))
         | None => Ok (errors2, warnings2, [])
         end ;;
  let '(errors, warnings, suggestions) := efs in
  Ok (ValidationResult.mk
        (Nat.eqb (length errors) 0)
        errors (Some warnings) (Some suggestions)
        (Some (OperationMetadata now (length businessRules) context))).

(** *** [validateResult] *)

(** What [validateResult] returns: a [ValidationResult] without
    suggestions whose metadata is [{ resultType, resultCount }]. *)
Module ResultValidation.
Record t := mk {
  isValid : bool;
  errors : list string;
  warnings : list string;
  resultType : string;
  resultCount : nat
}.
End ResultValidation.

(** [s.toLowerCase()] on 8-bit code units, as far as the letters of the
    searched words are concerned. *)
Definition lower (c : ascii) : ascii :=
  if in_range 65 90 c then ascii_of_nat (nat_of_ascii c + 32) else c.

Fixpoint toLowerCase (s : string) : string :=
  match s with
  | EmptyString => EmptyString
  | String c rest => String (lower c) (toLowerCase rest)
  end.

(** [hay.includes(needle)] *)
Definition str_includes (hay needle : string) : bool :=
  is_some (String.index 0 needle hay).

Definition pmFields : list string :=
  ["portfolio"; "building"; "unit"; "tenant";
   "lease"; "work_order"; "vendor"; "rent"].

Definition isPropertyManagementData (data : Js.Value) : bool :=
  if negb (Js.truthy data) then false
  else
    match Js.stringify data with
    | Some json =>
        let dataString := toLowerCase json in
        existsb (str_includes dataString) pmFields
    | None => false
    end.

(** [a === 'literal'] *)
Definition is_string (v : Js.Value) (literal : string) : bool :=
  match v with
  | Js.Str s => s =? literal
  | _ => false
  end.

(** [typeof v] *)
Definition typeof (v : Js.Value) : string :=
  match v with
  | Js.Undefined => "undefined"
  | Js.Null => "object"
  | Js.Bool _ => "boolean"
  | Js.Num _ => "number"
  | Js.Str _ => "string"
  | Js.Arr _ | Js.Obj _ => "object"
  end.

(** The warnings of the [forEach] over a query result, from index [index]
    on; reading [item.id] throws on [null] and [undefined]. *)
Fixpoint itemWarnings (items : list Js.Value) (index : nat)
  : Result Exn (list string) :=
  match items with
  | [] => Ok []
  | item :: rest =>
      a <- Js.get item "id" ;;
      b <- Js.get item "_id" ;;
      ws <- itemWarnings rest (S index) ;;
      Ok (if (negb (Js.truthy a) && negb (Js.truthy b))%bool
          then ("Result item " ++ Js.string_of_Z (Z.of_nat index)
                  ++ " missing identifier") :: ws
          else ws)
  end.

Section WithRuntime.

(** [new Date(v)], whose parsing of strings is left to the engine. *)
Variable Date_new : Js.Value -> Js.Date.

(** [v <= 0] for a truthy [v]. *)
Variable le_zero : Js.Value -> bool.

(** [end <= start] on two dates: false when either is invalid. *)
Definition date_le (a b : Js.Date) : bool :=
  match a, b with
  | Js.ValidDate x, Js.ValidDate y => (x <=? y)%Z
  | _, _ => false
  end.

(** Called on truthy data only; the pair is [(errors, warnings)]. *)
Definition validatePropertyManagementData (data : Js.Value)
  : list string * list string :=
  let wo := Js.or (Js.prop data "work_order") (Js.prop data "workOrder") in
  let '(e1, w1) :=
    if Js.truthy wo then
      ((if (is_string (Js.prop wo "status") "completed"
            && negb (Js.truthy (Js.prop wo "completedDate")))%bool
        then ["Completed work order must have a completion date"] else []),
       (if (is_string (Js.prop wo "priority") "emergency"
            && negb (Js.truthy (Js.prop wo "vendor")))%bool
        then ["Emergency work order should have a vendor assigned"] else []))
    else ([], []) in
  let lease := Js.prop data "lease" in
  let e2 :=
    if Js.truthy lease then
      ((if (Js.truthy (Js.prop lease "endDate")
            && Js.truthy (Js.prop lease "startDate"))%bool
        then
          if date_le (Date_new (Js.prop lease "endDate"))
               (Date_new (Js.prop lease "startDate"))
          then ["Lease end date must be after start date"] else []
        else [])
       ++ (if (Js.truthy (Js.prop lease "rentAmount")
               && le_zero (Js.prop lease "rentAmount"))%bool
           then ["Rent amount must be positive"] else []))%list
    else [] in
  let unit := Js.prop data "unit" in
  let '(e3, w3) :=
    if Js.truthy unit then
      ((if (is_string (Js.prop unit "status") "vacant"
            && Js.truthy (Js.prop unit "tenantId"))%bool
        then ["Vacant unit cannot have a tenant"] else []),
       (if (is_string (Js.prop unit "status") "occupied"
            && negb (Js.truthy (Js.prop unit "tenantId")))%bool
        then ["Occupied unit should have a tenant"] else []))
    else ([], []) in
  ((e1 ++ e2 ++ e3)%list, (w1 ++ w3)%list).

Definition validateResult (result : Js.Value) (intent : Intent.t)
  : Result Exn ResultValidation.t :=
  w1 <- match Intent.action intent, result with
        | ActQuery, Js.Arr items =>
            ws <- itemWarnings items 0 ;;
            Ok match items with
               | [] => "Query returned no results" :: ws
               | _ => ws
               end
        | _, _ => Ok []
        end ;;
  let e1 :=
    match Intent.action intent with
    | ActCreate | ActUpdate =>
        if (negb (Js.truthy result)
            || (negb (Js.truthy (Js.prop result "id"))
                && negb (Js.truthy (Js.prop result "_id"))))%bool
        then ["Operation did not return a valid identifier"] else []
    | _ => []
    end in
  let '(e2, w2) :=
    if isPropertyManagementData result
    then validatePropertyManagementData result
    else ([], []) in
  let errors := (e1 ++ e2)%list in
  Ok (ResultValidation.mk
        (Nat.eqb (length errors) 0) errors (w1 ++ w2)%list
        (match result with
         | Js.Arr _ => "array"
         | _ => typeof result
         end)
        (match result with
         | Js.Arr items => length items
         | _ => 1
         end)).

End WithRuntime.

End ValidationEngine.

(* ================================================================= *)
(** ** Learning system ([learning/LearningSystem.ts]) *)

Module LearningSystem.

Module PatternPerf.
Record t := mk {
  count : Z;
  successRate : Q
}.
End PatternPerf.

Module ServerPerformance.
Record t := mk {
  totalRequests : Z;
  successfulRequests : Z;
  avgResponseTime : Q;
  errorRate : Q;
  patterns : JsMap.t PatternPerf.t
}.
End ServerPerformance.

(** The state of the object; saving it to disk changes none of it. *)
Record t := mk {
  interactions : list LearningInteraction.t;
  patterns : JsMap.t QueryPattern.t;
  serverPerformance : JsMap.t ServerPerformance.t;
  maxHistorySize : Z
}.

Definition new (maxHistorySize : Z) : t :=
  mk [] JsMap.empty JsMap.empty maxHistorySize.

(** [array.slice(start)] *)
Definition slice {A} (l : list A) (start : Z) : list A :=
  let len := Z.of_nat (length l) in
  let from := if (start <? 0)%Z then Z.max (len + start) 0
              else Z.min start len in
  skipn (Z.to_nat from) l.

Definition getPatternKey (intent : Intent.t) : string :=
  let relative :=
    match Intent.timeframe intent with
    | Some tf =>
        match TimeRange.relative tf with
        | Some r => r
        | None => ""
        end
    | None => ""
    end in
  String.concat ":"
    (filter (fun s => negb (s =? ""))
       (action_string (Intent.action intent)
          :: (Js.sort (map Entity.type (Intent.entities intent))
                ++ [relative])%list)).

(** The running average [(avg * (n - 1) + x) / n], in exact arithmetic;
    [Binary64.running] is the rounded one. *)
Definition running (avg : Q) (n : Z) (x : Q) : Q :=
  ((avg * inject_Z (n - 1) + x) / inject_Z n)%Q.

Definition success_value (i : LearningInteraction.t) : Q :=
  if ValidationResult.isValid (LearningInteraction.validation i)
  then 1%Q else 0%Q.

Definition updatePatterns (l : t) (now : Js.Date)
  (interaction : LearningInteraction.t) : t :=
  let key := getPatternKey (LearningInteraction.intent interaction) in
  let patterns1 :=
    if JsMap.has (patterns l) key then patterns l
    else JsMap.set (patterns l) key
           (QueryPattern.mk (LearningInteraction.query interaction)
              0 0%Q 0%Q now) in
  match JsMap.get patterns1 key with
  | Some pattern =>
      let frequency := (QueryPattern.frequency pattern + 1)%Z in
      let pattern' :=
        QueryPattern.mk
          (QueryPattern.pattern pattern)
          frequency
          (running (QueryPattern.avgDuration pattern) frequency
             (LearningInteraction.duration interaction))
          (running (QueryPattern.successRate pattern) frequency
             (success_value interaction))
          now in
      mk (interactions l) (JsMap.set patterns1 key pattern')
         (serverPerformance l) (maxHistorySize l)
  | None => mk (interactions l) patterns1 (serverPerformance l) (maxHistorySize l)
  end.

Definition updateServerPerformance (l : t)
  (interaction : LearningInteraction.t) : t :=
  let server :=
    RoutingDecision.server (LearningInteraction.routing interaction) in
  let valid :=
    ValidationResult.isValid (LearningInteraction.validation interaction) in
  let perfs1 :=
    if JsMap.has (serverPerformance l) server then serverPerformance l
    else JsMap.set (serverPerformance l) server
           (ServerPerformance.mk 0 0 0%Q 0%Q JsMap.empty) in
  match JsMap.get perfs1 server with
  | Some perf =>
      let totalRequests := (ServerPerformance.totalRequests perf + 1)%Z in
      let successfulRequests :=
        if valid then (ServerPerformance.successfulRequests perf + 1)%Z
        else ServerPerformance.successfulRequests perf in
      let avgResponseTime :=
        running (ServerPerformance.avgResponseTime perf) totalRequests
          (LearningInteraction.duration interaction) in
      let errorRate :=
        (1 - inject_Z successfulRequests / inject_Z totalRequests)%Q in
      let patternKey := getPatternKey (LearningInteraction.intent interaction) in
      let pats1 :=
        if JsMap.has (ServerPerformance.patterns perf) patternKey
        then ServerPerformance.patterns perf
        else JsMap.set (ServerPerformance.patterns perf) patternKey
               (PatternPerf.mk 0 0%Q) in
      let pats2 :=
        match JsMap.get pats1 patternKey with
        | Some patternPerf =>
            let count := (PatternPerf.count patternPerf + 1)%Z in
            JsMap.set pats1 patternKey
              (PatternPerf.mk count
                 (running (PatternPerf.successRate patternPerf) count
                    (success_value interaction)))
        | None => pats1
        end in
      mk (interactions l) (patterns l)
         (JsMap.set perfs1 server
            (ServerPerformance.mk totalRequests successfulRequests
               avgResponseTime errorRate pats2))
         (maxHistorySize l)
  | None => mk (interactions l) (patterns l) perfs1 (maxHistorySize l)
  end.

Definition with_timestamp (i : LearningInteraction.t) (now : Js.Date)
  : LearningInteraction.t :=
  LearningInteraction.mk
    (LearningInteraction.query i) (LearningInteraction.intent i)
    (LearningInteraction.routing i) (LearningInteraction.result i)
    (LearningInteraction.duration i) (LearningInteraction.validation i)
    (Some now) (LearningInteraction.feedback i).

Definition with_feedback (i : LearningInteraction.t) (f : UserFeedback.t)
  : LearningInteraction.t :=
  LearningInteraction.mk
    (LearningInteraction.query i) (LearningInteraction.intent i)
    (LearningInteraction.routing i) (LearningInteraction.result i)
    (LearningInteraction.duration i) (LearningInteraction.validation i)
    (LearningInteraction.timestamp i) (Some f).

Definition recordInteraction (l : t) (now : Js.Date)
  (interaction : LearningInteraction.t) : t :=
  let interaction := with_timestamp interaction now in
  let pushed := (interactions l ++ [interaction])%list in
  let trimmed :=
    if (maxHistorySize l <? Z.of_nat (length pushed))%Z
    then slice pushed (- maxHistorySize l)
    else pushed in
  let l1 := mk trimmed (patterns l) (serverPerformance l) (maxHistorySize l) in
  let l2 := updatePatterns l1 now interaction in
  updateServerPerformance l2 interaction.

(** [`${i.timestamp?.getTime()}-${i.query}`] *)
Definition interaction_id (i : LearningInteraction.t) : string :=
  match LearningInteraction.timestamp i with
  | Some (Js.ValidDate ms) => Js.string_of_Z ms
  | Some Js.InvalidDate => "NaN"
  | None => "undefined"
  end ++ "-" ++ LearningInteraction.query i.

Definition adjustServerPreference (l : t) (intent : Intent.t)
  (preferredServer currentServer : string) : t :=
  let perfs1 :=
    match JsMap.get (serverPerformance l) preferredServer with
    | Some preferred =>
        JsMap.set (serverPerformance l) preferredServer
          (ServerPerformance.mk
             (ServerPerformance.totalRequests preferred + 1)%Z
             (ServerPerformance.successfulRequests preferred + 1)%Z
             (ServerPerformance.avgResponseTime preferred)
             (ServerPerformance.errorRate preferred)
             (ServerPerformance.patterns preferred))
    | None => serverPerformance l
    end in
  let perfs2 :=
    match JsMap.get perfs1 currentServer with
    | Some current =>
        JsMap.set perfs1 currentServer
          (ServerPerformance.mk
             (ServerPerformance.totalRequests current)
             (ServerPerformance.successfulRequests current)
             (ServerPerformance.avgResponseTime current)
             (Qmin (ServerPerformance.errorRate current + (1 # 10))%Q 1%Q)
             (ServerPerformance.patterns current))
    | None => perfs1
    end in
  mk (interactions l) (patterns l) perfs2 (maxHistorySize l).

(** The first element that satisfies [p] replaced by its image. *)
Fixpoint update_first {A} (p : A -> bool) (f : A -> A) (l : list A) : list A :=
  match l with
  | [] => []
  | x :: rest => if p x then f x :: rest else x :: update_first p f rest
  end.

Definition names_server (feedback : UserFeedback.t) : option string :=
  match UserFeedback.correctServer feedback with
  | Some s => if s =? "" then None else Some s
  | None => None
  end.

Definition recordFeedback (l : t) (interactionId : string)
  (feedback : UserFeedback.t) : t :=
  let is_it := fun i => interaction_id i =? interactionId in
  match find is_it (interactions l) with
  | Some interaction =>
      let l1 :=
        mk (update_first is_it (fun i => with_feedback i feedback)
              (interactions l))
           (patterns l) (serverPerformance l) (maxHistorySize l) in
      match UserFeedback.helpful feedback, names_server feedback with
      | false, Some correctServer =>
          adjustServerPreference l1
            (LearningInteraction.intent interaction) correctServer
            (RoutingDecision.server (LearningInteraction.routing interaction))
      | _, _ => l1
      end
  | None => l
  end.

Definition getServerPerformance (l : t) (serverName : string)
  : option ServerPerformance.t :=
  JsMap.get (serverPerformance l) serverName.

(** One row of [getServerStatsForPattern]. *)
Module ServerPatternStats.
Record t := mk {
  server : string;
  count : Z;
  successRate : Q
}.
End ServerPatternStats.





(** Whether the clean-up of [analyzePatterns], run at time [now]
    (milliseconds), deletes the pattern. *)
Definition stale (now : Z) (pattern : QueryPattern.t) : bool :=
  let oneWeekAgo := (now - 7 * 24 * 60 * 60 * 1000)%Z in
  match QueryPattern.lastUsed pattern with
  | Js.ValidDate used =>
      ((used <? oneWeekAgo) && (QueryPattern.frequency pattern <? 5))%Z%bool
  | Js.InvalidDate => false
  end.

(** [analyzePatterns]: what it does to the state; the suggestions it
    finds are only logged and emitted. *)
Definition analyzePatterns (l : t) (now : Z) : t :=
  mk (interactions l)
     (filter (fun kv : string * QueryPattern.t => negb (stale now (snd kv)))
        (patterns l))
     (serverPerformance l) (maxHistorySize l).

End LearningSystem.


(* ================================================================= *)
(** ** Scenarios used by the statements below *)

Module Scenario.

(** A capability that declares the given entities and operations. *)
Definition capability (protocol : string) (domains entities operations : list string)
  (description : string) : ServerCapability.t :=
  ServerCapability.mk protocol domains entities operations description None.

Definition entity (type value : string) : Entity.t :=
  Entity.mk type value None None.

(** An intent that has only an action and entities. *)
Definition intent (action : IntentAction) (entities : list Entity.t) : Intent.t :=
  Intent.mk action entities None None None None None.

(** Servers A and B of the routing scenario, registered in that order. *)
Definition registryAB (capA capB : ServerCapability.t) (t1 t2 : Js.Date)
  : ServerRegistry.t :=
  ServerRegistry.register
    (ServerRegistry.register ServerRegistry.new t1 "A" capA) t2 "B" capB.

Definition capA : ServerCapability.t :=
  capability "mcp" [] ["work_order"] ["query"; "create"] "".

Definition capB : ServerCapability.t :=
  capability "mcp" [] ["job"] ["query"] "".

Definition epoch : Js.Date := Js.ValidDate 0.

(** A searcher that reports, with score 0, the documents whose name is
    the query, and nothing else: what Fuse does at least on an exact
    match of a key. *)
Definition Fuse_exact (docs : list ServerRegistration.t) (query : string)
  : list ServerRegistry.FuseResult.t :=
  map (fun d => ServerRegistry.FuseResult.mk d (0 # 1))
    (filter (fun d => ServerRegistration.name d =? query) docs).

(** A searcher that finds nothing. *)
Definition Fuse_none (docs : list ServerRegistration.t) (query : string)
  : list ServerRegistry.FuseResult.t := [].

(** A server named [create] that declares the operation [create], marked
    unhealthy after its registration. *)
Definition capCreate : ServerCapability.t :=
  capability "mcp" [] [] ["create"] "".

Definition unhealthyRegistry : ServerRegistry.t :=
  ServerRegistry.markUnhealthy
    (ServerRegistry.register (ServerRegistry.initialize ServerRegistry.new)
       epoch "create" capCreate)
    "create".

Definition unhealthyServer : ServerRegistration.t :=
  ServerRegistration.mk "create" capCreate error epoch
    (Metrics.mk 0 (0 # 1) (0 # 1)).

(** Server [n] registered twice, with different entities, then removed. *)
Definition reregistered : ServerRegistry.t :=
  ServerRegistry.unregister
    (ServerRegistry.register
       (ServerRegistry.register ServerRegistry.new epoch "n" capA)
       epoch "n" capB)
    "n".

(** The intents [{create, [work_order: i]}] for [i] below [n], each
    routed on the registry of servers A and B. *)
Definition numbered (i : nat) : Intent.t :=
  intent ActCreate [entity "work_order" (Js.string_of_Z (Z.of_nat i))].

Definition numbered_calls (n : nat) : list (ServerRegistry.t * Intent.t) :=
  map (fun i => (registryAB capA capB epoch epoch, numbered i)) (seq 0 n).

(** A routing decision for [server] with the given parameters. *)
Definition routing (server : string) (params : Params) : RoutingDecision.t :=
  RoutingDecision.mk server None (Some params) "mcp" None None None.

(** A custom validator that throws. *)
Definition throwingValidator : ValidationEngine.Validator :=
  fun _ => Throw (Error "validator failed").

(** A custom validator that reports one error. *)
Definition rejectingValidator : ValidationEngine.Validator :=
  fun _ => Ok (ValidationResult.mk false ["rejected"] None None None).

(** The initialized engine with a throwing validator for server A. *)
Definition engineThrowing : ValidationEngine.t :=
  ValidationEngine.registerValidator
    (ValidationEngine.initialize ValidationEngine.new) "A" throwingValidator.

(** [{ work_order: { priority: "urgent" } }] *)
Definition urgentWorkOrder : Params :=
  [("work_order", Js.Obj [("priority", Js.Str "urgent")])].

(** A rule that always fails, with severity [warning]. *)
Definition alwaysWarn : ValidationRule.t :=
  ValidationRule.mk "always-warn" "Always warn" RuleBusiness
    (fun _ => Ok false) "Wildcard warning" SevWarning.

Definition engineWarning : ValidationEngine.t :=
  ValidationEngine.addRule ValidationEngine.new "*" "query" alwaysWarn.

(** An interaction for [query], routed to [server], whose validation
    came out as [valid]. *)
Definition interaction (query server : string) (i : Intent.t) (valid : bool)
  (duration : Q) : LearningInteraction.t :=
  LearningInteraction.mk query i (routing server []) Js.Null duration
    (ValidationResult.mk valid [] None None None) None None.

(** One failed query routed to A, recorded at time 0 on a new learning
    system. *)
Definition learnedOneFailure : LearningSystem.t :=
  LearningSystem.recordInteraction (LearningSystem.new 1000) epoch
    (interaction "list units" "A" (intent ActQuery []) false (40 # 1)).

(** [{ helpful: false, correctServer: "B" }] *)
Definition preferB : UserFeedback.t :=
  UserFeedback.mk false None None (Some "B") None.

(** Three queries of one pattern: valid, invalid, valid. *)
Definition threeQueries : list (Js.Date * LearningInteraction.t) :=
  [(epoch, interaction "list units" "A" (intent ActQuery []) true (30 # 1));
   (epoch, interaction "show units" "A" (intent ActQuery []) false (50 # 1));
   (epoch, interaction "get units" "B" (intent ActQuery []) true (10 # 1))].

End Scenario.

(* ================================================================= *)
(** ** Specification predicates *)

Module Spec.

(** Server [name] is registered in [r] and its capability lists [key]
    in the field [declared]. *)
Definition declares (declared : ServerCapability.t -> list string)
  (r : ServerRegistry.t) (key name : string) : Prop :=
  exists reg,
    JsMap.get (ServerRegistry.servers r) name = Some reg
    /\ In key (declared (ServerRegistration.capability reg)).

(** An index holds, under each key, exactly the registered servers that
    declare the key. *)
Definition index_exact (declared : ServerCapability.t -> list string)
  (index : JsMap.t JsSet.t) (r : ServerRegistry.t) : Prop :=
  forall key name,
    In name (ServerRegistry.index_lookup index key)
    <-> declares declared r key name.

Definition indices_exact (r : ServerRegistry.t) : Prop :=
  index_exact ServerCapability.domains (ServerRegistry.domainIndex r) r
  /\ index_exact ServerCapability.entities (ServerRegistry.entityIndex r) r
  /\ index_exact ServerCapability.operations (ServerRegistry.operationIndex r) r.

(** Registry operations, and a run of them. *)
Inductive RegistryOp :=
| Register (now : Js.Date) (name : string) (capability : ServerCapability.t)
| Unregister (name : string).

Definition step (r : ServerRegistry.t) (op : RegistryOp) : ServerRegistry.t :=
  match op with
  | Register now name capability => ServerRegistry.register r now name capability
  | Unregister name => ServerRegistry.unregister r name
  end.

Definition run (r : ServerRegistry.t) (ops : list RegistryOp) : ServerRegistry.t :=
  fold_left step ops r.

(** Every [Register] of the run is for a name that is not registered at
    that point. *)
Fixpoint registers_fresh (r : ServerRegistry.t) (ops : list RegistryOp) : Prop :=
  match ops with
  | [] => True
  | op :: rest =>
      match op with
      | Register _ name _ => ServerRegistry.getServer r name = None
      | Unregister _ => True
      end
      /\ registers_fresh (step r op) rest
  end.

(** A decision cache as the router can hold it: distinct keys and at
    most 1000 entries. *)
Definition cache_ok (cache : SemanticRouter.Cache) : Prop :=
  NoDup (JsMap.keys cache) /\ JsMap.size cache <= 1000.

(** The cache after a series of [route] calls, each on the registry as
    it is at the time of the call. *)
Definition route_all
  (Fuse_search : list ServerRegistration.t -> string
                 -> list ServerRegistry.FuseResult.t)
  (calls : list (ServerRegistry.t * Intent.t)) (cache : SemanticRouter.Cache)
  : SemanticRouter.Cache :=
  fold_left
    (fun c call => snd (SemanticRouter.route Fuse_search (fst call) c (snd call)))
    calls cache.

(** A series of [recordInteraction] calls, each at its own time. *)
Definition recordAll (l : LearningSystem.t)
  (recs : list (Js.Date * LearningInteraction.t)) : LearningSystem.t :=
  fold_left (fun l r => LearningSystem.recordInteraction l (fst r) (snd r))
    recs l.

(** The count and the two averages stored for a pattern, zero when the
    pattern is unknown. *)
Definition pattern_stats (l : LearningSystem.t) (key : string) : Z * Q * Q :=
  match JsMap.get (LearningSystem.patterns l) key with
  | Some p =>
      (QueryPattern.frequency p, QueryPattern.avgDuration p,
       QueryPattern.successRate p)
  | None => (0%Z, 0%Q, 0%Q)
  end.

Definition sum (xs : list Q) : Q := fold_right Qplus 0%Q xs.

(** The batch mean of the spec: the sum divided by the number of
    values. *)
Definition mean (xs : list Q) : Q :=
  (sum xs / inject_Z (Z.of_nat (length xs)))%Q.

End Spec.

(* ================================================================= *)
(** ** Further scenarios and predicates *)

Module More.

(** Every public operation of the registry, and the sweep of its
    health timer. *)
Inductive RegistryCall :=
| CallInitialize
| CallRegister (now : Js.Date) (name : string) (capability : ServerCapability.t)
| CallUnregister (name : string)
| CallUpdateMetrics (name : string) (requestTime : Q) (success : bool)
| CallMarkHealthy (now : Js.Date) (name : string)
| CallMarkUnhealthy (name : string)
| CallHealthCheck (now : Z).

Definition call (r : ServerRegistry.t) (c : RegistryCall) : ServerRegistry.t :=
  match c with
  | CallInitialize => ServerRegistry.initialize r
  | CallRegister now name capability =>
      ServerRegistry.register r now name capability
  | CallUnregister name => ServerRegistry.unregister r name
  | CallUpdateMetrics name requestTime success =>
      ServerRegistry.updateMetrics r name requestTime success
  | CallMarkHealthy now name => ServerRegistry.markHealthy r now name
  | CallMarkUnhealthy name => ServerRegistry.markUnhealthy r name
  | CallHealthCheck now => ServerRegistry.healthCheck r now
  end.

Definition calls (r : ServerRegistry.t) (cs : list RegistryCall)
  : ServerRegistry.t :=
  fold_left call cs r.

(** What holds of a registration stored under [key]. *)
Definition registration_ok (key : string) (reg : ServerRegistration.t) : Prop :=
  ServerRegistration.name reg = key
  /\ (0 <= Metrics.totalRequests (ServerRegistration.metrics reg))%Z
  /\ (0 <= Metrics.errorRate (ServerRegistration.metrics reg))%Q
  /\ (Metrics.errorRate (ServerRegistration.metrics reg) <= 1)%Q.

Definition registry_ok (r : ServerRegistry.t) : Prop :=
  NoDup (JsMap.keys (ServerRegistry.servers r))
  /\ (forall key reg,
        In (key, reg) (ServerRegistry.servers r) -> registration_ok key reg)
  /\ (ServerRegistry.fuzzySearch r = None
      \/ ServerRegistry.fuzzySearch r
         = Some (JsMap.keys (ServerRegistry.servers r))).

(** The tool name that [selectTool] builds from an operation. *)
Definition tool_of (operation : string) (intent : Intent.t) : string :=
  match Intent.entities intent with
  | e :: _ => operation ++ "_" ++ Entity.type e
  | [] => operation
  end.

(** A date [toISOString] accepts. *)
Definition valid_date (d : Js.Date) : Prop :=
  exists ms, d = Js.ValidDate ms /\ (Z.abs ms <= 8640000000000000)%Z.

(** [s] in upper case (ASCII letters). *)
Fixpoint upcase (s : string) : string :=
  match s with
  | EmptyString => EmptyString
  | String c rest => String (ValidationEngine.upper c) (upcase rest)
  end.

(** The words of the injection pattern that stand alone, in any case. *)
Definition is_keyword (w : string) : Prop :=
  upcase w = "DROP" \/ upcase w = "DELETE" \/ upcase w = "UNION".

(** The last character of [s], or [prev] when [s] is empty. *)
Fixpoint last_char (prev : option ascii) (s : string) : option ascii :=
  match s with
  | EmptyString => prev
  | String c rest => last_char (Some c) rest
  end.

(** The character before a word, if any, is not a word character. *)
Definition boundary (prev : option ascii) : Prop :=
  match prev with
  | Some c => ValidationEngine.is_word_char c = false
  | None => True
  end.

(** [s] does not end, respectively start, with a word character. *)
Definition ends_outside_word (s : string) : Prop :=
  match last_char None s with
  | Some c => ValidationEngine.is_word_char c = false
  | None => True
  end.

Definition starts_outside_word (s : string) : Prop :=
  match s with
  | EmptyString => True
  | String c _ => ValidationEngine.is_word_char c = false
  end.

Definition severity_eqb (a b : Severity) : bool :=
  match a, b with
  | SevError, SevError | SevWarning, SevWarning | SevInfo, SevInfo => true
  | _, _ => false
  end.

(** The rule has severity [sev] and its condition is false on
    [params]. *)
Definition fails (sev : Severity) (params : option Params)
  (rule : ValidationRule.t) : bool :=
  match ValidationRule.condition rule params with
  | Ok false => severity_eqb (ValidationRule.severity rule) sev
  | _ => false
  end.

Definition failed_messages (sev : Severity) (params : option Params)
  (rules : list ValidationRule.t) : list string :=
  map ValidationRule.message (filter (fails sev params) rules).

(** The errors of the permission check, when the context names a
    user. *)
Definition permission_errors (context : option Context.t)
  (action : IntentAction) (server : string) : list string :=
  match context with
  | Some c =>
      match Context.currentUser c with
      | Some user => ValidationEngine.validatePermissions user action server
      | None => []
      end
  | None => []
  end.

(** The errors, warnings and suggestions of the custom validator of
    [server], when there is one and it returns. *)
Definition validator_findings (v : ValidationEngine.t) (server : string)
  (params : option Params) : list string * list string * list string :=
  match JsMap.get (ValidationEngine.customValidators v) server with
  | Some validator =>
      match validator params with
      | Ok r =>
          (ValidationResult.errors r,
           ValidationEngine.or_empty (ValidationResult.warnings r),
           ValidationEngine.or_empty (ValidationResult.suggestions r))
      | Throw _ => ([], [], [])
      end
  | None => ([], [], [])
  end.

(** [routing.params] has no truthy [id]. *)
Definition lacks_id (params : option Params) : Prop :=
  match params with
  | Some p => Js.truthy (Js.lookup p "id") = false
  | None => True
  end.

(** [null] or [undefined]. *)
Definition nullish (v : Js.Value) : bool :=
  match v with
  | Js.Undefined | Js.Null => true
  | _ => false
  end.

(** A runtime in which no string is a date and nothing is below zero;
    the properties below hold in every runtime. *)
Definition no_date (v : Js.Value) : Js.Date := Js.InvalidDate.
Definition never_le_zero (v : Js.Value) : bool := false.

(** Every operation of the learning system that changes its state. *)
Inductive LearningCall :=
| CallRecord (now : Js.Date) (interaction : LearningInteraction.t)
| CallFeedback (interactionId : string) (feedback : UserFeedback.t)
| CallAnalyze (now : Z).

Definition learn (l : LearningSystem.t) (c : LearningCall) : LearningSystem.t :=
  match c with
  | CallRecord now interaction =>
      LearningSystem.recordInteraction l now interaction
  | CallFeedback interactionId feedback =>
      LearningSystem.recordFeedback l interactionId feedback
  | CallAnalyze now => LearningSystem.analyzePatterns l now
  end.

Definition learns (l : LearningSystem.t) (cs : list LearningCall)
  : LearningSystem.t :=
  fold_left learn cs l.

Definition rate_ok (q : Q) : Prop := (0 <= q)%Q /\ (q <= 1)%Q.

Definition pattern_ok (p : QueryPattern.t) : Prop :=
  (1 <= QueryPattern.frequency p)%Z /\ rate_ok (QueryPattern.successRate p).

Definition patternPerf_ok (p : LearningSystem.PatternPerf.t) : Prop :=
  (1 <= LearningSystem.PatternPerf.count p)%Z
  /\ rate_ok (LearningSystem.PatternPerf.successRate p).

Definition performance_ok (p : LearningSystem.ServerPerformance.t) : Prop :=
  (0 <= LearningSystem.ServerPerformance.successfulRequests p)%Z
  /\ (LearningSystem.ServerPerformance.successfulRequests p
      <= LearningSystem.ServerPerformance.totalRequests p)%Z
  /\ (1 <= LearningSystem.ServerPerformance.totalRequests p)%Z
  /\ rate_ok (LearningSystem.ServerPerformance.errorRate p)
  /\ NoDup (JsMap.keys (LearningSystem.ServerPerformance.patterns p))
  /\ (forall key pp,
        In (key, pp) (LearningSystem.ServerPerformance.patterns p) ->
        patternPerf_ok pp).

Definition learning_ok (l : LearningSystem.t) : Prop :=
  NoDup (JsMap.keys (LearningSystem.patterns l))
  /\ NoDup (JsMap.keys (LearningSystem.serverPerformance l))
  /\ (forall key p, In (key, p) (LearningSystem.patterns l) -> pattern_ok p)
  /\ (forall key p,
        In (key, p) (LearningSystem.serverPerformance l) -> performance_ok p).

(** Every value of the map satisfies [P]. *)
Definition all_values {V : Type} (P : V -> Prop) (m : JsMap.t V) : Prop :=
  forall k v, In (k, v) m -> P v.

(** What [updateServerPerformance] needs of the entry it updates. *)
Definition performance_pre (p : LearningSystem.ServerPerformance.t) : Prop :=
  (0 <= LearningSystem.ServerPerformance.successfulRequests p)%Z
  /\ (LearningSystem.ServerPerformance.successfulRequests p
      <= LearningSystem.ServerPerformance.totalRequests p)%Z
  /\ NoDup (JsMap.keys (LearningSystem.ServerPerformance.patterns p))
  /\ all_values patternPerf_ok (LearningSystem.ServerPerformance.patterns p).

(** Two performance entries that differ at most in the error rate. *)
Definition same_counts (p q : LearningSystem.ServerPerformance.t) : Prop :=
  LearningSystem.ServerPerformance.totalRequests p
  = LearningSystem.ServerPerformance.totalRequests q
  /\ LearningSystem.ServerPerformance.successfulRequests p
     = LearningSystem.ServerPerformance.successfulRequests q
  /\ LearningSystem.ServerPerformance.avgResponseTime p
     = LearningSystem.ServerPerformance.avgResponseTime q
  /\ LearningSystem.ServerPerformance.patterns p
     = LearningSystem.ServerPerformance.patterns q.

Definition same_entry (a b : option LearningSystem.ServerPerformance.t) : Prop :=
  match a, b with
  | Some p, Some q => same_counts p q
  | None, None => True
  | _, _ => False
  end.

End More.

(* ================================================================= *)
(** ** The averaged numbers in binary64

    The modules above compute averages and rates on exact rationals.
    A JavaScript number is a binary64 value, and each product, sum and
    quotient of a running average rounds to the nearest one.  This
    module gives the statistics that [updatePatterns] and
    [updateMetrics] maintain as the code computes them, on the kernel's
    binary64 numbers (IEEE 754, round to nearest, ties to even).
    Counters stay integers: a counter is exact below [2^53]. *)

Module Binary64.
Import PrimFloat.
Local Open Scope float_scope.

(** The number that a counter is: built with exact operations. *)
Fixpoint of_positive (p : positive) : float :=
  match p with
  | xH => 1
  | xO q => 2 * of_positive q
  | xI q => 2 * of_positive q + 1
  end.

Definition of_count (n : Z) : float :=
  match n with
  | Z0 => 0
  | Zpos p => of_positive p
  | Zneg p => - of_positive p
  end.

(** The running average [(avg * (n - 1) + x) / n], each operation
    rounded. *)
Definition running (avg : float) (n : Z) (x : float) : float :=
  (avg * of_count (n - 1) + x) / of_count n.

(** What [updatePatterns] reads of an interaction. *)
Module LearningInteraction.
Record t := mk {
  query : string;
  intent : Intent.t;
  duration : float;
  validation : ValidationResult.t
}.
End LearningInteraction.

Module QueryPattern.
Record t := mk {
  pattern : string;
  frequency : Z;
  avgDuration : float;
  successRate : float;
  lastUsed : Js.Date
}.
End QueryPattern.

(** [interaction.validation.isValid ? 1 : 0] *)
Definition flag (b : bool) : float := if b then 1 else 0.

Definition success_value (i : LearningInteraction.t) : float :=
  flag (ValidationResult.isValid (LearningInteraction.validation i)).

(** [updatePatterns] on [this.patterns]. *)
Definition updatePatterns (patterns : JsMap.t QueryPattern.t) (now : Js.Date)
  (interaction : LearningInteraction.t) : JsMap.t QueryPattern.t :=
  let key :=
    LearningSystem.getPatternKey (LearningInteraction.intent interaction) in
  let patterns1 :=
    if JsMap.has patterns key then patterns
    else JsMap.set patterns key
           (QueryPattern.mk (LearningInteraction.query interaction)
              0 0 0 now) in
  match JsMap.get patterns1 key with
  | Some pattern =>
      let frequency := (QueryPattern.frequency pattern + 1)%Z in
      JsMap.set patterns1 key
        (QueryPattern.mk
           (QueryPattern.pattern pattern)
           frequency
           (running (QueryPattern.avgDuration pattern) frequency
              (LearningInteraction.duration interaction))
           (running (QueryPattern.successRate pattern) frequency
              (success_value interaction))
           now)
  | None => patterns1
  end.

(** The patterns after a series of recorded interactions, each at its
    own time: [recordInteraction] changes [this.patterns] through
    [updatePatterns] only. *)
Definition recordAll (patterns : JsMap.t QueryPattern.t)
  (recs : list (Js.Date * LearningInteraction.t)) : JsMap.t QueryPattern.t :=
  fold_left (fun m r => updatePatterns m (fst r) (snd r)) recs patterns.

Module Metrics.
Record t := mk {
  totalRequests : Z;
  avgResponseTime : float;
  errorRate : float
}.
End Metrics.

(** The metrics that [register] installs. *)
Definition zero_metrics : Metrics.t := Metrics.mk 0 0 0.

(** What [updateMetrics] does to the metrics of a registered server. *)
Definition metrics_update (m : Metrics.t) (requestTime : float)
  (success : bool) : Metrics.t :=
  let n := (Metrics.totalRequests m + 1)%Z in
  let avg :=
    (Metrics.avgResponseTime m * of_count (n - 1) + requestTime)
    / of_count n in
  let err :=
    if success
    then (Metrics.errorRate m * of_count (n - 1)) / of_count n
    else ((Metrics.errorRate m * of_count (n - 1)) + 1) / of_count n in
  Metrics.mk n avg err.

Definition updateAll (m : Metrics.t) (samples : list (float * bool))
  : Metrics.t :=
  fold_left (fun m s => metrics_update m (fst s) (snd s)) samples m.

(** *** The batch mean, for comparison *)

(** The mean of [n] numbers of sum [sum]: the binary64 number nearest
    to the quotient, since integers below [2^53] are exact and a
    division rounds once. *)
Definition rounded_mean (sum n : Z) : float := of_count sum / of_count n.

(** The rate of [k] ones among [n] values; a rate starts at 0. *)
Definition rate (k n : Z) : float :=
  if (n =? 0)%Z then 0 else rounded_mean k n.

(** The running average of [xs] continued from [avg] after [n]
    values. *)
Fixpoint averaged (avg : float) (n : Z) (xs : list float) : float :=
  match xs with
  | [] => avg
  | x :: rest => averaged (running avg (n + 1) x) (n + 1) rest
  end.

Definition count {A} (p : A -> bool) (l : list A) : Z :=
  Z.of_nat (length (filter p l)).

Definition is_valid (r : Js.Date * LearningInteraction.t) : bool :=
  ValidationResult.isValid (LearningInteraction.validation (snd r)).

Definition is_failure (s : float * bool) : bool := negb (snd s).

(** The count and the two averages stored for a pattern, zero when the
    pattern is unknown. *)
Definition pattern_stats (patterns : JsMap.t QueryPattern.t) (key : string)
  : Z * float * float :=
  match JsMap.get patterns key with
  | Some p =>
      (QueryPattern.frequency p, QueryPattern.avgDuration p,
       QueryPattern.successRate p)
  | None => (0%Z, 0, 0)
  end.

(** An interaction of the pattern [query], valid or not, that took
    [duration] milliseconds. *)
Definition interaction (valid : bool) (duration : Z)
  : Js.Date * LearningInteraction.t :=
  (Scenario.epoch,
   LearningInteraction.mk "list units" (Scenario.intent ActQuery [])
     (of_count duration) (ValidationResult.mk valid [] None None None)).

(** Fifteen valid interactions and then eight invalid ones. *)
Definition fifteenOfTwentyThree : list (Js.Date * LearningInteraction.t) :=
  (repeat (interaction true 0) 15 ++ repeat (interaction false 0) 8)%list.

(** Eight valid interactions that took 2, 14, 13, 7, 4, 10, 11 and 2
    milliseconds: 63 in all. *)
Definition eightDurations : list (Js.Date * LearningInteraction.t) :=
  map (interaction true) [2; 14; 13; 7; 4; 10; 11; 2]%Z.

End Binary64.

(* ================================================================= *)
(** ** Properties of [Map] and [Set] *)

Module JsMapFacts.
Section Facts.
Context {V : Type}.
Implicit Types (m : JsMap.t V) (k : string) (v : V).

Lemma get_set_same m k v : JsMap.get (JsMap.set m k v) k = Some v.
Proof.
  induction m as [|[k' v'] m IH]; simpl.
  - now rewrite String.eqb_refl.
  - destruct (k' =? k) eqn:E; simpl; rewrite E; auto.
Qed.

Lemma get_set_other m k k' v :
  k <> k' -> JsMap.get (JsMap.set m k v) k' = JsMap.get m k'.
Proof.
  intros Hne. induction m as [|[k0 v0] m IH]; simpl.
  - apply String.eqb_neq in Hne. now rewrite Hne.
  - destruct (k0 =? k) eqn:E; simpl.
    + apply String.eqb_eq in E. subst k0.
      apply String.eqb_neq in Hne. now rewrite Hne.
    + now rewrite IH.
Qed.

Lemma get_delete_same m k : JsMap.get (JsMap.delete m k) k = None.
Proof.
  induction m as [|[k' v'] m IH]; simpl; auto.
  destruct (k' =? k) eqn:E; simpl; auto. now rewrite E.
Qed.

Lemma get_delete_other m k k' :
  k <> k' -> JsMap.get (JsMap.delete m k) k' = JsMap.get m k'.
Proof.
  intros Hne. induction m as [|[k0 v0] m IH]; simpl; auto.
  destruct (k0 =? k) eqn:E; simpl.
  - apply String.eqb_eq in E. subst k0.
    apply String.eqb_neq in Hne. now rewrite Hne.
  - now rewrite IH.
Qed.

Lemma get_None_not_in m k :
  JsMap.get m k = None <-> ~ In k (JsMap.keys m).
Proof.
  induction m as [|[k' v'] m IH]; simpl.
  - tauto.
  - destruct (k' =? k) eqn:E.
    + apply String.eqb_eq in E. split; [discriminate | intros H; elim H; auto].
    + apply String.eqb_neq in E. rewrite IH. tauto.
Qed.

(** A key that is absent is appended. *)
Lemma set_absent m k v :
  JsMap.get m k = None -> JsMap.set m k v = (m ++ [(k, v)])%list.
Proof.
  induction m as [|[k' v'] m IH]; simpl; auto.
  destruct (k' =? k); [discriminate | intros H; now rewrite IH].
Qed.

Lemma delete_absent m k :
  ~ In k (JsMap.keys m) -> JsMap.delete m k = m.
Proof.
  induction m as [|[k' v'] m IH]; simpl; auto.
  intros H. destruct (k' =? k) eqn:E; simpl.
  - apply String.eqb_eq in E. tauto.
  - rewrite IH; tauto.
Qed.

End Facts.
End JsMapFacts.

Module JsSetFacts.

Lemma has_In (s : JsSet.t) (x : string) : JsSet.has s x = true <-> In x s.
Proof.
  unfold JsSet.has. rewrite existsb_exists. split.
  - intros (y & Hy & E). apply String.eqb_eq in E. now subst.
  - intros H. exists x. split; auto. apply String.eqb_refl.
Qed.

Lemma In_add (s : JsSet.t) (x y : string) :
  In y (JsSet.add s x) <-> y = x \/ In y s.
Proof.
  unfold JsSet.add. destruct (JsSet.has s x) eqn:E.
  - apply has_In in E. split; [tauto | intros [->|]; auto].
  - rewrite in_app_iff. simpl. intuition.
Qed.

Lemma In_delete (s : JsSet.t) (x y : string) :
  In y (JsSet.delete s x) <-> y <> x /\ In y s.
Proof.
  unfold JsSet.delete. rewrite filter_In. split.
  - intros [H E]. apply negb_true_iff, String.eqb_neq in E. tauto.
  - intros [H E]. split; auto. now apply negb_true_iff, String.eqb_neq.
Qed.

End JsSetFacts.

(* ================================================================= *)
(** ** The registry *)

Module RegistryProps.
Import ServerRegistry.

(** C10.  [updateMetrics] for a name that the registry does not hold
    returns without an error (the model is a total function) and leaves
    the whole registry as it was: the registrations and their metrics,
    the three indices and the search index. *)
Theorem updateMetrics_unknown_server_noop
  (r : t) (serverName : string) (requestTime : Q) (success : bool) :
  getServer r serverName = None ->
  updateMetrics r serverName requestTime success = r.
Proof.
  unfold getServer, updateMetrics. intros H. now rewrite H.
Qed.

Lemma updateMetrics_unknown_server_noop_witness :
  getServer (Scenario.registryAB Scenario.capA Scenario.capB
               Scenario.epoch Scenario.epoch) "C" = None
  /\ updateMetrics
       (Scenario.registryAB Scenario.capA Scenario.capB
          Scenario.epoch Scenario.epoch) "C" (120 # 1) false
     = Scenario.registryAB Scenario.capA Scenario.capB
         Scenario.epoch Scenario.epoch.
Proof.
  split.
  - reflexivity.
  - apply updateMetrics_unknown_server_noop. reflexivity.
Defined.

(** *** The three indices *)

Lemma lookup_index_add name index k key :
  index_lookup (index_add name index k) key
  = if k =? key then JsSet.add (index_lookup index k) name
    else index_lookup index key.
Proof.
  unfold index_add, index_lookup, JsMap.has.
  destruct (JsMap.get index k) as [s|] eqn:G.
  - rewrite G. destruct (k =? key) eqn:E.
    + apply String.eqb_eq in E. subst key.
      now rewrite JsMapFacts.get_set_same.
    + apply String.eqb_neq in E. now rewrite JsMapFacts.get_set_other.
  - rewrite JsMapFacts.get_set_same. destruct (k =? key) eqn:E.
    + apply String.eqb_eq in E. subst key.
      now rewrite JsMapFacts.get_set_same.
    + apply String.eqb_neq in E.
      now rewrite !JsMapFacts.get_set_other.
Qed.

Lemma lookup_index_remove name index k key :
  index_lookup (index_remove name index k) key
  = if k =? key then JsSet.delete (index_lookup index k) name
    else index_lookup index key.
Proof.
  unfold index_remove, index_lookup.
  destruct (JsMap.get index k) as [s|] eqn:G.
  - destruct (k =? key) eqn:E.
    + apply String.eqb_eq in E. subst key.
      now rewrite JsMapFacts.get_set_same.
    + apply String.eqb_neq in E. now rewrite JsMapFacts.get_set_other.
  - destruct (k =? key) eqn:E; auto.
    apply String.eqb_eq in E. subst key. now rewrite G.
Qed.

Lemma In_fold_index_add name keys : forall index key n,
  In n (index_lookup (fold_left (index_add name) keys index) key)
  <-> In n (index_lookup index key) \/ (n = name /\ In key keys).
Proof.
  induction keys as [|k keys IH]; intros index key n; simpl.
  - tauto.
  - rewrite IH, lookup_index_add. destruct (k =? key) eqn:E.
    + apply String.eqb_eq in E. subst key.
      rewrite JsSetFacts.In_add. tauto.
    + apply String.eqb_neq in E. intuition congruence.
Qed.

Lemma In_fold_index_remove name keys : forall index key n,
  In n (index_lookup (fold_left (index_remove name) keys index) key)
  <-> In n (index_lookup index key) /\ ~ (n = name /\ In key keys).
Proof.
  induction keys as [|k keys IH]; intros index key n; simpl.
  - tauto.
  - rewrite IH, lookup_index_remove. destruct (k =? key) eqn:E.
    + apply String.eqb_eq in E. subst key.
      rewrite JsSetFacts.In_delete. tauto.
    + apply String.eqb_neq in E. intuition congruence.
Qed.

Section OneIndex.
Variable declared : ServerCapability.t -> list string.

Lemma index_exact_register r index now name capability :
  getServer r name = None ->
  Spec.index_exact declared index r ->
  Spec.index_exact declared
    (fold_left (index_add name) (declared capability) index)
    (register r now name capability).
Proof.
  unfold getServer. intros Hfresh Hex key n.
  rewrite In_fold_index_add, (Hex key n).
  unfold Spec.declares. simpl.
  destruct (String.eqb_spec name n) as [->|Hne].
  - rewrite JsMapFacts.get_set_same. split.
    + intros [(reg & G & _)|[_ H]]; [congruence|]. eexists; split; eauto.
    + intros (reg & G & H). injection G as <-. auto.
  - rewrite JsMapFacts.get_set_other by assumption. split.
    + intros [H|[E _]]; [assumption | congruence].
    + auto.
Qed.

Lemma index_exact_unregister r index name server :
  getServer r name = Some server ->
  Spec.index_exact declared index r ->
  Spec.index_exact declared
    (fold_left (index_remove name)
       (declared (ServerRegistration.capability server)) index)
    (unregister r name).
Proof.
  unfold getServer. intros Hreg Hex key n.
  rewrite In_fold_index_remove, (Hex key n).
  unfold Spec.declares, unregister. rewrite Hreg. simpl.
  destruct (String.eqb_spec name n) as [->|Hne].
  - rewrite JsMapFacts.get_delete_same. split.
    + intros [(reg & G & H) Hn]. exfalso. apply Hn. split; auto. congruence.
    + intros (reg & G & _). discriminate.
  - rewrite JsMapFacts.get_delete_other by assumption. split.
    + tauto.
    + intros H. split; auto. intros [E _]. congruence.
Qed.

End OneIndex.

Lemma indices_exact_new : Spec.indices_exact new.
Proof.
  repeat split; simpl; try tauto; intros (reg & G & _); discriminate.
Qed.

Lemma indices_exact_step r op :
  Spec.indices_exact r ->
  match op with
  | Spec.Register _ name _ => getServer r name = None
  | Spec.Unregister _ => True
  end ->
  Spec.indices_exact (Spec.step r op).
Proof.
  intros (Hd & He & Ho) Hfresh. destruct op as [now name capability|name]; simpl.
  - split; [|split].
    + apply index_exact_register; assumption.
    + apply index_exact_register; assumption.
    + apply index_exact_register; assumption.
  - destruct (getServer r name) as [server|] eqn:G.
    + pose proof (index_exact_unregister _ _ _ _ _ G Hd) as H1.
      pose proof (index_exact_unregister _ _ _ _ _ G He) as H2.
      pose proof (index_exact_unregister _ _ _ _ _ G Ho) as H3.
      unfold Spec.indices_exact, unregister in *. unfold getServer in G.
      rewrite G in *. simpl in *. auto.
    + unfold unregister. unfold getServer in G. rewrite G.
      split; [|split]; assumption.
Qed.

(** The indices stay exact along every run in which no name is
    registered while it is already registered. *)
Lemma indices_exact_fresh_runs ops : forall r,
  Spec.indices_exact r ->
  Spec.registers_fresh r ops ->
  Spec.indices_exact (Spec.run r ops).
Proof.
  induction ops as [|op ops IH]; intros r Hex Hfresh; simpl in *.
  - assumption.
  - destruct Hfresh as [H1 H2]. apply IH; auto.
    apply indices_exact_step; assumption.
Qed.

(** C3.  The run [register(n, c1); register(n, c2); unregister(n)], with
    [c1] declaring entity [work_order] and [c2] declaring entity [job]:
    [n] is no longer registered, yet the entity index still lists it
    under [work_order], and the operation index under [create]; the
    indices are not exact. *)
Theorem reregister_leaves_stale_index_entries :
  getServer Scenario.reregistered "n" = None
  /\ index_lookup (entityIndex Scenario.reregistered) "work_order" = ["n"]
  /\ index_lookup (operationIndex Scenario.reregistered) "create" = ["n"]
  /\ ~ Spec.indices_exact Scenario.reregistered.
Proof.
  repeat split; try reflexivity.
  intros (_ & He & _).
  destruct (proj1 (He "work_order" "n")) as (reg & G & _).
  - simpl. auto.
  - discriminate.
Qed.

(** *** Candidates and their status *)

Lemma active_registrations_active r names :
  Forall (fun reg => ServerRegistration.status reg = active)
    (active_registrations r names).
Proof.
  unfold active_registrations. induction names as [|n names IH]; simpl.
  - constructor.
  - apply Forall_app. split; auto.
    destruct (JsMap.get (servers r) n) as [reg|]; [|constructor].
    destruct (ServerRegistration.status reg) eqn:E; simpl; repeat constructor.
    assumption.
Qed.

(** When the indices yield an active server, only active servers are
    returned. *)
Lemma findServersForIntent_index_path_active Fuse_search r intent :
  active_registrations r (candidates r intent) <> [] ->
  exists regs,
    findServersForIntent Fuse_search r intent = Ok regs
    /\ Forall (fun reg => ServerRegistration.status reg = active) regs.
Proof.
  intros Hne. unfold findServersForIntent.
  pose proof (active_registrations_active r (candidates r intent)) as Hall.
  destruct (active_registrations r (candidates r intent)) as [|reg regs].
  - congruence.
  - eexists; split; [reflexivity | assumption].
Qed.

(** C2.  A registry whose only server, named [create], was marked
    unhealthy, and the intent [{action: create, entities: []}].  The
    index union holds the server but it is filtered out, so the fuzzy
    fallback answers: whatever the searcher reports for the query
    [create] with a score under 0.5 is returned as it is, and a searcher
    that reports the server named like the query returns this server,
    whose status is [error]. *)
Theorem fuzzy_fallback_returns_unhealthy_server
  (Fuse_search : list ServerRegistration.t -> string -> list FuseResult.t) :
  active_registrations Scenario.unhealthyRegistry
    (candidates Scenario.unhealthyRegistry (Scenario.intent ActCreate [])) = []
  /\ findServersForIntent Fuse_search Scenario.unhealthyRegistry
       (Scenario.intent ActCreate [])
     = Ok (map FuseResult.item
             (filter good_match
                (Fuse_search [Scenario.unhealthyServer] "create")))
  /\ findServersForIntent Scenario.Fuse_exact Scenario.unhealthyRegistry
       (Scenario.intent ActCreate [])
     = Ok [Scenario.unhealthyServer]
  /\ getServer Scenario.unhealthyRegistry "create" = Some Scenario.unhealthyServer
  /\ ServerRegistration.status Scenario.unhealthyServer = error.
Proof.
  repeat split; reflexivity.
Qed.

End RegistryProps.

(* ================================================================= *)
(** ** The router *)

Module RouterProps.
Import SemanticRouter.

(** *** The routing scenario *)

(** C1, as the code has it.  Servers A (entities [work_order],
    operations [query], [create]) and B (entities [job], operations
    [query]), whatever their other fields, registered on a new registry.
    The intent [{create, [work_order]}] is routed to A with tool
    [create_work_order].  The intent [{create, [job]}] is routed as
    well: the candidates are the union of the entity match (B) and the
    operation match (A), A ranks first, and the tool is [create_job]. *)
Theorem route_scenario_A_and_B
  (Fuse_search : list ServerRegistration.t -> string
                 -> list ServerRegistry.FuseResult.t)
  (protoA protoB descA descB : string) (domainsA domainsB : list string)
  (t1 t2 : Js.Date) (value : string) :
  let registry :=
    Scenario.registryAB
      (Scenario.capability protoA domainsA ["work_order"] ["query"; "create"] descA)
      (Scenario.capability protoB domainsB ["job"] ["query"] descB)
      t1 t2 in
  (exists decision,
     fst (route Fuse_search registry JsMap.empty
            (Scenario.intent ActCreate [Scenario.entity "work_order" value]))
     = Ok decision
     /\ RoutingDecision.server decision = "A"
     /\ RoutingDecision.tool decision = Some "create_work_order")
  /\ (exists decision,
        fst (route Fuse_search registry JsMap.empty
               (Scenario.intent ActCreate [Scenario.entity "job" value]))
        = Ok decision
        /\ RoutingDecision.server decision = "A"
        /\ RoutingDecision.tool decision = Some "create_job").
Proof.
  intros registry. subst registry. split.
  - eexists. split; [vm_compute; reflexivity | split; reflexivity].
  - eexists. split; [vm_compute; reflexivity | split; reflexivity].
Qed.

(** The second intent of the scenario does not raise, whatever the
    fuzzy searcher does. *)
Lemma route_create_job_does_not_raise :
  ~ exists Fuse_search e,
      fst (route Fuse_search
             (Scenario.registryAB Scenario.capA Scenario.capB
                Scenario.epoch Scenario.epoch)
             JsMap.empty
             (Scenario.intent ActCreate [Scenario.entity "job" ""]))
      = Throw e.
Proof.
  intros (Fuse_search & e & H). vm_compute in H. discriminate.
Qed.

(** *** The cache key *)

Lemma entity_pairs_of_data (es : list Entity.t) :
  map entity_pair es
  = map (fun p : string * string => fst p ++ ":" ++ snd p)
      (map (fun e => (Entity.type e, Entity.value e)) es).
Proof. rewrite map_map. reflexivity. Qed.

Lemma filter_triples_of_data (fs : list Filter.t) :
  map filter_triple fs
  = map (fun p : string * FilterOperator * Js.Value =>
           fst (fst p) ++ ":" ++ operator_string (snd (fst p)) ++ ":"
             ++ Js.toString (snd p))
      (map (fun f => (Filter.field f, Filter.operator f, Filter.value f)) fs).
Proof. rewrite map_map. reflexivity. Qed.

(** C6, as the code has it.  [getCacheKey] joins the action, the
    entity pairs and the filter triples in the order in which the
    intent lists them: two intents with the same action, the same
    sequence of entity (type, value) pairs and the same sequence of
    filter (field, operator, value) triples have the same key, whatever
    their other fields. *)
Theorem getCacheKey_same_sequences (i1 i2 : Intent.t) :
  Intent.action i1 = Intent.action i2 ->
  map (fun e => (Entity.type e, Entity.value e)) (Intent.entities i1)
  = map (fun e => (Entity.type e, Entity.value e)) (Intent.entities i2) ->
  map (fun f => (Filter.field f, Filter.operator f, Filter.value f))
    (filters_or_empty i1)
  = map (fun f => (Filter.field f, Filter.operator f, Filter.value f))
      (filters_or_empty i2) ->
  getCacheKey i1 = getCacheKey i2.
Proof.
  intros Ha He Hf. unfold getCacheKey.
  rewrite !entity_pairs_of_data, !filter_triples_of_data, Ha, He, Hf.
  reflexivity.
Qed.

Lemma getCacheKey_same_sequences_witness :
  getCacheKey
    (Intent.mk ActQuery
       [Entity.mk "unit" "12" (Some RoleFilter) None;
        Entity.mk "tenant" "smith" None None]
       None None None None None)
  = getCacheKey
      (Intent.mk ActQuery
         [Entity.mk "unit" "12" None (Some (8 # 10)%Q);
          Entity.mk "tenant" "smith" (Some RoleSubject) None]
         (Some []) None (Some AggCount) (Some (9 # 10)%Q) None).
Proof.
  apply getCacheKey_same_sequences; reflexivity.
Defined.

(** Two intents that differ only in the order of their two entities have
    different keys. *)
Lemma getCacheKey_depends_on_order :
  Permutation
    [Scenario.entity "unit" "12"; Scenario.entity "tenant" "smith"]
    [Scenario.entity "tenant" "smith"; Scenario.entity "unit" "12"]
  /\ getCacheKey
       (Scenario.intent ActQuery
          [Scenario.entity "unit" "12"; Scenario.entity "tenant" "smith"])
     <> getCacheKey
          (Scenario.intent ActQuery
             [Scenario.entity "tenant" "smith"; Scenario.entity "unit" "12"]).
Proof.
  split.
  - apply perm_swap.
  - vm_compute. discriminate.
Qed.

(** *** The decision cache *)

Lemma route_hit Fuse_search registry cache intent decision :
  JsMap.get cache (getCacheKey intent) = Some decision ->
  route Fuse_search registry cache intent = (Ok decision, cache).
Proof.
  unfold route. intros H. now rewrite H.
Qed.

Lemma route_throw_keeps_cache Fuse_search registry cache intent e cache' :
  route Fuse_search registry cache intent = (Throw e, cache') ->
  cache' = cache.
Proof.
  unfold route.
  destruct (JsMap.get cache (getCacheKey intent)); [discriminate|].
  destruct (ServerRegistry.findServersForIntent Fuse_search registry intent).
  - destruct (decide intent a); intros H; inversion H; reflexivity.
  - intros H; inversion H; reflexivity.
Qed.

Lemma route_miss Fuse_search registry cache intent decision cache' :
  JsMap.get cache (getCacheKey intent) = None ->
  route Fuse_search registry cache intent = (Ok decision, cache') ->
  cache' = cache_insert cache (getCacheKey intent) decision.
Proof.
  unfold route. intros Hmiss. rewrite Hmiss.
  destruct (ServerRegistry.findServersForIntent Fuse_search registry intent).
  - destruct (decide intent a); intros H; inversion H; reflexivity.
  - discriminate.
Qed.

(** Inserting a new key: appended while there is room, and otherwise the
    first entry makes room for it. *)
Lemma cache_insert_new cache key decision :
  Spec.cache_ok cache ->
  JsMap.get cache key = None ->
  cache_insert cache key decision
  = ((if Nat.ltb (JsMap.size cache) 1000 then cache else tl cache)
       ++ [(key, decision)])%list.
Proof.
  intros [Hnd Hsize] Hmiss. unfold cache_insert.
  rewrite (JsMapFacts.set_absent _ _ _ Hmiss).
  unfold JsMap.size in *. rewrite length_app. cbn [length].
  destruct (Nat.ltb (length cache) 1000) eqn:E.
  - apply Nat.ltb_lt in E.
    replace (Nat.ltb 1000 (length cache + 1)) with false; auto.
    symmetry. apply Nat.ltb_ge. lia.
  - apply Nat.ltb_ge in E.
    replace (Nat.ltb 1000 (length cache + 1)) with true
      by (symmetry; apply Nat.ltb_lt; lia).
    destruct cache as [|[k0 d0] rest].
    + cbn [length] in E. lia.
    + cbn [app JsMap.firstKey tl]. unfold JsMap.delete. cbn [filter fst].
      rewrite String.eqb_refl. cbn [negb].
      change (filter (fun kv : string * RoutingDecision.t => negb (fst kv =? k0))
                (rest ++ [(key, decision)])%list)
        with (JsMap.delete (rest ++ [(key, decision)])%list k0).
      apply JsMapFacts.delete_absent.
      unfold JsMap.keys in *. rewrite map_app, in_app_iff. cbn [map fst In].
      cbn [map fst] in Hnd. inversion Hnd as [|? ? Hnotin _]; subst.
      cbn [JsMap.get] in Hmiss. destruct (k0 =? key) eqn:K; [discriminate|].
      apply String.eqb_neq in K. intuition.
Qed.

Lemma cache_insert_ok cache key decision :
  Spec.cache_ok cache ->
  JsMap.get cache key = None ->
  Spec.cache_ok (cache_insert cache key decision).
Proof.
  intros Hok Hmiss. rewrite (cache_insert_new _ _ decision Hok Hmiss).
  destruct Hok as [Hnd Hsize]. unfold Spec.cache_ok, JsMap.keys, JsMap.size in *.
  apply JsMapFacts.get_None_not_in in Hmiss. unfold JsMap.keys in Hmiss.
  destruct (Nat.ltb (length cache) 1000) eqn:E.
  - apply Nat.ltb_lt in E. split.
    + rewrite map_app. cbn [map fst]. apply NoDup_app; auto.
      * repeat constructor. simpl. tauto.
      * intros x Hx [<-|[]]. tauto.
    + rewrite length_app. cbn [length]. lia.
  - destruct cache as [|[k0 d0] rest]; cbn [tl].
    + cbn [length] in E. apply Nat.ltb_ge in E. lia.
    + cbn [map fst length] in *. inversion Hnd; subst. split.
      * rewrite map_app. cbn [map fst]. apply NoDup_app; auto.
        -- repeat constructor. simpl. tauto.
        -- intros x Hx [<-|[]]. apply Hmiss. simpl. auto.
      * rewrite length_app. cbn [length]. lia.
Qed.

Lemma route_keeps_cache_ok Fuse_search registry cache intent :
  Spec.cache_ok cache ->
  Spec.cache_ok (snd (route Fuse_search registry cache intent)).
Proof.
  intros Hok.
  destruct (route Fuse_search registry cache intent) as [[d|e] cache'] eqn:R;
    cbn [snd].
  - destruct (JsMap.get cache (getCacheKey intent)) as [d'|] eqn:G.
    + rewrite (route_hit _ _ _ _ _ G) in R. inversion R; subst; assumption.
    + rewrite (route_miss _ _ _ _ _ _ G R). now apply cache_insert_ok.
  - now rewrite (route_throw_keeps_cache _ _ _ _ _ _ R).
Qed.

Lemma route_all_cache_ok Fuse_search calls : forall cache,
  Spec.cache_ok cache ->
  Spec.cache_ok (Spec.route_all Fuse_search calls cache).
Proof.
  unfold Spec.route_all.
  induction calls as [|call calls IH]; intros cache Hok; simpl; auto.
  apply IH. now apply route_keeps_cache_ok.
Qed.

Lemma cache_ok_empty : Spec.cache_ok JsMap.empty.
Proof.
  split; [constructor | unfold JsMap.size; simpl; lia].
Qed.

(** C7.  Let [cache] be the decision cache after any series of [route]
    calls on a new router.  It holds at most 1000 entries.  A call whose
    key is in it returns the stored decision and leaves the cache as it
    is, on every registry and searcher: neither is consulted.  A call
    that misses and succeeds appends its decision; when the cache is
    full the first entry, the oldest inserted since a hit never moves an
    entry, is dropped, and the bound holds again.  A call that raises
    leaves the cache as it is. *)
Theorem route_cache_hit_and_fifo_bound
  (Fuse_search : list ServerRegistration.t -> string
                 -> list ServerRegistry.FuseResult.t)
  (calls : list (ServerRegistry.t * Intent.t))
  (registry : ServerRegistry.t) (intent : Intent.t) :
  let cache := Spec.route_all Fuse_search calls JsMap.empty in
  let key := getCacheKey intent in
  JsMap.size cache <= 1000
  /\ (forall decision,
        JsMap.get cache key = Some decision ->
        forall Fuse_search' registry',
          route Fuse_search' registry' cache intent = (Ok decision, cache))
  /\ (forall decision cache',
        JsMap.get cache key = None ->
        route Fuse_search registry cache intent = (Ok decision, cache') ->
        cache'
        = ((if Nat.ltb (JsMap.size cache) 1000 then cache else tl cache)
             ++ [(key, decision)])%list
        /\ JsMap.size cache' <= 1000 + 1
        /\ JsMap.size cache' <= 1000)
  /\ (forall e cache',
        route Fuse_search registry cache intent = (Throw e, cache') ->
        cache' = cache).
Proof.
  intros cache key.
  assert (Hok : Spec.cache_ok cache)
    by (apply route_all_cache_ok, cache_ok_empty).
  split; [apply Hok|]. split; [|split].
  - intros decision Hhit Fuse_search' registry'. now apply route_hit.
  - intros decision cache' Hmiss R.
    pose proof (route_miss _ _ _ _ _ _ Hmiss R) as E.
    pose proof (cache_insert_ok _ _ decision Hok Hmiss) as [_ Hsize].
    fold key in E. rewrite <- E in Hsize.
    rewrite <- (cache_insert_new _ _ decision Hok Hmiss). fold key.
    repeat split; auto. lia.
  - intros e cache' R. now apply (route_throw_keeps_cache _ _ _ _ _ _ R).
Qed.

(** The full branch is reached: after 1001 calls with distinct keys
    the cache holds 1000 entries and the key of the first call is
    gone. *)
Example cache_evicts_first_inserted :
  let cache :=
    Spec.route_all Scenario.Fuse_none (Scenario.numbered_calls 1001)
      JsMap.empty in
  (JsMap.size cache, JsMap.firstKey cache,
   JsMap.has cache (getCacheKey (Scenario.numbered 0)))
  = (1000, Some (getCacheKey (Scenario.numbered 1)), false).
Proof.
  vm_compute. reflexivity.
Qed.

End RouterProps.

(* ================================================================= *)
(** ** The validation engine *)

Module ValidationProps.
Import ValidationEngine.

(** Two rule lists agree under [key] when a rule is added under another
    key. *)
Lemma rules_at_addRule_other v server action rule key :
  rule_key server action <> key ->
  rules_at (addRule v server action rule) key = rules_at v key.
Proof.
  intros Hne. unfold rules_at, addRule, JsMap.has.
  destruct (JsMap.get (rules v) (rule_key server action)) as [l|] eqn:G.
  - rewrite G. simpl. now rewrite JsMapFacts.get_set_other.
  - rewrite JsMapFacts.get_set_same. simpl.
    now rewrite !JsMapFacts.get_set_other.
Qed.

(** [validateOperation] reads the rules under the key
    [server:action] only: a rule added under any other key, the wildcard
    key included, does not change its result. *)
Lemma validateOperation_reads_one_key
  v now routing intent context server action rule :
  rule_key server action
  <> rule_key (RoutingDecision.server routing)
       (action_string (Intent.action intent)) ->
  validateOperation (addRule v server action rule) now routing intent context
  = validateOperation v now routing intent context.
Proof.
  intros Hne. unfold validateOperation.
  rewrite (rules_at_addRule_other _ _ _ _ _ Hne).
  replace (customValidators (addRule v server action rule))
    with (customValidators v); [reflexivity|].
  unfold addRule.
  destruct (JsMap.get _ (rule_key server action)); reflexivity.
Qed.

Lemma applyRules_no_throw businessRules params : forall errors warnings,
  (forall rule, In rule businessRules ->
     exists holds, ValidationRule.condition rule params = Ok holds) ->
  exists ew, applyRules businessRules params errors warnings = Ok ew.
Proof.
  induction businessRules as [|rule rest IH]; intros errors warnings Hok; simpl.
  - eexists; reflexivity.
  - destruct (Hok rule (or_introl eq_refl)) as [holds ->]. simpl.
    assert (Hrest : forall r, In r rest ->
              exists h, ValidationRule.condition r params = Ok h)
      by (intros r Hr; apply Hok; now right).
    destruct holds; [now apply IH|].
    destruct (ValidationRule.severity rule); now apply IH.
Qed.

(** C4, as the code has it.  When the custom validator registered for
    the server of the decision throws, [validateOperation] returns no
    [ValidationResult]: it throws.  The call is not guarded, so what it
    throws is the exception of the validator, unless a business rule
    of the server threw before. *)
Theorem validateOperation_validator_throw_propagates
  (v : t) (now : Js.Date) (routing : RoutingDecision.t) (intent : Intent.t)
  (context : option Context.t) (validator : Validator) (e : Exn) :
  JsMap.get (customValidators v) (RoutingDecision.server routing)
  = Some validator ->
  validator (RoutingDecision.params routing) = Throw e ->
  exists e',
    validateOperation v now routing intent context = Throw e'
    /\ ((forall rule,
           In rule
             (rules_at v
                (rule_key (RoutingDecision.server routing)
                   (action_string (Intent.action intent)))) ->
           exists holds,
             ValidationRule.condition rule (RoutingDecision.params routing)
             = Ok holds) ->
        e' = e).
Proof.
  intros Hget Hthrow. unfold validateOperation.
  destruct (validateParameters (RoutingDecision.params routing) intent)
    as [errors0 warnings0].
  rewrite Hget.
  match goal with
  | |- context [applyRules ?rs ?ps ?es ?ws] =>
      destruct (applyRules rs ps es ws) as [[errors2 warnings2]|e0] eqn:A
  end.
  - exists e. simpl. rewrite Hthrow. simpl. auto.
  - exists e0. simpl. split; [reflexivity|].
    intros Hok.
    match type of A with
    | applyRules ?rs ?ps ?es ?ws = _ =>
        destruct (applyRules_no_throw rs ps es ws Hok) as [ew Hew]
    end.
    congruence.
Qed.

Lemma validateOperation_validator_throw_propagates_witness :
  exists e',
    validateOperation Scenario.engineThrowing Scenario.epoch
      (Scenario.routing "A" [("name", Js.Str "unit 4")])
      (Scenario.intent ActCreate []) None
    = Throw e'
    /\ ((forall rule,
           In rule (rules_at Scenario.engineThrowing (rule_key "A" "create")) ->
           exists holds,
             ValidationRule.condition rule (Some [("name", Js.Str "unit 4")])
             = Ok holds) ->
        e' = Error "validator failed").
Proof.
  apply (validateOperation_validator_throw_propagates
           Scenario.engineThrowing Scenario.epoch
           (Scenario.routing "A" [("name", Js.Str "unit 4")])
           (Scenario.intent ActCreate []) None
           Scenario.throwingValidator (Error "validator failed"));
    reflexivity.
Defined.

(** With a throwing validator for server A the call throws, while the
    same call on the engine without that validator returns a valid
    result. *)
Lemma validateOperation_throws_with_throwing_validator :
  validateOperation Scenario.engineThrowing Scenario.epoch
    (Scenario.routing "A" [("name", Js.Str "unit 4")])
    (Scenario.intent ActCreate []) None
  = Throw (Error "validator failed")
  /\ validateOperation (initialize new) Scenario.epoch
       (Scenario.routing "A" [("name", Js.Str "unit 4")])
       (Scenario.intent ActCreate []) None
     = Ok (ValidationResult.mk true [] (Some []) (Some [])
             (Some (OperationMetadata Scenario.epoch 0 None))).
Proof.
  split; reflexivity.
Qed.

(** C5.  On the initialized engine the wildcard rule
    [wo-priority-valid] is registered for [create], it has severity
    [error] and it fails on [{work_order: {priority: "urgent"}}]; yet
    [validateOperation] for server A, which has no rules of its own,
    answers [isValid = true] with no errors and applies no rule.
    Likewise a failing wildcard rule of severity [warning] adds no
    warning. *)
Theorem validateOperation_skips_wildcard_rules :
  In wo_priority_valid (getRules (initialize new) "A" "create")
  /\ ValidationRule.severity wo_priority_valid = SevError
  /\ ValidationRule.condition wo_priority_valid (Some Scenario.urgentWorkOrder)
     = Ok false
  /\ validateOperation (initialize new) Scenario.epoch
       (Scenario.routing "A" Scenario.urgentWorkOrder)
       (Scenario.intent ActCreate []) None
     = Ok (ValidationResult.mk true [] (Some []) (Some [])
             (Some (OperationMetadata Scenario.epoch 0 None)))
  /\ getRules Scenario.engineWarning "A" "query" = [Scenario.alwaysWarn]
  /\ validateOperation Scenario.engineWarning Scenario.epoch
       (Scenario.routing "A" [])
       (Scenario.intent ActQuery []) None
     = Ok (ValidationResult.mk true [] (Some []) (Some [])
             (Some (OperationMetadata Scenario.epoch 0 None))).
Proof.
  repeat split; try reflexivity.
  simpl. auto.
Qed.

End ValidationProps.

(* ================================================================= *)
(** ** The learning system *)

Module LearningProps.
Import LearningSystem.

(** *** Feedback *)

Ltac map_simpl :=
  repeat first
    [ rewrite JsMapFacts.get_set_same
    | rewrite JsMapFacts.get_set_other by congruence
    | progress cbv beta iota ].

Lemma lt_min_bump (x : Q) : (x < 1)%Q -> (x < Qmin (x + (1 # 10)) 1)%Q.
Proof.
  intros H. apply Q.min_glb_lt; lra.
Qed.

Lemma min_bump_capped (x : Q) : (1 <= x)%Q -> (Qmin (x + (1 # 10)) 1 == 1)%Q.
Proof.
  intros H. apply Q.min_r. lra.
Qed.

(** C8, as the code has it.  Feedback with [helpful = false] and
    [correctServer = B] for a recorded interaction that was routed to A:
    when the performance map has an entry for B, its successful and
    total request counts each grow by one, and when it has none, none is
    made; the error rate stored for A becomes [min(errorRate + 0.1, 1)],
    which is greater than before when the rate was below 1 and is 1
    when it already was 1 or more. *)
Theorem feedback_adjusts_existing_entries
  (l : t) (interactionId : string) (feedback : UserFeedback.t)
  (interaction : LearningInteraction.t) (B : string) :
  find (fun i => interaction_id i =? interactionId) (interactions l)
  = Some interaction ->
  UserFeedback.helpful feedback = false ->
  UserFeedback.correctServer feedback = Some B ->
  B <> "" ->
  let A := RoutingDecision.server (LearningInteraction.routing interaction) in
  let l' := recordFeedback l interactionId feedback in
  (forall pb,
     getServerPerformance l B = Some pb ->
     exists pb',
       getServerPerformance l' B = Some pb'
       /\ ServerPerformance.successfulRequests pb'
          = (ServerPerformance.successfulRequests pb + 1)%Z
       /\ ServerPerformance.totalRequests pb'
          = (ServerPerformance.totalRequests pb + 1)%Z)
  /\ (getServerPerformance l B = None -> getServerPerformance l' B = None)
  /\ (forall pa,
        getServerPerformance l A = Some pa ->
        exists pa',
          getServerPerformance l' A = Some pa'
          /\ ServerPerformance.errorRate pa'
             = Qmin (ServerPerformance.errorRate pa + (1 # 10))%Q 1%Q
          /\ ((ServerPerformance.errorRate pa < 1)%Q ->
              (ServerPerformance.errorRate pa
               < ServerPerformance.errorRate pa')%Q)
          /\ ((1 <= ServerPerformance.errorRate pa)%Q ->
              (ServerPerformance.errorRate pa' == 1)%Q)).
Proof.
  intros Hfind Hhelpful Hcorrect HB A l'.
  assert (Hnames : names_server feedback = Some B).
  { unfold names_server. rewrite Hcorrect.
    apply String.eqb_neq in HB. now rewrite HB. }
  assert (El' : serverPerformance l'
                = serverPerformance
                    (adjustServerPreference l
                       (LearningInteraction.intent interaction) B A)).
  { subst l'. unfold recordFeedback. rewrite Hfind, Hhelpful, Hnames.
    reflexivity. }
  unfold getServerPerformance. rewrite El'. clear El' l'.
  unfold adjustServerPreference. cbn [serverPerformance].
  set (perfs := serverPerformance l). clearbody A perfs.
  destruct (String.eqb_spec B A) as [<-|NAB];
    destruct (JsMap.get perfs B) as [pb|] eqn:GB;
    try destruct (JsMap.get perfs A) as [pa|] eqn:GA;
    map_simpl; rewrite ?GB, ?GA; map_simpl;
    (split; [|split]); try discriminate; try (intros _; assumption);
    try (intros _; reflexivity);
    try (intros p E; injection E as <-; eexists; split; [reflexivity|];
         cbn [ServerPerformance.errorRate ServerPerformance.totalRequests
              ServerPerformance.successfulRequests];
         repeat split;
         auto using lt_min_bump, min_bump_capped).
Qed.

Lemma feedback_adjusts_existing_entries_witness :
  exists pb',
    getServerPerformance
      (recordFeedback (Spec.recordAll (new 1000) Scenario.threeQueries)
         "0-list units" Scenario.preferB) "B"
    = Some pb'
    /\ ServerPerformance.successfulRequests pb' = 2%Z
    /\ ServerPerformance.totalRequests pb' = 2%Z.
Proof.
  edestruct (feedback_adjusts_existing_entries
               (Spec.recordAll (new 1000) Scenario.threeQueries)
               "0-list units" Scenario.preferB) as (HB & _ & _).
  - vm_compute. reflexivity.
  - reflexivity.
  - reflexivity.
  - discriminate.
  - edestruct HB as (pb' & G & Hs & Ht).
    + vm_compute. reflexivity.
    + exists pb'. split; [exact G|]. split; [exact Hs | exact Ht].
Defined.

(** One failed query routed to A, then feedback that names B: B gets no
    entry, and the error rate of A, already 1, does not grow. *)
Lemma feedback_without_entry_or_at_cap :
  (exists i,
     find (fun i => interaction_id i =? "0-list units")
       (interactions Scenario.learnedOneFailure) = Some i
     /\ RoutingDecision.server (LearningInteraction.routing i) = "A")
  /\ getServerPerformance
       (recordFeedback Scenario.learnedOneFailure "0-list units"
          Scenario.preferB) "B" = None
  /\ (exists pa pa',
        getServerPerformance Scenario.learnedOneFailure "A" = Some pa
        /\ getServerPerformance
             (recordFeedback Scenario.learnedOneFailure "0-list units"
                Scenario.preferB) "A" = Some pa'
        /\ ~ (ServerPerformance.errorRate pa
              < ServerPerformance.errorRate pa')%Q).
Proof.
  split; [|split].
  - eexists. split; [vm_compute; reflexivity | reflexivity].
  - vm_compute. reflexivity.
  - eexists. eexists. split; [vm_compute; reflexivity|].
    split; [vm_compute; reflexivity|].
    vm_compute. discriminate.
Qed.

(** *** Running averages *)

Lemma inject_Z_succ_nonzero (n : Z) : (0 <= n)%Z -> ~ (inject_Z (n + 1) == 0)%Q.
Proof.
  intros H. unfold Qeq. simpl. lia.
Qed.

(** One step of the running average keeps [average * count = sum]. *)
Lemma running_step (avg : Q) (n : Z) (x : Q) :
  (0 <= n)%Z ->
  (running avg (n + 1) x * inject_Z (n + 1) == avg * inject_Z n + x)%Q.
Proof.
  intros H. unfold running.
  replace (n + 1 - 1)%Z with n by lia.
  field. now apply inject_Z_succ_nonzero.
Qed.

Lemma updateServerPerformance_patterns l interaction :
  patterns (updateServerPerformance l interaction) = patterns l.
Proof.
  unfold updateServerPerformance.
  destruct (JsMap.get _ _); reflexivity.
Qed.

Lemma recordInteraction_stats l now interaction key :
  getPatternKey (LearningInteraction.intent interaction) = key ->
  exists p,
    JsMap.get (patterns (recordInteraction l now interaction)) key = Some p
    /\ Spec.pattern_stats (recordInteraction l now interaction) key
       = (let '(n, avg, sr) := Spec.pattern_stats l key in
          ((n + 1)%Z,
           running avg (n + 1) (LearningInteraction.duration interaction),
           running sr (n + 1) (success_value interaction))).
Proof.
  intros Hkey. unfold recordInteraction, Spec.pattern_stats.
  rewrite updateServerPerformance_patterns.
  unfold updatePatterns. cbn [LearningInteraction.intent with_timestamp patterns].
  rewrite Hkey. unfold JsMap.has.
  destruct (JsMap.get (patterns l) key) as [p|] eqn:G.
  - rewrite G. cbn [patterns]. rewrite JsMapFacts.get_set_same.
    eexists. split; reflexivity.
  - rewrite JsMapFacts.get_set_same. cbn [patterns].
    rewrite JsMapFacts.get_set_same. eexists. split; reflexivity.
Qed.

Lemma recordAll_stats key recs : forall l,
  (forall r, In r recs ->
     getPatternKey (LearningInteraction.intent (snd r)) = key) ->
  (0 <= fst (fst (Spec.pattern_stats l key)))%Z ->
  let '(n0, avg0, sr0) := Spec.pattern_stats l key in
  let '(n, avg, sr) := Spec.pattern_stats (Spec.recordAll l recs) key in
  n = (n0 + Z.of_nat (length recs))%Z
  /\ (avg * inject_Z n
      == avg0 * inject_Z n0
         + Spec.sum (map (fun r => LearningInteraction.duration (snd r)) recs))%Q
  /\ (sr * inject_Z n
      == sr0 * inject_Z n0 + Spec.sum (map (fun r => success_value (snd r)) recs))%Q.
Proof.
  induction recs as [|r recs IH]; intros l Hkeys Hn0.
  - cbn [Spec.recordAll fold_left length map Spec.sum fold_right].
    destruct (Spec.pattern_stats l key) as [[n0 avg0] sr0].
    split; [lia|]. split; ring.
  - cbn [Spec.recordAll fold_left].
    fold (Spec.recordAll (recordInteraction l (fst r) (snd r)) recs).
    destruct (recordInteraction_stats l (fst r) (snd r) key) as (p & _ & Hstep).
    { apply Hkeys. now left. }
    specialize (IH (recordInteraction l (fst r) (snd r))).
    destruct (Spec.pattern_stats l key) as [[n0 avg0] sr0] eqn:E0.
    cbn [fst] in Hn0.
    rewrite Hstep in IH.
    destruct (Spec.pattern_stats (Spec.recordAll (recordInteraction l (fst r) (snd r)) recs) key)
      as [[n avg] sr].
    destruct IH as (Hn & Havg & Hsr).
    + intros r' Hr'. apply Hkeys. now right.
    + cbn [fst]. lia.
    + cbn [length map Spec.sum fold_right]. split; [lia|].
      rewrite Havg, Hsr, !running_step by assumption.
      unfold Spec.sum. split; ring.
Qed.

(** In exact arithmetic the running average is the batch mean.  [N >= 1]
    interactions of one pattern key, recorded on a learning system that
    does not know the pattern: computed on rationals, the [successRate]
    is the arithmetic mean of the validity values (1 for valid, 0 for
    invalid) and the [avgDuration] is the mean of the durations.  What
    the code stores is rounded at each operation: see
    [Binary64Props]. *)
Lemma pattern_averages_in_exact_arithmetic
  (l : t) (recs : list (Js.Date * LearningInteraction.t)) (key : string) :
  recs <> [] ->
  (forall r, In r recs ->
     getPatternKey (LearningInteraction.intent (snd r)) = key) ->
  JsMap.get (patterns l) key = None ->
  exists p,
    JsMap.get (patterns (Spec.recordAll l recs)) key = Some p
    /\ QueryPattern.frequency p = Z.of_nat (length recs)
    /\ (QueryPattern.successRate p
        == Spec.mean (map (fun r => success_value (snd r)) recs))%Q
    /\ (QueryPattern.avgDuration p
        == Spec.mean
             (map (fun r => LearningInteraction.duration (snd r)) recs))%Q.
Proof.
  intros Hne Hkeys Hnew.
  pose proof (recordAll_stats key recs l Hkeys) as H.
  unfold Spec.pattern_stats in H at 1 2. rewrite Hnew in H. cbn [fst] in H.
  specialize (H (Z.le_refl 0)).
  assert (Hlen : (0 < Z.of_nat (length recs))%Z)
    by (destruct recs; [congruence | cbn [length]; lia]).
  unfold Spec.pattern_stats in H.
  destruct (JsMap.get (patterns (Spec.recordAll l recs)) key) as [p|].
  - destruct H as (Hn & Havg & Hsr). exists p.
    split; [reflexivity|]. split; [lia|].
    assert (Hnz : ~ (inject_Z (Z.of_nat (length recs)) == 0)%Q)
      by (unfold Qeq; simpl; lia).
    replace (0 + Z.of_nat (length recs))%Z with (Z.of_nat (length recs)) in Hn
      by lia.
    rewrite Hn in Havg, Hsr. unfold Spec.mean.
    rewrite !length_map.
    split.
    + apply (Qmult_inj_r _ _ (inject_Z (Z.of_nat (length recs))) Hnz).
      rewrite Hsr. field. exact Hnz.
    + apply (Qmult_inj_r _ _ (inject_Z (Z.of_nat (length recs))) Hnz).
      rewrite Havg. field. exact Hnz.
  - destruct H as (Hn & _). lia.
Qed.

End LearningProps.

(* ================================================================= *)
(** ** More on [Map] *)

Module JsMapMore.
Section MoreFacts.
Context {V : Type}.
Implicit Types (m : JsMap.t V) (k : string) (v : V).

Lemma get_In m k v : JsMap.get m k = Some v -> In (k, v) m.
Proof.
  induction m as [|[k' v'] m IH]; simpl; [discriminate|].
  destruct (String.eqb_spec k' k) as [->|Hne].
  - intros E. injection E as ->. now left.
  - intros E. right. now apply IH.
Qed.

Lemma In_keys m k v : In (k, v) m -> In k (JsMap.keys m).
Proof.
  intros H. unfold JsMap.keys. change k with (fst (k, v)). now apply in_map.
Qed.

Lemma In_get m k v :
  NoDup (JsMap.keys m) -> In (k, v) m -> JsMap.get m k = Some v.
Proof.
  induction m as [|[k' v'] m IH]; simpl; [tauto|].
  intros Hnd [E|Hin].
  - injection E as -> ->. now rewrite String.eqb_refl.
  - inversion Hnd as [|? ? Hnotin Hnd']; subst.
    destruct (String.eqb_spec k' k) as [->|Hne].
    + elim Hnotin. now apply In_keys with v.
    + now apply IH.
Qed.

Lemma keys_set_present m k v v0 :
  JsMap.get m k = Some v0 -> JsMap.keys (JsMap.set m k v) = JsMap.keys m.
Proof.
  induction m as [|[k' v'] m IH]; simpl; [discriminate|].
  destruct (k' =? k) eqn:E; simpl.
  - reflexivity.
  - intros H. now rewrite IH.
Qed.

Lemma keys_set_absent m k v :
  JsMap.get m k = None ->
  JsMap.keys (JsMap.set m k v) = (JsMap.keys m ++ [k])%list.
Proof.
  intros H. rewrite (JsMapFacts.set_absent m k v H).
  unfold JsMap.keys. now rewrite map_app.
Qed.

Lemma NoDup_keys_set m k v :
  NoDup (JsMap.keys m) -> NoDup (JsMap.keys (JsMap.set m k v)).
Proof.
  intros Hnd. destruct (JsMap.get m k) as [v0|] eqn:G.
  - now rewrite (keys_set_present m k v v0 G).
  - rewrite (keys_set_absent m k v G).
    apply JsMapFacts.get_None_not_in in G.
    apply NoDup_app; auto.
    + repeat constructor. simpl. tauto.
    + intros x Hx [<-|[]]. tauto.
Qed.

Lemma In_set m k v k' v' :
  In (k', v') (JsMap.set m k v) -> (k' = k /\ v' = v) \/ In (k', v') m.
Proof.
  induction m as [|[k0 v0] m IH]; simpl.
  - intros [E|[]]. injection E as <- <-. now left.
  - destruct (String.eqb_spec k0 k) as [->|Hne]; simpl.
    + intros [E|H]; [injection E as <- <-; now left | right; now right].
    + intros [E|H]; [right; now left|].
      destruct (IH H) as [?|?]; [now left | right; now right].
Qed.

Lemma set_set m k v1 v2 :
  JsMap.set (JsMap.set m k v1) k v2 = JsMap.set m k v2.
Proof.
  induction m as [|[k0 v0] m IH]; simpl.
  - now rewrite String.eqb_refl.
  - destruct (k0 =? k) eqn:E; simpl; rewrite E; [reflexivity|].
    now rewrite IH.
Qed.

Lemma In_map_delete m k k' v' :
  In (k', v') (JsMap.delete m k) <-> In (k', v') m /\ k' <> k.
Proof.
  unfold JsMap.delete. rewrite filter_In. simpl.
  rewrite negb_true_iff, String.eqb_neq. tauto.
Qed.

Lemma keys_delete m k :
  JsMap.keys (JsMap.delete m k)
  = filter (fun x => negb (x =? k)) (JsMap.keys m).
Proof.
  unfold JsMap.keys, JsMap.delete.
  induction m as [|[k0 v0] m IH]; simpl; auto.
  destruct (k0 =? k); simpl; now rewrite IH.
Qed.

Lemma NoDup_keys_delete m k :
  NoDup (JsMap.keys m) -> NoDup (JsMap.keys (JsMap.delete m k)).
Proof.
  intros H. rewrite keys_delete. now apply NoDup_filter.
Qed.

(** A map over the values keeps the keys and their order. *)
Lemma get_map_values (f : string * V -> V) m k :
  JsMap.get (map (fun kv => (fst kv, f kv)) m) k
  = match JsMap.get m k with
    | Some v => Some (f (k, v))
    | None => None
    end.
Proof.
  induction m as [|[k0 v0] m IH]; simpl; auto.
  destruct (String.eqb_spec k0 k) as [->|Hne]; auto.
Qed.

Lemma keys_map_values (f : string * V -> V) m :
  JsMap.keys (map (fun kv => (fst kv, f kv)) m) = JsMap.keys m.
Proof.
  unfold JsMap.keys. rewrite map_map. reflexivity.
Qed.

Lemma get_filter_values (keep : V -> bool) m k :
  NoDup (JsMap.keys m) ->
  JsMap.get (filter (fun kv => keep (snd kv)) m) k
  = match JsMap.get m k with
    | Some v => if keep v then Some v else None
    | None => None
    end.
Proof.
  induction m as [|[k0 v0] m IH]; simpl; auto.
  intros Hnd. inversion Hnd as [|? ? Hnotin Hnd']; subst.
  destruct (String.eqb_spec k0 k) as [->|Hne].
  - destruct (keep v0) eqn:K; simpl.
    + now rewrite String.eqb_refl.
    + rewrite (IH Hnd').
      replace (JsMap.get m k) with (@None V); auto.
      symmetry. now apply JsMapFacts.get_None_not_in.
  - destruct (keep v0); simpl.
    + apply String.eqb_neq in Hne. rewrite Hne. now apply IH.
    + now apply IH.
Qed.

End MoreFacts.
End JsMapMore.

(* ================================================================= *)
(** ** The order of [sort] *)

Module SortFacts.

Lemma ltb_lt x y : String.ltb x y = true <-> String_as_OT.lt x y.
Proof.
  unfold String.ltb. rewrite <- String_as_OT.cmp_lt.
  unfold String_as_OT.cmp. destruct (String.compare x y); split; congruence.
Qed.

Lemma ltb_trans x y z :
  String.ltb x y = true -> String.ltb y z = true -> String.ltb x z = true.
Proof.
  rewrite !ltb_lt. apply String_as_OT.lt_trans.
Qed.

Lemma ltb_asym x y : String.ltb x y = true -> String.ltb y x = false.
Proof.
  unfold String.ltb. rewrite (String.compare_antisym y x).
  destruct (String.compare x y); simpl; congruence.
Qed.

Lemma ltb_total x y :
  String.ltb x y = false -> String.ltb y x = false -> x = y.
Proof.
  unfold String.ltb. rewrite (String.compare_antisym y x).
  destruct (String.compare x y) eqn:E; simpl; try congruence.
  intros _ _. now apply String.compare_eq_iff.
Qed.

Lemma insert_sorted_comm x y l :
  Js.insert_sorted x (Js.insert_sorted y l)
  = Js.insert_sorted y (Js.insert_sorted x l).
Proof.
  induction l as [|a l IH]; cbn [Js.insert_sorted].
  - destruct (String.ltb y x) eqn:Eyx, (String.ltb x y) eqn:Exy; auto.
    + rewrite (ltb_asym _ _ Eyx) in Exy. discriminate.
    + now rewrite (ltb_total _ _ Exy Eyx).
  - destruct (String.ltb a y) eqn:Eay, (String.ltb a x) eqn:Eax;
      cbn [Js.insert_sorted]; rewrite ?Eay, ?Eax.
    + now rewrite IH.
    + (* x <= a < y *)
      assert (Exy : String.ltb x y = true).
      { destruct (String.ltb x y) eqn:E; auto.
        destruct (String.ltb y x) eqn:E'.
        - rewrite (ltb_trans a y x Eay E') in Eax. discriminate.
        - rewrite (ltb_total _ _ E E') in Eax. congruence. }
      rewrite Exy. reflexivity.
    + (* y <= a < x *)
      assert (Eyx : String.ltb y x = true).
      { destruct (String.ltb y x) eqn:E; auto.
        destruct (String.ltb x y) eqn:E'.
        - rewrite (ltb_trans a x y Eax E') in Eay. discriminate.
        - rewrite (ltb_total _ _ E' E) in Eax. congruence. }
      rewrite Eyx. reflexivity.
    + destruct (String.ltb y x) eqn:Eyx, (String.ltb x y) eqn:Exy;
        rewrite ?Eay, ?Eax; auto.
      * rewrite (ltb_asym _ _ Eyx) in Exy. discriminate.
      * now rewrite (ltb_total _ _ Exy Eyx).
Qed.

Lemma sort_permutation l1 l2 :
  Permutation l1 l2 -> Js.sort l1 = Js.sort l2.
Proof.
  unfold Js.sort. induction 1; simpl; try congruence.
  apply insert_sorted_comm.
Qed.

End SortFacts.

(* ================================================================= *)
(** ** More on the registry *)

Module RegistryMore.
Import ServerRegistry.

(** *** Reachable registries *)

Lemma inject_Z_succ_pos (n : Z) : (0 <= n)%Z -> (0 < inject_Z (n + 1))%Q.
Proof.
  intros H. unfold Qlt. simpl. lia.
Qed.

Lemma metrics_update_ok (m : Metrics.t) (requestTime : Q) (success : bool) :
  (0 <= Metrics.totalRequests m)%Z ->
  (0 <= Metrics.errorRate m)%Q ->
  (Metrics.errorRate m <= 1)%Q ->
  (0 <= Metrics.totalRequests (metrics_update m requestTime success))%Z
  /\ (0 <= Metrics.errorRate (metrics_update m requestTime success))%Q
  /\ (Metrics.errorRate (metrics_update m requestTime success) <= 1)%Q.
Proof.
  intros Hn H0 H1. unfold metrics_update. cbn [Metrics.totalRequests Metrics.errorRate].
  replace (Metrics.totalRequests m + 1 - 1)%Z with (Metrics.totalRequests m) by lia.
  pose proof (inject_Z_succ_pos _ Hn) as Hpos.
  assert (Hz : (0 <= inject_Z (Metrics.totalRequests m))%Q)
    by (unfold Qle; simpl; lia).
  assert (Hs : (inject_Z (Metrics.totalRequests m + 1)
                == inject_Z (Metrics.totalRequests m) + 1)%Q)
    by (rewrite inject_Z_plus; reflexivity).
  assert (Hp : (0 <= Metrics.errorRate m * inject_Z (Metrics.totalRequests m))%Q)
    by (apply Qmult_le_0_compat; assumption).
  assert (Hq : (Metrics.errorRate m * inject_Z (Metrics.totalRequests m)
                <= inject_Z (Metrics.totalRequests m))%Q).
  { rewrite <- (Qmult_1_l (inject_Z (Metrics.totalRequests m))) at 2.
    apply Qmult_le_compat_r; assumption. }
  split; [lia|].
  destruct success; split.
  - apply Qle_shift_div_l; [assumption|]. lra.
  - apply Qle_shift_div_r; [assumption|]. lra.
  - apply Qle_shift_div_l; [assumption|]. lra.
  - apply Qle_shift_div_r; [assumption|]. lra.
Qed.

Lemma with_status_ok key server s checked :
  More.registration_ok key server ->
  More.registration_ok key (with_status server s checked).
Proof.
  intros H. exact H.
Qed.

Lemma ok_new : More.registry_ok new.
Proof.
  split; [constructor|]. split; [intros key reg []|now left].
Qed.

Lemma ok_set r name reg :
  More.registry_ok r ->
  More.registration_ok name reg ->
  JsMap.get (servers r) name <> None ->
  More.registry_ok (with_servers r (JsMap.set (servers r) name reg)).
Proof.
  intros (Hnd & Hall & Hfz) Hreg Hget. unfold More.registry_ok. simpl.
  destruct (JsMap.get (servers r) name) as [old|] eqn:G; [|congruence].
  split; [now apply JsMapMore.NoDup_keys_set|]. split.
  - intros key reg' Hin. apply JsMapMore.In_set in Hin.
    destruct Hin as [[-> ->]|Hin]; auto.
  - rewrite (JsMapMore.keys_set_present _ _ _ _ G). assumption.
Qed.

Lemma ok_call r c : More.registry_ok r -> More.registry_ok (More.call r c).
Proof.
  intros Hok. pose proof Hok as (Hnd & Hall & Hfz).
  destruct c as [|now name capability|name|name requestTime success
                 |now name|name|now]; simpl.
  - (* initialize *)
    split; [assumption|]. split; [assumption|]. now right.
  - (* register *)
    unfold More.registry_ok. simpl.
    split; [now apply JsMapMore.NoDup_keys_set|]. split; [|now right].
    intros key reg Hin. apply JsMapMore.In_set in Hin.
    destruct Hin as [[-> ->]|Hin]; auto.
    repeat split; simpl; try lia; lra.
  - (* unregister *)
    unfold unregister.
    destruct (JsMap.get (servers r) name) as [server|]; [|assumption].
    unfold More.registry_ok. simpl.
    split; [now apply JsMapMore.NoDup_keys_delete|]. split; [|now right].
    intros key reg Hin. apply JsMapMore.In_map_delete in Hin. apply Hall, Hin.
  - (* updateMetrics *)
    unfold updateMetrics.
    destruct (JsMap.get (servers r) name) as [server|] eqn:G; [|assumption].
    apply ok_set; [assumption| |congruence].
    destruct (Hall _ _ (JsMapMore.get_In _ _ _ G)) as (Hname & Hn & H0 & H1).
    split; [exact Hname|]. cbn [ServerRegistration.metrics].
    now apply (metrics_update_ok _ requestTime success).
  - (* markHealthy *)
    unfold markHealthy.
    destruct (JsMap.get (servers r) name) as [server|] eqn:G; [|assumption].
    apply ok_set; [assumption| |congruence].
    apply with_status_ok, Hall, JsMapMore.get_In, G.
  - (* markUnhealthy *)
    unfold markUnhealthy.
    destruct (JsMap.get (servers r) name) as [server|] eqn:G; [|assumption].
    apply ok_set; [assumption| |congruence].
    apply with_status_ok, Hall, JsMapMore.get_In, G.
  - (* healthCheck *)
    unfold healthCheck, More.registry_ok. simpl.
    assert (Hkeys : forall m : JsMap.t ServerRegistration.t,
              JsMap.keys
                (map (fun kv : string * ServerRegistration.t =>
                        match ServerRegistration.lastHealthCheck (snd kv) with
                        | Js.ValidDate checked =>
                            if (300000 <? now - checked)%Z
                            then (fst kv,
                                  with_status (snd kv) inactive
                                    (ServerRegistration.lastHealthCheck (snd kv)))
                            else kv
                        | Js.InvalidDate => kv
                        end) m)
              = JsMap.keys m).
    { intros m. unfold JsMap.keys. rewrite map_map. apply map_ext.
      intros [k v]. simpl.
      destruct (ServerRegistration.lastHealthCheck v); auto.
      destruct (300000 <? now - ms)%Z; auto. }
    rewrite Hkeys. split; [assumption|]. split; [|assumption].
    intros key reg Hin. apply in_map_iff in Hin.
    destruct Hin as ([k v] & E & Hin). simpl in E.
    specialize (Hall _ _ Hin).
    destruct (ServerRegistration.lastHealthCheck v);
      [destruct (300000 <? now - ms)%Z|]; injection E as <- <-; auto.
Qed.

Lemma ok_calls cs : forall r,
  More.registry_ok r -> More.registry_ok (More.calls r cs).
Proof.
  unfold More.calls.
  induction cs as [|c cs IH]; intros r Hok; simpl; auto.
  apply IH. now apply ok_call.
Qed.

(** X1.  Whatever is called on a new registry, in any order: the names
    are distinct, every registration is stored under its own name, its
    request count is not negative and its error rate lies between 0
    and 1, and the fuzzy-search collection, once built, lists exactly
    the registered names. *)
Theorem registry_invariants (cs : list More.RegistryCall) :
  More.registry_ok (More.calls new cs).
Proof.
  apply ok_calls, ok_new.
Qed.

(** *** Ranking *)






(** *** Health *)

(** X4.  The health sweep at time [now] keeps every registration with
    its name, capability, metrics and last check, and sets the status to
    [inactive] exactly for the servers last checked more than 300000 ms
    before (also those in status [error]); a check exactly 300000 ms old
    is not stale.  Nothing is added, removed or reactivated, and the
    indices are untouched. *)
Theorem healthCheck_marks_stale_servers (r : t) (now : Z) (name : string) :
  match getServer r name with
  | Some server =>
      getServer (healthCheck r now) name
      = Some (with_status server
                match ServerRegistration.lastHealthCheck server with
                | Js.ValidDate checked =>
                    if (300000 <? now - checked)%Z then inactive
                    else ServerRegistration.status server
                | Js.InvalidDate => ServerRegistration.status server
                end
                (ServerRegistration.lastHealthCheck server))
  | None => getServer (healthCheck r now) name = None
  end
  /\ domainIndex (healthCheck r now) = domainIndex r
  /\ entityIndex (healthCheck r now) = entityIndex r
  /\ operationIndex (healthCheck r now) = operationIndex r
  /\ JsMap.keys (servers (healthCheck r now)) = JsMap.keys (servers r).
Proof.
  unfold getServer, healthCheck. simpl.
  split; [|split; [reflexivity|split; [reflexivity|split; [reflexivity|]]]].
  - induction (servers r) as [|[k v] m IH]; simpl; auto.
    destruct v as [vname vcap vstatus vcheck vmetrics]. simpl.
    destruct vcheck as [checked|];
      [destruct (300000 <? now - checked)%Z eqn:T|]; simpl;
      destruct (String.eqb_spec k name) as [->|Hne]; auto;
      simpl; rewrite T; reflexivity.
  - unfold JsMap.keys. rewrite map_map. apply map_ext.
    intros [k v]. simpl.
    destruct (ServerRegistration.lastHealthCheck v); auto.
    destruct (300000 <? now - ms)%Z; auto.
Qed.

Lemma active_without r r' n names :
  (forall k, k <> n -> JsMap.get (servers r') k = JsMap.get (servers r) k) ->
  match JsMap.get (servers r') n with
  | Some reg => ServerRegistration.status reg <> active
  | None => True
  end ->
  active_registrations r' names = active_registrations r (JsSet.delete names n).
Proof.
  intros Hother Hn. unfold active_registrations, JsSet.delete.
  induction names as [|k names IH]; simpl; auto.
  destruct (String.eqb_spec k n) as [->|Hne]; simpl.
  - rewrite IH. destruct (JsMap.get (servers r') n) as [reg|]; auto.
    destruct (ServerRegistration.status reg); simpl; auto. congruence.
  - rewrite IH, (Hother k Hne). reflexivity.
Qed.

Lemma markUnhealthy_servers r n :
  (forall k, k <> n ->
     JsMap.get (servers (markUnhealthy r n)) k = JsMap.get (servers r) k)
  /\ match JsMap.get (servers (markUnhealthy r n)) n with
     | Some reg => ServerRegistration.status reg <> active
     | None => True
     end
  /\ domainIndex (markUnhealthy r n) = domainIndex r
  /\ entityIndex (markUnhealthy r n) = entityIndex r
  /\ operationIndex (markUnhealthy r n) = operationIndex r.
Proof.
  unfold markUnhealthy.
  destruct (JsMap.get (servers r) n) as [server|] eqn:G; simpl.
  - split; [|split; [|auto]].
    + intros k Hk. apply JsMapFacts.get_set_other. congruence.
    + rewrite JsMapFacts.get_set_same. simpl. discriminate.
  - rewrite G. auto.
Qed.

(** X5.  After [markUnhealthy(n)] the server stored under [n] is never
    among the servers found by domain, by entity or by operation, nor
    among the indexed candidates of [findServersForIntent]; all other
    servers are found as before. *)
Theorem markUnhealthy_hides_server (r : t) (n : string) :
  (forall domain,
     findServersByDomain (markUnhealthy r n) domain
     = active_registrations r
         (JsSet.delete (index_lookup (domainIndex r) domain) n))
  /\ (forall entityType,
        findServersByEntity (markUnhealthy r n) entityType
        = active_registrations r
            (JsSet.delete (index_lookup (entityIndex r) entityType) n))
  /\ (forall operation,
        findServersByOperation (markUnhealthy r n) operation
        = active_registrations r
            (JsSet.delete (index_lookup (operationIndex r) operation) n))
  /\ (forall intent,
        active_registrations (markUnhealthy r n)
          (candidates (markUnhealthy r n) intent)
        = active_registrations r (JsSet.delete (candidates r intent) n)).
Proof.
  destruct (markUnhealthy_servers r n) as (Ho & Hn & Hd & He & Hop).
  unfold findServersByDomain, findServersByEntity, findServersByOperation,
    candidates.
  rewrite Hd, He, Hop.
  repeat split; intros; now apply active_without.
Qed.

(** X6.  [markHealthy(n)] after [markUnhealthy(n)] gives the registry
    that [markHealthy(n)] alone gives, and a registered server that was
    marked healthy is found again under every key that lists it. *)
Theorem markHealthy_restores (r : t) (now : Js.Date) (n : string) :
  markHealthy (markUnhealthy r n) now n = markHealthy r now n
  /\ (forall server names,
        getServer r n = Some server ->
        In n names ->
        In (with_status server active now)
          (active_registrations (markHealthy r now n) names)).
Proof.
  split.
  - unfold markHealthy, markUnhealthy.
    destruct (JsMap.get (servers r) n) as [server|] eqn:G; simpl.
    + rewrite JsMapFacts.get_set_same. unfold with_servers. simpl.
      now rewrite JsMapMore.set_set.
    + now rewrite G.
  - unfold getServer, markHealthy. intros server names G Hin. rewrite G.
    unfold active_registrations. apply in_flat_map. exists n.
    split; [assumption|]. simpl. rewrite JsMapFacts.get_set_same. simpl.
    now left.
Qed.

(** *** Registration *)

(** X7.  After [register(name, capability)] the server is stored
    with status [active], the time of the call and zeroed metrics,
    whatever was stored under the name before, and the other names are
    as before; [canPerformOperation] holds exactly for the declared
    operations, [canHandleEntities] exactly when every entity type is
    declared, and the operation index lists the name under every
    declared operation. *)
Theorem register_then_lookup
  (r : t) (now : Js.Date) (name : string) (capability : ServerCapability.t) :
  let r' := register r now name capability in
  getServer r' name
  = Some (ServerRegistration.mk name capability active now
            (Metrics.mk 0 (0 # 1) (0 # 1)))
  /\ (forall other, other <> name -> getServer r' other = getServer r other)
  /\ (forall operation,
        canPerformOperation r' name operation = true
        <-> In operation (ServerCapability.operations capability))
  /\ (forall entities,
        canHandleEntities r' name entities = true
        <-> forall e, In e entities ->
              In (Entity.type e) (ServerCapability.entities capability))
  /\ (forall operation,
        In operation (ServerCapability.operations capability) ->
        In name (index_lookup (operationIndex r') operation)).
Proof.
  intros r'. subst r'.
  assert (G : JsMap.get (servers (register r now name capability)) name
              = Some (ServerRegistration.mk name capability active now
                        (Metrics.mk 0 (0 # 1) (0 # 1))))
    by (simpl; apply JsMapFacts.get_set_same).
  assert (Hincl : forall (l : list string) (x : string),
            existsb (String.eqb x) l = true <-> In x l).
  { intros l x. rewrite existsb_exists. split.
    - intros (y & Hy & E). apply String.eqb_eq in E. now subst.
    - intros H. exists x. split; auto. apply String.eqb_refl. }
  split; [exact G|]. split; [|split; [|split]].
  - intros other Hne. unfold getServer. simpl.
    apply JsMapFacts.get_set_other. congruence.
  - intros operation. unfold canPerformOperation. rewrite G. simpl.
    apply Hincl.
  - intros entities. unfold canHandleEntities. rewrite G. simpl.
    rewrite forallb_forall. split.
    + intros H e He. apply Hincl, H, He.
    + intros H e He. apply Hincl, H, He.
  - intros operation Hop. simpl.
    apply RegistryProps.In_fold_index_add. right. split; auto.
Qed.

(** *** Candidates *)

Lemma NoDup_add s x : NoDup s -> NoDup (JsSet.add s x).
Proof.
  intros H. unfold JsSet.add. destruct (JsSet.has s x) eqn:E; auto.
  apply NoDup_app; auto.
  - repeat constructor. simpl. tauto.
  - intros y Hy [<-|[]].
    apply JsSetFacts.has_In in Hy. congruence.
Qed.

Lemma NoDup_fold_add xs : forall s, NoDup s -> NoDup (fold_left JsSet.add xs s).
Proof.
  induction xs as [|x xs IH]; intros s H; simpl; auto.
  apply IH. now apply NoDup_add.
Qed.

Lemma NoDup_candidates r intent : NoDup (candidates r intent).
Proof.
  unfold candidates.
  assert (H1 : NoDup
            (fold_left
               (fun c entity =>
                  fold_left JsSet.add
                    (index_lookup (entityIndex r) (Entity.type entity)) c)
               (Intent.entities intent) [])).
  { generalize (@nil string) (NoDup_nil string).
    induction (Intent.entities intent) as [|e es IH]; intros s Hs; simpl; auto.
    apply IH. now apply NoDup_fold_add. }
  destruct (context_domain intent); repeat apply NoDup_fold_add; exact H1.
Qed.

Lemma names_of_active r names :
  More.registry_ok r ->
  map ServerRegistration.name (active_registrations r names)
  = filter
      (fun k =>
         match JsMap.get (servers r) k with
         | Some reg => status_eqb (ServerRegistration.status reg) active
         | None => false
         end) names.
Proof.
  intros (_ & Hall & _). unfold active_registrations.
  induction names as [|k names IH]; simpl; auto.
  rewrite map_app, IH.
  destruct (JsMap.get (servers r) k) as [reg|] eqn:G; simpl; auto.
  destruct (Hall _ _ (JsMapMore.get_In _ _ _ G)) as (Hname & _).
  destruct (status_eqb (ServerRegistration.status reg) active); simpl; auto.
  now rewrite Hname.
Qed.

(** X8.  On every registry reachable from a new one, the servers that
    [findServersForIntent] takes from the indices carry distinct names:
    a server that matches by entity, by operation and by domain is a
    candidate once. *)
Theorem indexed_candidates_are_distinct
  (cs : list More.RegistryCall) (intent : Intent.t) :
  NoDup
    (map ServerRegistration.name
       (active_registrations (More.calls new cs)
          (candidates (More.calls new cs) intent))).
Proof.
  rewrite (names_of_active _ _ (ok_calls cs new ok_new)).
  apply NoDup_filter, NoDup_candidates.
Qed.

End RegistryMore.

(* ================================================================= *)
(** ** More on the router *)

Module RouterMore.
Import SemanticRouter.

(** *** Tools *)

Lemma includes_In (l : list string) (x : string) :
  includes l x = true <-> In x l.
Proof.
  unfold includes. rewrite existsb_exists. split.
  - intros (y & Hy & E). apply String.eqb_eq in E. now subst.
  - intros H. exists x. split; auto. apply String.eqb_refl.
Qed.

(** X9.  [selectTool] never invents an operation.  Either the tool is
    built from an operation that the server declares and that is a
    synonym of the action, the first such synonym in the order of the
    table, with the type of the first entity appended when there is
    one; or the server declares no synonym and the tool is its first
    declared operation as it is, or [query] when it has none or an
    empty one. *)
Theorem selectTool_uses_declared_operation
  (server : ServerRegistration.t) (intent : Intent.t) :
  let operations :=
    ServerCapability.operations (ServerRegistration.capability server) in
  (exists op,
     In op operations
     /\ In op (possibleOps (Intent.action intent))
     /\ selectTool server intent = More.tool_of op intent)
  \/ ((forall op, In op (possibleOps (Intent.action intent)) ->
         ~ In op operations)
      /\ ((exists first rest,
             operations = first :: rest /\ first <> ""
             /\ selectTool server intent = first)
          \/ ((operations = [] \/ exists rest, operations = "" :: rest)
              /\ selectTool server intent = "query"))).
Proof.
  intros operations. unfold selectTool. fold operations.
  destruct (find (includes operations) (possibleOps (Intent.action intent)))
    as [op|] eqn:F.
  - left. apply find_some in F. destruct F as [Hin Hinc].
    exists op. split; [now apply includes_In|]. split; [assumption|].
    reflexivity.
  - right. split.
    + intros op Hop Hin.
      pose proof (find_none _ _ F op Hop) as Hn.
      apply includes_In in Hin. congruence.
    + destruct operations as [|first rest]; [right; auto|].
      destruct (String.eqb_spec first "") as [->|Hne].
      * right. split; [right; eauto | reflexivity].
      * left. exists first, rest. auto.
Qed.

(** X10.  For every action but [query], a server that declares the
    action under its own name gets that name as the operation of the
    tool: it is the first synonym of the table. *)
Theorem selectTool_prefers_action_name
  (server : ServerRegistration.t) (intent : Intent.t) :
  supports_action server intent = true ->
  Intent.action intent <> ActQuery ->
  selectTool server intent
  = More.tool_of (action_string (Intent.action intent)) intent.
Proof.
  unfold supports_action, selectTool, More.tool_of. intros Hs Hq.
  destruct (Intent.action intent); try congruence;
    cbn [possibleOps find action_string] in *; rewrite Hs; reflexivity.
Qed.

Lemma selectTool_prefers_action_name_witness :
  selectTool
    (ServerRegistration.mk "A" Scenario.capA active Scenario.epoch
       (Metrics.mk 0 (0 # 1) (0 # 1)))
    (Scenario.intent ActCreate [Scenario.entity "unit" "4"])
  = "create_unit".
Proof.
  apply (selectTool_prefers_action_name
           (ServerRegistration.mk "A" Scenario.capA active Scenario.epoch
              (Metrics.mk 0 (0 # 1) (0 # 1)))
           (Scenario.intent ActCreate [Scenario.entity "unit" "4"])).
  - reflexivity.
  - discriminate.
Defined.

(** *** Confidence *)

(** X11.  The routing confidence never exceeds 1, and it is at least
    0.5 for a server whose error rate is at most 1. *)
Theorem routing_confidence_bounds
  (server : ServerRegistration.t) (intent : Intent.t) :
  (calculateRoutingConfidence server intent <= 1)%Q
  /\ ((Metrics.errorRate (ServerRegistration.metrics server) <= 1)%Q ->
      (1 # 2 <= calculateRoutingConfidence server intent)%Q).
Proof.
  unfold calculateRoutingConfidence. split; [apply Q.le_min_r|].
  intros Herr.
  set (supported :=
         inject_Z (Z.of_nat
           (length (filter (supports_entity server) (Intent.entities intent))))).
  set (total :=
         inject_Z (Z.of_nat (Nat.max (length (Intent.entities intent)) 1))).
  assert (Hs : (0 <= supported)%Q) by (unfold supported, Qle; simpl; lia).
  assert (Ht : (0 < total)%Q) by (unfold total, Qlt; simpl; lia).
  assert (Hr : (0 <= supported / total)%Q).
  { apply Qle_shift_div_l; [assumption|]. lra. }
  apply Q.min_glb; [|lra].
  destruct (supports_action server intent); lra.
Qed.

(** *** Parameters *)

Lemma lookup_assign_same p k v : Js.lookup (Js.assign p k v) k = v.
Proof.
  induction p as [|[k' v'] p IH]; simpl.
  - now rewrite String.eqb_refl.
  - destruct (k' =? k) eqn:E; simpl; rewrite E; auto.
Qed.

Lemma lookup_assign_other p k k' v :
  k <> k' -> Js.lookup (Js.assign p k v) k' = Js.lookup p k'.
Proof.
  intros Hne. induction p as [|[k0 v0] p IH]; simpl.
  - apply String.eqb_neq in Hne. now rewrite Hne.
  - destruct (String.eqb_spec k0 k) as [->|H0]; simpl.
    + apply String.eqb_neq in Hne. now rewrite Hne.
    + now rewrite IH.
Qed.

Lemma toISOString_valid d :
  More.valid_date d <-> exists s, Js.toISOString d = Ok s.
Proof.
  unfold More.valid_date, Js.toISOString. split.
  - intros (ms & -> & H). apply Z.leb_le in H. rewrite H. eauto.
  - destruct d as [ms|]; [|intros (s & E); discriminate].
    destruct (Z.abs ms <=? 8640000000000000)%Z eqn:E.
    + intros _. exists ms. split; auto. now apply Z.leb_le.
    + intros (s & E'). discriminate.
Qed.

Lemma toISOString_throws d e :
  Js.toISOString d = Throw e -> e = RangeError "Invalid time value".
Proof.
  unfold Js.toISOString. destruct d as [ms|].
  - destruct (Z.abs ms <=? 8640000000000000)%Z; [discriminate|].
    now intros E; injection E as <-.
  - now intros E; injection E as <-.
Qed.

(** X12.  [buildParameters] succeeds exactly when the start and the
    end of the time frame, where given, are valid dates; otherwise it
    throws the [RangeError] of [toISOString]. *)
Theorem buildParameters_throws_on_invalid_dates (intent : Intent.t) :
  ((exists params, buildParameters intent = Ok params)
   <-> (forall tf d,
          Intent.timeframe intent = Some tf ->
          TimeRange.start tf = Some d \/ TimeRange.end_ tf = Some d ->
          More.valid_date d))
  /\ (forall e,
        buildParameters intent = Throw e ->
        e = RangeError "Invalid time value").
Proof.
  unfold buildParameters.
  destruct (Intent.timeframe intent) as [tf|]; simpl.
  2:{ split; [|discriminate]. split; [discriminate | eauto]. }
  destruct (TimeRange.start tf) as [ds|] eqn:S;
    destruct (TimeRange.end_ tf) as [de|] eqn:E; simpl.
  - destruct (Js.toISOString ds) as [ss|es] eqn:Ts; simpl.
    + destruct (Js.toISOString de) as [se|ee] eqn:Te; simpl.
      * split; [|discriminate]. split; [|eauto].
        intros _ tf' d Htf [Hd|Hd]; injection Htf as <-;
          rewrite ?S, ?E in Hd; injection Hd as <-;
          apply toISOString_valid; eauto.
      * split.
        -- split; [intros (p & H); discriminate|].
           intros H. exfalso.
           destruct (proj1 (toISOString_valid de)
                       (H tf de eq_refl (or_intror E))) as (s & Hs).
           congruence.
        -- intros e H. injection H as <-. now apply toISOString_throws with de.
    + split.
      * split; [intros (p & H); discriminate|].
        intros H. exfalso.
        destruct (proj1 (toISOString_valid ds)
                    (H tf ds eq_refl (or_introl S))) as (s & Hs).
        congruence.
      * intros e H. injection H as <-. now apply toISOString_throws with ds.
  - destruct (Js.toISOString ds) as [ss|es] eqn:Ts; simpl.
    + split; [|discriminate]. split; [|eauto].
      intros _ tf' d Htf [Hd|Hd]; injection Htf as <-;
        rewrite ?S, ?E in Hd; [|discriminate]. injection Hd as <-.
      apply toISOString_valid; eauto.
    + split.
      * split; [intros (p & H); discriminate|].
        intros H. exfalso.
        destruct (proj1 (toISOString_valid ds)
                    (H tf ds eq_refl (or_introl S))) as (s & Hs).
        congruence.
      * intros e H. injection H as <-. now apply toISOString_throws with ds.
  - destruct (Js.toISOString de) as [se|ee] eqn:Te; simpl.
    + split; [|discriminate]. split; [|eauto].
      intros _ tf' d Htf [Hd|Hd]; injection Htf as <-;
        rewrite ?S, ?E in Hd; [discriminate|]. injection Hd as <-.
      apply toISOString_valid; eauto.
    + split.
      * split; [intros (p & H); discriminate|].
        intros H. exfalso.
        destruct (proj1 (toISOString_valid de)
                    (H tf de eq_refl (or_intror E))) as (s & Hs).
        congruence.
      * intros e H. injection H as <-. now apply toISOString_throws with de.
  - split; [|discriminate]. split; [|eauto].
    intros _ tf' d Htf [Hd|Hd]; injection Htf as <-;
      rewrite ?S, ?E in Hd; discriminate.
Qed.

Ltac lookup_solve :=
  repeat first
    [ rewrite lookup_assign_same
    | rewrite lookup_assign_other by discriminate ];
  reflexivity.

Ltac same_option :=
  repeat match goal with
    | H : None = Some _ |- _ => discriminate H
    | H : Some _ = Some _ |- _ => injection H as H; subst
    | H : ?a = Some _, H' : ?a = Some _ |- _ =>
        rewrite H in H'; injection H' as H'; subst
    | H : ?a = None, H' : ?a = Some _ |- _ => rewrite H in H'; discriminate H'
    | H : (?s =? "") = true, H' : ?s <> "" |- _ =>
        apply String.eqb_eq in H; contradiction
    end.

(** X13.  In the parameters that [buildParameters] returns, the later
    sources win over the filters: the key [aggregation] holds the
    aggregation directive, [timeframe] the relative token and
    [startDate] and [endDate] the ISO strings of the bounds, whatever
    filter or entity was given under the same name. *)
Theorem buildParameters_reserved_keys (intent : Intent.t) (params : Params) :
  buildParameters intent = Ok params ->
  (forall agg,
     Intent.aggregation intent = Some agg ->
     Js.lookup params "aggregation" = Js.Str (aggregation_string agg))
  /\ (forall tf rel,
        Intent.timeframe intent = Some tf ->
        TimeRange.relative tf = Some rel -> rel <> "" ->
        Js.lookup params "timeframe" = Js.Str rel)
  /\ (forall tf d,
        Intent.timeframe intent = Some tf ->
        TimeRange.start tf = Some d ->
        exists iso,
          Js.toISOString d = Ok iso
          /\ Js.lookup params "startDate" = Js.Str iso)
  /\ (forall tf d,
        Intent.timeframe intent = Some tf ->
        TimeRange.end_ tf = Some d ->
        exists iso,
          Js.toISOString d = Ok iso
          /\ Js.lookup params "endDate" = Js.Str iso).
Proof.
  unfold buildParameters.
  set (p2 := fold_left _ (Intent.entities intent) _). clearbody p2.
  unfold bind.
  repeat match goal with
    | |- context [match ?x with _ => _ end] =>
        lazymatch x with
        | context [match _ with _ => _ end] => fail
        | _ => destruct x eqn:?
        end
    end;
    intros H; try discriminate H; injection H as <-;
    (split; [|split; [|split]]); intros; same_option;
    try (eexists; split; [eassumption|]); lookup_solve.
Qed.

Lemma buildParameters_reserved_keys_witness :
  Js.lookup
    [("aggregation", Js.Str "count"); ("timeframe", Js.Str "last_week")]
    "aggregation" = Js.Str "count".
Proof.
  destruct (buildParameters_reserved_keys
              (Intent.mk ActQuery []
                 (Some [Filter.mk "aggregation" OpEquals (Js.Str "none")])
                 (Some (TimeRange.mk None None (Some "last_week")))
                 (Some AggCount) None None)
              [("aggregation", Js.Str "count"); ("timeframe", Js.Str "last_week")]
              eq_refl) as (H & _).
  exact (H AggCount eq_refl).
Defined.

(** *** Failures and decisions *)

(** X14.  Whatever goes wrong in [route], what it throws is a
    [RoutingError] that carries the intent, the message
    [Failed to route intent: ] followed by the message of the cause,
    and the cause itself; the cache is left as it was.  When the
    registry finds no server the cause is the [RoutingError]
    [No servers found for intent]. *)
Theorem route_failures_are_routing_errors
  (Fuse_search : list ServerRegistration.t -> string
                 -> list ServerRegistry.FuseResult.t)
  (registry : ServerRegistry.t) (cache : Cache) (intent : Intent.t)
  (e : Thrown) (cache' : Cache) :
  route Fuse_search registry cache intent = (Throw e, cache') ->
  cache' = cache
  /\ exists cause,
       e = RoutingError ("Failed to route intent: " ++ thrown_message cause)
             intent (Some cause)
       /\ (ServerRegistry.findServersForIntent Fuse_search registry intent
           = Ok [] ->
           cause = RoutingError "No servers found for intent" intent None).
Proof.
  unfold route.
  destruct (JsMap.get cache (getCacheKey intent)); [discriminate|].
  destruct (ServerRegistry.findServersForIntent Fuse_search registry intent)
    as [candidates|e0].
  - destruct (decide intent candidates) as [d|e1] eqn:D; [discriminate|].
    intros H. injection H as <- <-. split; [reflexivity|].
    exists e1. split; [reflexivity|].
    intros E. injection E as ->. simpl in D. now injection D as <-.
  - intros H. injection H as <- <-. split; [reflexivity|].
    exists (Native e0). split; [reflexivity | discriminate].
Qed.

Lemma route_failures_are_routing_errors_witness :
  exists cause,
    RoutingError "Failed to route intent: No servers found for intent"
      (Scenario.intent ActDelete []) 
      (Some (RoutingError "No servers found for intent"
               (Scenario.intent ActDelete []) None))
    = RoutingError ("Failed to route intent: " ++ thrown_message cause)
        (Scenario.intent ActDelete []) (Some cause).
Proof.
  destruct (route_failures_are_routing_errors Scenario.Fuse_none
              (ServerRegistry.initialize ServerRegistry.new) JsMap.empty
              (Scenario.intent ActDelete [])
              (RoutingError "Failed to route intent: No servers found for intent"
                 (Scenario.intent ActDelete [])
                 (Some (RoutingError "No servers found for intent"
                          (Scenario.intent ActDelete []) None)))
              JsMap.empty eq_refl) as (_ & cause & E & _).
  exists cause. exact E.
Defined.




(** X16.  Once [route] has returned a decision for an intent, routing
    that intent again returns the same decision and the same cache on
    any registry and with any searcher: a change of the registry, the
    removal of the chosen server included, does not reach an intent
    whose key is cached. *)
Theorem route_again_returns_cached_decision
  (Fuse_search : list ServerRegistration.t -> string
                 -> list ServerRegistry.FuseResult.t)
  (registry : ServerRegistry.t) (cache : Cache) (intent : Intent.t)
  (decision : RoutingDecision.t) (cache' : Cache) :
  route Fuse_search registry cache intent = (Ok decision, cache') ->
  forall Fuse_search' registry',
    route Fuse_search' registry' cache' intent = (Ok decision, cache').
Proof.
  intros R Fuse_search' registry'.
  apply RouterProps.route_hit.
  destruct (JsMap.get cache (getCacheKey intent)) as [d|] eqn:G.
  - rewrite (RouterProps.route_hit Fuse_search registry cache intent d G) in R.
    injection R as <- <-. exact G.
  - rewrite (RouterProps.route_miss _ _ _ _ _ _ G R).
    unfold cache_insert.
    destruct (Nat.ltb 1000 (JsMap.size (JsMap.set cache (getCacheKey intent) decision)))
      eqn:Full; [|apply JsMapFacts.get_set_same].
    destruct cache as [|[k0 d0] rest].
    + apply Nat.ltb_lt in Full. unfold JsMap.size in Full. simpl in Full. lia.
    + cbn [JsMap.get] in G.
      destruct (String.eqb_spec k0 (getCacheKey intent)) as [|Hne];
        [discriminate|].
      cbn [JsMap.set]. apply String.eqb_neq in Hne. rewrite Hne.
      cbn [JsMap.firstKey]. apply String.eqb_neq in Hne.
      rewrite JsMapFacts.get_delete_other by assumption.
      cbn [JsMap.get]. apply String.eqb_neq in Hne. rewrite Hne.
      apply JsMapFacts.get_set_same.
Qed.

Lemma route_again_returns_cached_decision_witness :
  let first :=
    route Scenario.Fuse_none
      (Scenario.registryAB Scenario.capA Scenario.capB
         Scenario.epoch Scenario.epoch)
      JsMap.empty
      (Scenario.intent ActCreate [Scenario.entity "work_order" ""]) in
  route Scenario.Fuse_none ServerRegistry.new (snd first)
    (Scenario.intent ActCreate [Scenario.entity "work_order" ""])
  = first.
Proof.
  eapply (route_again_returns_cached_decision Scenario.Fuse_none
            (Scenario.registryAB Scenario.capA Scenario.capB
               Scenario.epoch Scenario.epoch)
            JsMap.empty
            (Scenario.intent ActCreate [Scenario.entity "work_order" ""])).
  vm_compute. reflexivity.
Defined.

End RouterMore.

(* ================================================================= *)
(** ** More on the validation engine *)

Module ValidationMore.
Import ValidationEngine.

(** *** Findings *)

Lemma applyRules_spec rules params : forall errors warnings ew,
  applyRules rules params errors warnings = Ok ew ->
  ew = ((errors ++ More.failed_messages SevError params rules)%list,
        (warnings ++ More.failed_messages SevWarning params rules)%list).
Proof.
  unfold More.failed_messages.
  induction rules as [|rule rules IH]; intros errors warnings ew; simpl.
  - intros H. injection H as <-. now rewrite !app_nil_r.
  - assert (F : forall sev,
              More.fails sev params rule
              = match ValidationRule.condition rule params with
                | Ok false =>
                    More.severity_eqb (ValidationRule.severity rule) sev
                | _ => false
                end) by reflexivity.
    rewrite !F.
    destruct (ValidationRule.condition rule params) as [holds|e];
      cbn [bind]; [|discriminate].
    destruct holds; [apply IH|].
    destruct (ValidationRule.severity rule); cbn [More.severity_eqb map];
      intros H; rewrite (IH _ _ _ H), <- ?app_assoc; reflexivity.
Qed.

Lemma validateOperation_spec v now routing intent context res :
  validateOperation v now routing intent context = Ok res ->
  let params := RoutingDecision.params routing in
  let server := RoutingDecision.server routing in
  let rules :=
    rules_at v (rule_key server (action_string (Intent.action intent))) in
  res
  = ValidationResult.mk
      (Nat.eqb (length (ValidationResult.errors res)) 0)
      (fst (validateParameters params intent)
         ++ More.permission_errors context (Intent.action intent) server
         ++ More.failed_messages SevError params rules
         ++ fst (fst (More.validator_findings v server params)))%list
      (Some (snd (validateParameters params intent)
               ++ More.failed_messages SevWarning params rules
               ++ snd (fst (More.validator_findings v server params)))%list)
      (Some (snd (More.validator_findings v server params)))
      (Some (OperationMetadata now (length rules) context)).
Proof.
  intros H params server rules.
  unfold validateOperation in H. fold params server rules in H.
  unfold More.validator_findings, More.permission_errors.
  destruct (validateParameters params intent) as [errors0 warnings0].
  cbn [fst snd].
  match type of H with
  | context [applyRules rules params ?es ?ws] =>
      destruct (applyRules rules params es ws) as [[errors2 warnings2]|]
        eqn:A; [|discriminate];
      apply applyRules_spec in A
  end.
  injection A as -> ->. cbn [bind] in H.
  destruct (JsMap.get (customValidators v) server) as [validator|].
  - destruct (validator params) as [cr|]; [|discriminate].
    cbn [bind fst snd] in *. injection H as <-. cbn [ValidationResult.errors].
    destruct context as [[dom [user|]]|]; cbn [Context.currentUser];
      rewrite <- ?app_assoc, ?app_nil_r; reflexivity.
  - cbn [bind fst snd] in *. injection H as <-. cbn [ValidationResult.errors].
    destruct context as [[dom [user|]]|]; cbn [Context.currentUser];
      rewrite <- ?app_assoc, ?app_nil_r; reflexivity.
Qed.

(** X17.  When [validateOperation] returns, its errors are, in this
    order: the parameter errors, the permission errors when the context
    names a user, the messages of the rules of severity [error]
    registered under [server:action] whose condition is false, in
    registration order, and the errors of the custom validator; its
    warnings are the parameter warnings, the failed rules of severity
    [warning] and the validator's warnings; [isValid] says that there
    is no error, and [rulesApplied] counts the rules under
    [server:action]. *)
Theorem validateOperation_merges_findings
  (v : t) (now : Js.Date) (routing : RoutingDecision.t) (intent : Intent.t)
  (context : option Context.t) (res : ValidationResult.t) :
  validateOperation v now routing intent context = Ok res ->
  let params := RoutingDecision.params routing in
  let server := RoutingDecision.server routing in
  let rules :=
    rules_at v (rule_key server (action_string (Intent.action intent))) in
  ValidationResult.errors res
  = (fst (validateParameters params intent)
       ++ More.permission_errors context (Intent.action intent) server
       ++ More.failed_messages SevError params rules
       ++ fst (fst (More.validator_findings v server params)))%list
  /\ ValidationResult.warnings res
     = Some (snd (validateParameters params intent)
               ++ More.failed_messages SevWarning params rules
               ++ snd (fst (More.validator_findings v server params)))%list
  /\ ValidationResult.suggestions res
     = Some (snd (More.validator_findings v server params))
  /\ (ValidationResult.isValid res = true <-> ValidationResult.errors res = [])
  /\ ValidationResult.metadata res
     = Some (OperationMetadata now (length rules) context).
Proof.
  intros H params server rules.
  pose proof (validateOperation_spec _ _ _ _ _ _ H) as E.
  fold params server rules in E.
  pose proof (f_equal ValidationResult.errors E) as Eerr.
  pose proof (f_equal ValidationResult.warnings E) as Ewarn.
  pose proof (f_equal ValidationResult.suggestions E) as Esug.
  pose proof (f_equal ValidationResult.metadata E) as Emeta.
  pose proof (f_equal ValidationResult.isValid E) as Evalid.
  cbn [ValidationResult.errors ValidationResult.warnings
       ValidationResult.suggestions ValidationResult.metadata
       ValidationResult.isValid] in Eerr, Ewarn, Esug, Emeta, Evalid.
  split; [exact Eerr|]. split; [exact Ewarn|]. split; [exact Esug|].
  split; [|exact Emeta].
  rewrite Evalid, Nat.eqb_eq. apply length_zero_iff_nil.
Qed.

Lemma validateOperation_merges_findings_witness :
  ValidationResult.errors
    (ValidationResult.mk false ["Create operation requires data"; "rejected"]
       (Some []) (Some []) (Some (OperationMetadata Scenario.epoch 0 None)))
  = ["Create operation requires data"; "rejected"].
Proof.
  destruct (validateOperation_merges_findings
              (registerValidator (initialize new) "A"
                 Scenario.rejectingValidator)
              Scenario.epoch (Scenario.routing "A" [])
              (Scenario.intent ActCreate []) None
              (ValidationResult.mk false
                 ["Create operation requires data"; "rejected"]
                 (Some []) (Some [])
                 (Some (OperationMetadata Scenario.epoch 0 None)))
              eq_refl) as (E & _).
  exact E.
Defined.

(** X18.  An [update] or a [delete] whose parameters have no truthy
    [id], and a [create] whose parameters are absent or empty, is never
    valid: whenever [validateOperation] returns, [isValid] is false and
    the errors hold the message of the missing data. *)
Theorem validateOperation_requires_id_and_data
  (v : t) (now : Js.Date) (routing : RoutingDecision.t) (intent : Intent.t)
  (context : option Context.t) (res : ValidationResult.t) :
  validateOperation v now routing intent context = Ok res ->
  (Intent.action intent = ActUpdate /\ More.lacks_id (RoutingDecision.params routing)
   -> ValidationResult.isValid res = false
      /\ In "Update operation requires an ID" (ValidationResult.errors res))
  /\ (Intent.action intent = ActDelete
      /\ More.lacks_id (RoutingDecision.params routing)
      -> ValidationResult.isValid res = false
         /\ In "Delete operation requires an ID" (ValidationResult.errors res))
  /\ (Intent.action intent = ActCreate
      /\ (RoutingDecision.params routing = None
          \/ RoutingDecision.params routing = Some [])
      -> ValidationResult.isValid res = false
         /\ In "Create operation requires data" (ValidationResult.errors res)).
Proof.
  intros H. pose proof (validateOperation_spec _ _ _ _ _ _ H) as E.
  cbv zeta in E.
  pose proof (f_equal ValidationResult.errors E) as Eerr.
  pose proof (f_equal ValidationResult.isValid E) as Evalid.
  cbn [ValidationResult.errors ValidationResult.isValid] in Eerr, Evalid.
  assert (Hin : forall msg,
            In msg (fst (validateParameters (RoutingDecision.params routing) intent)) ->
            ValidationResult.isValid res = false
            /\ In msg (ValidationResult.errors res)).
  { intros msg Hmsg.
    assert (Hres : In msg (ValidationResult.errors res))
      by (rewrite Eerr; apply in_or_app; now left).
    split; [|exact Hres]. rewrite Evalid.
    destruct (ValidationResult.errors res); [destruct Hres | reflexivity]. }
  unfold More.lacks_id.
  split; [|split]; intros [Ha Hp]; apply Hin; unfold validateParameters;
    rewrite Ha.
  - destruct (RoutingDecision.params routing) as [p|]; cbv zeta; cbn [fst];
      [rewrite Hp; cbn [negb]; apply in_or_app; left; now left | now left].
  - destruct (RoutingDecision.params routing) as [p|]; cbv zeta; cbn [fst];
      [rewrite Hp; cbn [negb]; apply in_or_app; left; now left | now left].
  - destruct Hp as [->| ->]; simpl; now left.
Qed.

Lemma validateOperation_requires_id_and_data_witness :
  ValidationResult.isValid
    (ValidationResult.mk false ["Update operation requires an ID"]
       (Some []) (Some []) (Some (OperationMetadata Scenario.epoch 0 None)))
  = false
  /\ In "Update operation requires an ID"
       (ValidationResult.errors
          (ValidationResult.mk false ["Update operation requires an ID"]
             (Some []) (Some [])
             (Some (OperationMetadata Scenario.epoch 0 None)))).
Proof.
  destruct (validateOperation_requires_id_and_data
              (initialize new) Scenario.epoch
              (Scenario.routing "A" [("name", Js.Str "unit 4")])
              (Scenario.intent ActUpdate []) None
              (ValidationResult.mk false ["Update operation requires an ID"]
                 (Some []) (Some [])
                 (Some (OperationMetadata Scenario.epoch 0 None)))
              eq_refl) as (H & _).
  apply H. split; reflexivity.
Defined.

(** *** Permissions *)

Lemma existsb_eqb_In (x : string) (l : list string) :
  existsb (String.eqb x) l = true <-> In x l.
Proof.
  rewrite existsb_exists. split.
  - intros (y & Hy & E). apply String.eqb_eq in E. now subst.
  - intros H. exists x. split; auto. apply String.eqb_refl.
Qed.

(** X19.  [validatePermissions] reports nothing exactly when the user
    has the role [admin] or holds one of the permissions required for
    the action ([write] or [admin] for create and update, [admin] for
    delete, sync and every unlisted action, [read], [write] or [admin]
    for query), and is not a [tenant] addressing the server
    [propertyware]. *)
Theorem validatePermissions_allows
  (user : User.t) (action : IntentAction) (server : string) :
  validatePermissions user action server = []
  <-> (User.role user = "admin"
       \/ exists perm permissions,
            In perm (requiredPermissions action)
            /\ User.permissions user = Some permissions
            /\ In perm permissions)
      /\ ~ (server = "propertyware" /\ User.role user = "tenant").
Proof.
  unfold validatePermissions.
  set (has := existsb _ (requiredPermissions action)).
  assert (Hhas : has = true
                 <-> (User.role user = "admin"
                      \/ exists perm permissions,
                           In perm (requiredPermissions action)
                           /\ User.permissions user = Some permissions
                           /\ In perm permissions)).
  { unfold has. rewrite existsb_exists. split.
    - intros (perm & Hperm & H). apply orb_true_iff in H.
      destruct H as [H|H].
      + destruct (User.permissions user) as [ps|]; [|discriminate].
        right. exists perm, ps. split; auto. split; auto.
        now apply existsb_eqb_In.
      + left. now apply String.eqb_eq.
    - intros [H|(perm & ps & Hperm & Hps & Hin)].
      + assert (Hne : exists perm, In perm (requiredPermissions action))
          by (destruct action; simpl; eauto).
        destruct Hne as (perm & Hperm). exists perm. split; auto.
        apply orb_true_iff. right. now apply String.eqb_eq.
      + exists perm. split; auto. apply orb_true_iff. left. rewrite Hps.
        now apply existsb_eqb_In. }
  destruct has.
  - destruct ((server =? "propertyware") && (User.role user =? "tenant"))%bool
      eqn:T.
    + apply andb_true_iff in T. destruct T as [T1 T2].
      apply String.eqb_eq in T1, T2.
      split; [discriminate | intros [_ Hn]; elim Hn; auto].
    + split; [|reflexivity]. intros _. split; [now apply Hhas|].
      intros [-> E]. rewrite E in T. discriminate.
  - split; [discriminate|]. intros [H _]. apply Hhas in H. discriminate.
Qed.

(** *** The injection pattern *)

Lemma upper_idempotent (c : ascii) :
  upper (upper c) = upper c.
Proof.
  destruct c as [[] [] [] [] [] [] [] []]; reflexivity.
Qed.

Lemma strip_keyword_upcase kw : forall w post,
  More.upcase w = kw -> strip_keyword kw (w ++ post) = Some post.
Proof.
  induction kw as [|a kw IH]; intros w post H.
  - destruct w; [reflexivity|discriminate].
  - destruct w as [|b w]; [discriminate|].
    cbn [More.upcase] in H. injection H as Ha Hw.
    cbn [append strip_keyword]. rewrite <- Ha, upper_idempotent.
    rewrite Ascii.eqb_refl. now apply IH.
Qed.

Lemma match_here_keyword prev w post :
  More.boundary prev ->
  More.is_keyword w ->
  More.starts_outside_word post ->
  match_here prev (w ++ post) = true.
Proof.
  intros Hb Hk Hpost.
  assert (Hw : forall kw, More.upcase w = kw ->
            is_some (word_at prev kw (w ++ post)) = true).
  { intros kw E. unfold word_at.
    replace (match prev with
             | Some c => negb (is_word_char c)
             | None => true
             end) with true
      by (destruct prev; simpl in *; [now rewrite Hb | reflexivity]).
    rewrite (strip_keyword_upcase kw w post E).
    destruct post as [|c post]; [reflexivity|].
    simpl in Hpost. now rewrite Hpost. }
  unfold match_here.
  destruct Hk as [E|[E|E]]; rewrite (Hw _ E); simpl;
    rewrite ?orb_true_r; reflexivity.
Qed.

Lemma search_keyword w post : forall pre prev,
  More.boundary (More.last_char prev pre) ->
  More.is_keyword w ->
  More.starts_outside_word post ->
  search prev (pre ++ w ++ post) = true.
Proof.
  induction pre as [|c pre IH]; intros prev Hb Hk Hpost.
  - cbn [append]. cbn [More.last_char] in Hb.
    assert (M : match_here prev (w ++ post) = true)
      by now apply match_here_keyword.
    destruct (w ++ post); simpl; now rewrite M.
  - cbn [append search]. cbn [More.last_char] in Hb.
    destruct (match_here prev (String c (pre ++ w ++ post))); auto.
Qed.

(** X20.  A string parameter in which [DROP], [DELETE] or [UNION], in
    any mix of upper and lower case, stands as a whole word (neither
    preceded nor followed by a letter, digit or underscore) makes
    [validateParameters] report [Potentially malicious input detected],
    whatever the action and wherever the word stands in the string. *)
Theorem validateParameters_detects_keywords
  (params : Params) (intent : Intent.t) (key pre w post : string) :
  In (key, Js.Str (pre ++ w ++ post)) params ->
  More.is_keyword w ->
  More.ends_outside_word pre ->
  More.starts_outside_word post ->
  In "Potentially malicious input detected"
    (fst (validateParameters (Some params) intent)).
Proof.
  intros Hin Hk Hpre Hpost. unfold validateParameters. cbv zeta. cbn [fst].
  apply in_or_app. right. apply in_flat_map.
  exists (key, Js.Str (pre ++ w ++ post)). split; [assumption|].
  cbn [snd]. unfold suspiciousPatterns_test.
  rewrite (search_keyword w post pre None Hpre Hk Hpost). now left.
Qed.

Lemma validateParameters_detects_keywords_witness :
  In "Potentially malicious input detected"
    (fst (validateParameters
            (Some [("name", Js.Str "x'; Drop table units")])
            (Scenario.intent ActQuery []))).
Proof.
  apply (validateParameters_detects_keywords
           [("name", Js.Str "x'; Drop table units")]
           (Scenario.intent ActQuery []) "name" "x'; " "Drop" " table units").
  - now left.
  - left. reflexivity.
  - reflexivity.
  - reflexivity.
Defined.

(** *** Results *)

Lemma itemWarnings_ok items : forall index,
  existsb More.nullish items = false ->
  exists ws,
    itemWarnings items index = Ok ws /\ length ws <= length items.
Proof.
  induction items as [|item items IH]; intros index H.
  - exists []. split; [reflexivity | simpl; lia].
  - cbn [existsb] in H. apply orb_false_iff in H. destruct H as [Hi Hr].
    destruct (IH (S index) Hr) as (ws & E & Hlen).
    cbn [itemWarnings].
    destruct item; try discriminate; cbn [Js.get bind]; rewrite E;
      cbn [bind];
      match goal with
      | |- context [if ?b then _ else _] => destruct b
      end; eexists; (split; [reflexivity | cbn [length]; lia]).
Qed.

Lemma itemWarnings_throws items : forall index,
  existsb More.nullish items = true ->
  exists m, itemWarnings items index = Throw (TypeError m).
Proof.
  induction items as [|item items IH]; intros index H; [discriminate|].
  cbn [existsb] in H. cbn [itemWarnings].
  destruct item; cbn [More.nullish orb] in H;
    try (cbn [Js.get bind]; eauto; fail);
    destruct (IH (S index) H) as (m & E);
    cbn [Js.get bind]; rewrite E; cbn [bind]; eauto.
Qed.

Lemma arrays_have_no_property_findings Date_new le_zero items :
  validatePropertyManagementData Date_new le_zero (Js.Arr items) = ([], []).
Proof. reflexivity. Qed.

(** X21.  [validateResult] for a [query] that returned an array.  If
    no item is [null] or [undefined] the result is valid and has no
    errors, whatever the items hold and in every runtime; it counts the
    items, warns at most once per item, and an empty array gives the
    one warning [Query returned no results].  If some item is [null]
    or [undefined] the call throws a [TypeError] instead of returning a
    result. *)
Theorem validateResult_on_query_arrays
  (Date_new : Js.Value -> Js.Date) (le_zero : Js.Value -> bool)
  (items : list Js.Value) (intent : Intent.t) :
  Intent.action intent = ActQuery ->
  (existsb More.nullish items = false ->
   exists res,
     validateResult Date_new le_zero (Js.Arr items) intent = Ok res
     /\ ResultValidation.isValid res = true
     /\ ResultValidation.errors res = []
     /\ ResultValidation.resultType res = "array"
     /\ ResultValidation.resultCount res = length items
     /\ length (ResultValidation.warnings res) <= Nat.max 1 (length items)
     /\ (items = [] ->
         ResultValidation.warnings res = ["Query returned no results"]))
  /\ (existsb More.nullish items = true ->
      exists m,
        validateResult Date_new le_zero (Js.Arr items) intent
        = Throw (TypeError m)).
Proof.
  intros Ha. unfold validateResult. rewrite Ha.
  rewrite arrays_have_no_property_findings.
  split; intros H.
  - destruct (itemWarnings_ok items 0 H) as (ws & E & Hlen).
    rewrite E. cbn [bind].
    destruct (isPropertyManagementData (Js.Arr items));
      (eexists; split; [reflexivity|];
       cbn [ResultValidation.isValid ResultValidation.errors
            ResultValidation.resultType ResultValidation.resultCount
            ResultValidation.warnings app length Nat.eqb];
       repeat split;
       [ rewrite app_nil_r; destruct items; cbn [length] in *; lia
       | intros ->; cbn [itemWarnings] in E; injection E as <-; reflexivity ]).
  - destruct (itemWarnings_throws items 0 H) as (m & E).
    rewrite E. cbn [bind]. eauto.
Qed.

Lemma validateResult_on_query_arrays_witness :
  exists res,
    validateResult More.no_date More.never_le_zero
      (Js.Arr [Js.Obj [("id", Js.Num 7)]; Js.Obj [("name", Js.Str "unit")]])
      (Scenario.intent ActQuery [])
    = Ok res
    /\ ResultValidation.isValid res = true
    /\ ResultValidation.resultCount res = 2.
Proof.
  destruct (validateResult_on_query_arrays More.no_date More.never_le_zero
              [Js.Obj [("id", Js.Num 7)]; Js.Obj [("name", Js.Str "unit")]]
              (Scenario.intent ActQuery []) eq_refl) as (H & _).
  destruct (H eq_refl) as (res & E & Hv & _ & _ & Hc & _).
  exists res. split; [exact E|]. split; [exact Hv | exact Hc].
Defined.



End ValidationMore.

(* ================================================================= *)
(** ** More on the learning system *)

Module LearningMore.
Import LearningSystem.

(** *** Reachable states *)

Lemma rate_running (avg : Q) (n : Z) (x : Q) :
  (0 <= n)%Z -> More.rate_ok avg -> More.rate_ok x ->
  More.rate_ok (running avg (n + 1) x).
Proof.
  unfold More.rate_ok, running. intros Hn [Ha0 Ha1] [Hx0 Hx1].
  replace (n + 1 - 1)%Z with n by lia.
  assert (Hpos : (0 < inject_Z (n + 1))%Q) by (unfold Qlt; simpl; lia).
  assert (Hz : (0 <= inject_Z n)%Q) by (unfold Qle; simpl; lia).
  assert (Hs : (inject_Z (n + 1) == inject_Z n + 1)%Q)
    by (rewrite inject_Z_plus; reflexivity).
  assert (Hp : (0 <= avg * inject_Z n)%Q) by (apply Qmult_le_0_compat; assumption).
  assert (Hq : (avg * inject_Z n <= inject_Z n)%Q).
  { rewrite <- (Qmult_1_l (inject_Z n)) at 2.
    apply Qmult_le_compat_r; assumption. }
  split.
  - apply Qle_shift_div_l; [assumption|]. lra.
  - apply Qle_shift_div_r; [assumption|]. lra.
Qed.

Lemma rate_success_value i : More.rate_ok (success_value i).
Proof.
  unfold More.rate_ok, success_value.
  destruct (ValidationResult.isValid _); split; lra.
Qed.

Lemma rate_share (s t : Z) :
  (0 <= s)%Z -> (s <= t)%Z -> (1 <= t)%Z ->
  More.rate_ok (1 - inject_Z s / inject_Z t)%Q.
Proof.
  intros H0 H1 H2. unfold More.rate_ok.
  assert (Hpos : (0 < inject_Z t)%Q) by (unfold Qlt; simpl; lia).
  assert (Hs : (0 <= inject_Z s)%Q) by (unfold Qle; simpl; lia).
  assert (Hst : (inject_Z s <= inject_Z t)%Q) by (unfold Qle; simpl; lia).
  assert (A : (0 <= inject_Z s / inject_Z t)%Q)
    by (apply Qle_shift_div_l; [assumption | lra]).
  assert (B : (inject_Z s / inject_Z t <= 1)%Q)
    by (apply Qle_shift_div_r; [assumption | lra]).
  split; lra.
Qed.

Lemma rate_bump (x : Q) :
  More.rate_ok x -> More.rate_ok (Qmin (x + (1 # 10)) 1).
Proof.
  unfold More.rate_ok. intros [H0 H1]. split.
  - apply Q.min_glb; lra.
  - apply Q.le_min_r.
Qed.

Section Entries.
Context {V : Type} (P : V -> Prop).

Lemma all_values_set (m : JsMap.t V) k v :
  More.all_values P m -> P v -> More.all_values P (JsMap.set m k v).
Proof.
  intros Hall Hv k' v' Hin. apply JsMapMore.In_set in Hin.
  destruct Hin as [[_ ->]|Hin]; eauto.
Qed.

Lemma all_values_get (m : JsMap.t V) k v :
  More.all_values P m -> JsMap.get m k = Some v -> P v.
Proof.
  intros Hall G. eapply Hall, JsMapMore.get_In, G.
Qed.

End Entries.

Lemma ok_updatePatterns l now interaction :
  More.learning_ok l -> More.learning_ok (updatePatterns l now interaction).
Proof.
  intros (Hnp & Hns & Hp & Hs). unfold updatePatterns, JsMap.has.
  set (key := getPatternKey (LearningInteraction.intent interaction)).
  destruct (JsMap.get (patterns l) key) as [p|] eqn:G.
  - rewrite G. unfold More.learning_ok. cbn [patterns serverPerformance].
    split; [now apply JsMapMore.NoDup_keys_set|]. split; [assumption|].
    split; [|assumption].
    apply (all_values_set More.pattern_ok); [exact Hp|].
    destruct (Hp _ _ (JsMapMore.get_In _ _ _ G)) as [Hf Hr].
    split; cbn [QueryPattern.frequency QueryPattern.successRate]; [lia|].
    apply rate_running; [lia | assumption | apply rate_success_value].
  - rewrite JsMapFacts.get_set_same, JsMapMore.set_set.
    unfold More.learning_ok. cbn [patterns serverPerformance].
    split; [now apply JsMapMore.NoDup_keys_set|].
    split; [assumption|]. split; [|assumption].
    apply (all_values_set More.pattern_ok); [exact Hp|].
    split; cbn [QueryPattern.frequency QueryPattern.successRate]; [lia|].
    apply (rate_running 0 0); [lia | split; lra | apply rate_success_value].
Qed.

Lemma performance_step perf interaction :
  More.performance_pre perf ->
  let totalRequests := (ServerPerformance.totalRequests perf + 1)%Z in
  let successfulRequests :=
    if ValidationResult.isValid (LearningInteraction.validation interaction)
    then (ServerPerformance.successfulRequests perf + 1)%Z
    else ServerPerformance.successfulRequests perf in
  let patternKey := getPatternKey (LearningInteraction.intent interaction) in
  let pats1 :=
    if JsMap.has (ServerPerformance.patterns perf) patternKey
    then ServerPerformance.patterns perf
    else JsMap.set (ServerPerformance.patterns perf) patternKey
           (PatternPerf.mk 0 0%Q) in
  let pats2 :=
    match JsMap.get pats1 patternKey with
    | Some patternPerf =>
        JsMap.set pats1 patternKey
          (PatternPerf.mk (PatternPerf.count patternPerf + 1)%Z
             (running (PatternPerf.successRate patternPerf)
                (PatternPerf.count patternPerf + 1)
                (success_value interaction)))
    | None => pats1
    end in
  More.performance_ok
    (ServerPerformance.mk totalRequests successfulRequests
       (running (ServerPerformance.avgResponseTime perf) totalRequests
          (LearningInteraction.duration interaction))
       (1 - inject_Z successfulRequests / inject_Z totalRequests)%Q pats2).
Proof.
  intros (H0 & H1 & Hnd & Hall). cbv zeta. unfold JsMap.has.
  unfold More.performance_ok.
  cbn [ServerPerformance.totalRequests ServerPerformance.successfulRequests
       ServerPerformance.errorRate ServerPerformance.patterns].
  set (valid := ValidationResult.isValid
                  (LearningInteraction.validation interaction)).
  split; [destruct valid; lia|]. split; [destruct valid; lia|].
  split; [lia|].
  split; [apply rate_share; destruct valid; lia|].
  set (key := getPatternKey (LearningInteraction.intent interaction)).
  destruct (JsMap.get (ServerPerformance.patterns perf) key) as [pp|] eqn:G.
  - rewrite G. split; [now apply JsMapMore.NoDup_keys_set|].
    apply (all_values_set More.patternPerf_ok); [exact Hall|].
    destruct (Hall _ _ (JsMapMore.get_In _ _ _ G)) as [Hc Hr].
    split; cbn [PatternPerf.count PatternPerf.successRate]; [lia|].
    apply rate_running; [lia | assumption | apply rate_success_value].
  - rewrite JsMapFacts.get_set_same, JsMapMore.set_set.
    split; [now apply JsMapMore.NoDup_keys_set|].
    apply (all_values_set More.patternPerf_ok); [exact Hall|].
    split; cbn [PatternPerf.count PatternPerf.successRate]; [lia|].
    apply (rate_running 0 0); [lia | split; lra | apply rate_success_value].
Qed.

Lemma performance_ok_pre p : More.performance_ok p -> More.performance_pre p.
Proof.
  intros (H0 & H1 & _ & _ & Hnd & Hall).
  split; [|split; [|split]]; assumption.
Qed.

Lemma ok_updateServerPerformance l interaction :
  More.learning_ok l ->
  More.learning_ok (updateServerPerformance l interaction).
Proof.
  intros (Hnp & Hns & Hp & Hs). unfold updateServerPerformance, JsMap.has.
  set (server := RoutingDecision.server (LearningInteraction.routing interaction)).
  destruct (JsMap.get (serverPerformance l) server) as [perf|] eqn:G.
  - rewrite G. unfold More.learning_ok. cbn [patterns serverPerformance].
    split; [assumption|]. split; [now apply JsMapMore.NoDup_keys_set|].
    split; [assumption|].
    apply (all_values_set More.performance_ok); [exact Hs|].
    apply performance_step, performance_ok_pre.
    exact (Hs _ _ (JsMapMore.get_In _ _ _ G)).
  - rewrite JsMapFacts.get_set_same, JsMapMore.set_set.
    unfold More.learning_ok. cbn [patterns serverPerformance].
    split; [assumption|]. split; [now apply JsMapMore.NoDup_keys_set|].
    split; [assumption|].
    apply (all_values_set More.performance_ok); [exact Hs|].
    apply performance_step.
    split; [simpl; lia|]. split; [simpl; lia|].
    split; [constructor | intros k0 v0 []].
Qed.

Lemma ok_adjustServerPreference l intent preferredServer currentServer :
  More.learning_ok l ->
  More.learning_ok (adjustServerPreference l intent preferredServer currentServer).
Proof.
  intros (Hnp & Hns & Hp & Hs). unfold adjustServerPreference.
  set (perfs1 := match JsMap.get (serverPerformance l) preferredServer with
                 | Some preferred => _
                 | None => serverPerformance l
                 end).
  assert (H1 : NoDup (JsMap.keys perfs1)
               /\ More.all_values More.performance_ok perfs1).
  { subst perfs1.
    destruct (JsMap.get (serverPerformance l) preferredServer) as [p|] eqn:G;
      [|split; assumption].
    split; [now apply JsMapMore.NoDup_keys_set|].
    apply (all_values_set More.performance_ok); [exact Hs|].
    destruct (Hs _ _ (JsMapMore.get_In _ _ _ G))
      as (A & B & C & D & E & F).
    split; [simpl; lia|]. split; [simpl; lia|]. split; [simpl; lia|].
    split; [exact D|]. split; assumption. }
  destruct H1 as [Hnd1 Hall1].
  unfold More.learning_ok. cbn [patterns serverPerformance].
  split; [assumption|].
  destruct (JsMap.get perfs1 currentServer) as [c|] eqn:G.
  - split; [now apply JsMapMore.NoDup_keys_set|]. split; [assumption|].
    apply (all_values_set More.performance_ok); [exact Hall1|].
    destruct (Hall1 _ _ (JsMapMore.get_In _ _ _ G))
      as (A & B & C & D & E & F).
    split; [exact A|]. split; [exact B|]. split; [exact C|].
    split; [exact (rate_bump _ D)|]. split; assumption.
  - split; [assumption|]. split; assumption.
Qed.

Lemma ok_learn l c : More.learning_ok l -> More.learning_ok (More.learn l c).
Proof.
  intros Hok. destruct c as [now interaction|interactionId feedback|now]; simpl.
  - unfold recordInteraction.
    apply ok_updateServerPerformance, ok_updatePatterns.
    exact Hok.
  - unfold recordFeedback.
    destruct (find _ (interactions l)) as [interaction|]; [|assumption].
    destruct (UserFeedback.helpful feedback); [exact Hok|].
    destruct (names_server feedback); [|exact Hok].
    now apply ok_adjustServerPreference.
  - destruct Hok as (Hnp & Hns & Hp & Hs).
    unfold analyzePatterns, More.learning_ok. cbn [patterns serverPerformance].
    split; [|split; [assumption|split; [|assumption]]].
    + unfold JsMap.keys.
      induction (patterns l) as [|[k p] m IH]; simpl; [constructor|].
      unfold JsMap.keys in Hnp. simpl in Hnp.
      inversion Hnp as [|? ? Hnotin Hnd]; subst.
      assert (Hsub : forall x,
                In x (map fst (filter
                        (fun kv : string * QueryPattern.t =>
                           negb (stale now (snd kv))) m)) ->
                In x (map fst m)).
      { intros x Hx. apply in_map_iff in Hx. destruct Hx as (kv & <- & Hkv).
        apply filter_In in Hkv. apply in_map, Hkv. }
      destruct (stale now p); simpl.
      * apply IH; [assumption|]. intros k' v' Hin. apply (Hp k' v'). now right.
      * constructor; [intros Hx; apply Hnotin, Hsub, Hx|].
        apply IH; [assumption|]. intros k' v' Hin. apply (Hp k' v'). now right.
    + intros k v Hin. apply filter_In in Hin. apply (Hp k v), Hin.
Qed.

Lemma ok_learns cs : forall l,
  More.learning_ok l -> More.learning_ok (More.learns l cs).
Proof.
  unfold More.learns.
  induction cs as [|c cs IH]; intros l Hok; simpl; auto.
  apply IH. now apply ok_learn.
Qed.

Lemma ok_new_learning m : More.learning_ok (new m).
Proof.
  split; [constructor|]. split; [constructor|].
  split; intros k v [].
Qed.

(** X23.  Whatever is recorded, fed back or swept on a new learning
    system, in any order: every pattern has a frequency of at least 1
    and a success rate between 0 and 1; every server has at least one
    request, no more successful requests than requests, an error rate
    between 0 and 1, and per-pattern counts of at least 1 with rates
    between 0 and 1; pattern keys and server names are distinct. *)
Theorem learning_invariants (maxHistorySize : Z) (cs : list More.LearningCall) :
  More.learning_ok (More.learns (new maxHistorySize) cs).
Proof.
  apply ok_learns, ok_new_learning.
Qed.

(** *** The history *)

Lemma interactions_updatePatterns l now i :
  interactions (updatePatterns l now i) = interactions l
  /\ maxHistorySize (updatePatterns l now i) = maxHistorySize l
  /\ serverPerformance (updatePatterns l now i) = serverPerformance l.
Proof.
  unfold updatePatterns. destruct (JsMap.get _ _); auto.
Qed.

Lemma interactions_updateServerPerformance l i :
  interactions (updateServerPerformance l i) = interactions l
  /\ maxHistorySize (updateServerPerformance l i) = maxHistorySize l.
Proof.
  unfold updateServerPerformance. destruct (JsMap.get _ _); auto.
Qed.

Lemma recordInteraction_history l now i :
  interactions (recordInteraction l now i)
  = (let pushed := (interactions l ++ [with_timestamp i now])%list in
     if (maxHistorySize l <? Z.of_nat (length pushed))%Z
     then slice pushed (- maxHistorySize l) else pushed)
  /\ maxHistorySize (recordInteraction l now i) = maxHistorySize l.
Proof.
  unfold recordInteraction. split.
  - rewrite (proj1 (interactions_updateServerPerformance _ _)).
    rewrite (proj1 (interactions_updatePatterns _ _ _)). reflexivity.
  - rewrite (proj2 (interactions_updateServerPerformance _ _)).
    rewrite (proj1 (proj2 (interactions_updatePatterns _ _ _))). reflexivity.
Qed.

(** X24.  [recordInteraction] stamps the interaction and appends it to
    the history.  With a capacity of at least 1 that the history does
    not exceed, the history stays within the capacity: when it is full
    its oldest entry is dropped.  With a capacity of 0 nothing is ever
    dropped, since [slice(-0)] is the whole array.  Interactions are
    values here: the object recorded is not one the history holds
    already. *)
Theorem history_is_a_bounded_queue
  (l : t) (now : Js.Date) (interaction : LearningInteraction.t) :
  let l' := recordInteraction l now interaction in
  maxHistorySize l' = maxHistorySize l
  /\ ((1 <= maxHistorySize l)%Z ->
      (Z.of_nat (length (interactions l)) <= maxHistorySize l)%Z ->
      interactions l'
      = ((if (Z.of_nat (length (interactions l)) <? maxHistorySize l)%Z
          then interactions l else tl (interactions l))
           ++ [with_timestamp interaction now])%list
      /\ (Z.of_nat (length (interactions l')) <= maxHistorySize l)%Z)
  /\ (maxHistorySize l = 0%Z ->
      interactions l'
      = (interactions l ++ [with_timestamp interaction now])%list).
Proof.
  intros l'. subst l'.
  destruct (recordInteraction_history l now interaction) as [E1 E2].
  rewrite E1, E2. cbv zeta.
  rewrite length_app. cbn [length].
  split; [reflexivity|]. split.
  - intros Hm Hlen.
    destruct (Z.ltb_spec (Z.of_nat (length (interactions l))) (maxHistorySize l))
      as [Hlt|Hge].
    + replace (maxHistorySize l <? Z.of_nat (length (interactions l) + 1))%Z
        with false by (symmetry; apply Z.ltb_ge; lia).
      split; [reflexivity|]. rewrite length_app. cbn [length]. lia.
    + replace (maxHistorySize l <? Z.of_nat (length (interactions l) + 1))%Z
        with true by (symmetry; apply Z.ltb_lt; lia).
      unfold slice. rewrite length_app. cbn [length].
      replace (- maxHistorySize l <? 0)%Z with true
        by (symmetry; apply Z.ltb_lt; lia).
      replace (Z.to_nat
                 (Z.max (Z.of_nat (length (interactions l) + 1)
                         + - maxHistorySize l) 0))
        with 1 by lia.
      destruct (interactions l) as [|x xs]; [cbn [length] in *; lia|].
      cbn [app skipn tl]. split; [reflexivity|].
      rewrite length_app. cbn [length] in *. lia.
  - intros Hm. rewrite Hm.
    destruct (0 <? Z.of_nat (length (interactions l) + 1))%Z; [|reflexivity].
    unfold slice. change (- 0 <? 0)%Z with false. cbv iota.
    replace (Z.min (- 0) _) with 0%Z by lia. reflexivity.
Qed.

(** *** Patterns *)

Lemma patterns_recordInteraction l now i :
  patterns (recordInteraction l now i)
  = patterns (updatePatterns l now (with_timestamp i now)).
Proof.
  unfold recordInteraction.
  rewrite LearningProps.updateServerPerformance_patterns.
  unfold updatePatterns. cbn [patterns]. destruct (JsMap.get _ _); reflexivity.
Qed.

(** X25.  [recordInteraction] never removes a pattern and never lowers
    a frequency: the pattern of the interaction gains exactly 1, every
    other pattern is left as it is, and a pattern keeps the query text
    of its first occurrence. *)
Theorem recording_never_lowers_a_frequency
  (l : t) (now : Js.Date) (interaction : LearningInteraction.t)
  (key : string) (p : QueryPattern.t) :
  JsMap.get (patterns l) key = Some p ->
  exists p',
    JsMap.get (patterns (recordInteraction l now interaction)) key = Some p'
    /\ QueryPattern.pattern p' = QueryPattern.pattern p
    /\ (key = getPatternKey (LearningInteraction.intent interaction) ->
        QueryPattern.frequency p' = (QueryPattern.frequency p + 1)%Z)
    /\ (key <> getPatternKey (LearningInteraction.intent interaction) ->
        p' = p).
Proof.
  intros G. rewrite patterns_recordInteraction.
  unfold updatePatterns, JsMap.has.
  cbn [LearningInteraction.intent with_timestamp].
  set (k := getPatternKey (LearningInteraction.intent interaction)).
  destruct (String.eqb_spec k key) as [E|Hne].
  - rewrite E, G, G. cbn [patterns]. rewrite JsMapFacts.get_set_same.
    eexists. split; [reflexivity|]. split; [reflexivity|].
    split; [reflexivity | congruence].
  - destruct (JsMap.get (patterns l) k) as [q|] eqn:Gk.
    + rewrite Gk. cbn [patterns].
      rewrite JsMapFacts.get_set_other by assumption.
      exists p. split; [exact G|]. split; [reflexivity|].
      split; [congruence | reflexivity].
    + rewrite JsMapFacts.get_set_same. cbn [patterns].
      rewrite !JsMapFacts.get_set_other by assumption.
      exists p. split; [exact G|]. split; [reflexivity|].
      split; [congruence | reflexivity].
Qed.

Lemma recording_never_lowers_a_frequency_witness :
  exists p',
    JsMap.get
      (patterns
         (recordInteraction Scenario.learnedOneFailure Scenario.epoch
            (Scenario.interaction "show units" "B"
               (Scenario.intent ActQuery []) true (10 # 1))))
      "query" = Some p'
    /\ QueryPattern.pattern p' = "list units"
    /\ QueryPattern.frequency p' = 2%Z.
Proof.
  edestruct (recording_never_lowers_a_frequency
               Scenario.learnedOneFailure Scenario.epoch
               (Scenario.interaction "show units" "B"
                  (Scenario.intent ActQuery []) true (10 # 1))
               "query") as (p' & G & Hp & Hf & _).
  - vm_compute. reflexivity.
  - exists p'. split; [exact G|]. split; [exact Hp|]. now apply Hf.
Defined.

(** X26.  The clean-up of [analyzePatterns] on a state reached from a
    new learning system: a pattern is deleted exactly when it was last
    used more than seven days before [now] and its frequency is below
    5; the patterns that stay are unchanged, and so are the history
    and the server performance.  A pattern whose [lastUsed] is not a
    valid date is never deleted. *)
Theorem analyzePatterns_prunes_stale_patterns
  (maxHistorySize : Z) (cs : list More.LearningCall) (now : Z) (key : string) :
  let l := More.learns (new maxHistorySize) cs in
  JsMap.get (patterns (analyzePatterns l now)) key
  = match JsMap.get (patterns l) key with
    | Some p =>
        match QueryPattern.lastUsed p with
        | Js.ValidDate used =>
            if ((used <? now - 604800000) && (QueryPattern.frequency p <? 5))%Z%bool
            then None else Some p
        | Js.InvalidDate => Some p
        end
    | None => None
    end
  /\ interactions (analyzePatterns l now) = interactions l
  /\ serverPerformance (analyzePatterns l now) = serverPerformance l.
Proof.
  intros l. split; [|split; reflexivity].
  destruct (ok_learns cs (new maxHistorySize) (ok_new_learning maxHistorySize))
    as (Hnd & _).
  fold l in Hnd. unfold analyzePatterns. cbn [patterns].
  rewrite (JsMapMore.get_filter_values (fun p => negb (stale now p)) _ key Hnd).
  destruct (JsMap.get (patterns l) key) as [p|]; [|reflexivity].
  unfold stale. destruct (QueryPattern.lastUsed p) as [used|]; [|reflexivity].
  change (7 * 24 * 60 * 60 * 1000)%Z with 604800000%Z.
  destruct ((used <? now - 604800000)%Z && (QueryPattern.frequency p <? 5)%Z)%bool;
    reflexivity.
Qed.

(** X27.  The pattern key does not depend on the order of the
    entities: two intents with the same action, the same time frame and
    entity types that are a permutation of each other have the same
    key. *)
Theorem getPatternKey_ignores_entity_order (i1 i2 : Intent.t) :
  Intent.action i1 = Intent.action i2 ->
  Intent.timeframe i1 = Intent.timeframe i2 ->
  Permutation (map Entity.type (Intent.entities i1))
    (map Entity.type (Intent.entities i2)) ->
  getPatternKey i1 = getPatternKey i2.
Proof.
  intros Ha Ht Hp. unfold getPatternKey.
  now rewrite Ha, Ht, (SortFacts.sort_permutation _ _ Hp).
Qed.

Lemma getPatternKey_ignores_entity_order_witness :
  getPatternKey
    (Scenario.intent ActQuery
       [Scenario.entity "unit" "12"; Scenario.entity "tenant" "smith"])
  = getPatternKey
      (Scenario.intent ActQuery
         [Scenario.entity "tenant" "jones"; Scenario.entity "unit" "7"]).
Proof.
  apply getPatternKey_ignores_entity_order.
  - reflexivity.
  - reflexivity.
  - apply perm_swap.
Defined.

(** *** Prediction *)






(** *** Feedback *)

Lemma update_first_keeps {A B} (p : A -> bool) (f : A -> A) (g : A -> B) l :
  (forall x, g (f x) = g x) ->
  map g (update_first p f l) = map g l.
Proof.
  intros H. induction l as [|x l IH]; simpl; auto.
  destruct (p x); simpl; [now rewrite H | now rewrite IH].
Qed.

Lemma update_first_split {A} (p : A -> bool) (f : A -> A) (l : list A) (x : A) :
  find p l = Some x ->
  exists before after,
    l = (before ++ x :: after)%list
    /\ (forall y, In y before -> p y = false)
    /\ p x = true
    /\ update_first p f l = (before ++ f x :: after)%list.
Proof.
  induction l as [|y l IH]; [discriminate|].
  cbn [find update_first]. destruct (p y) eqn:E.
  - intros [= ->]. exists [], l. cbn.
    split; [reflexivity|]. split; [intros ? []|]. split; [exact E|reflexivity].
  - intros F. destruct (IH F) as (before & after & -> & Hb & Hx & Hu).
    exists (y :: before), after. cbn [app]. rewrite Hu.
    split; [reflexivity|]. split; [|auto].
    intros z [<-|Hz]; auto.
Qed.

Lemma interactions_recordFeedback l interactionId feedback interaction :
  find (fun i => interaction_id i =? interactionId) (interactions l)
  = Some interaction ->
  interactions (recordFeedback l interactionId feedback)
  = update_first (fun i => interaction_id i =? interactionId)
      (fun i => with_feedback i feedback) (interactions l).
Proof.
  intros F. unfold recordFeedback. rewrite F.
  destruct (UserFeedback.helpful feedback);
    [|destruct (names_server feedback)]; reflexivity.
Qed.

(** X29.  [recordFeedback] changes neither the patterns nor the
    capacity.  When an interaction has the given id, the first such
    interaction of the history gets the feedback and keeps its other
    fields, and every other entry of the history is left as it is, in
    its place.  For an id that no interaction has nothing changes at
    all; and feedback that is helpful or names no server leaves the
    server performance as it is.  (The slots of the history hold
    distinct objects.) *)
Theorem recordFeedback_only_stores_feedback
  (l : t) (interactionId : string) (feedback : UserFeedback.t) :
  let l' := recordFeedback l interactionId feedback in
  patterns l' = patterns l
  /\ maxHistorySize l' = maxHistorySize l
  /\ map interaction_id (interactions l') = map interaction_id (interactions l)
  /\ (forall interaction,
        find (fun i => interaction_id i =? interactionId) (interactions l)
        = Some interaction ->
        exists before after stored,
          interactions l = (before ++ interaction :: after)%list
          /\ (forall i, In i before -> interaction_id i <> interactionId)
          /\ interaction_id interaction = interactionId
          /\ interactions l' = (before ++ stored :: after)%list
          /\ LearningInteraction.feedback stored = Some feedback
          /\ LearningInteraction.query stored
             = LearningInteraction.query interaction
          /\ LearningInteraction.intent stored
             = LearningInteraction.intent interaction
          /\ LearningInteraction.routing stored
             = LearningInteraction.routing interaction
          /\ LearningInteraction.result stored
             = LearningInteraction.result interaction
          /\ LearningInteraction.duration stored
             = LearningInteraction.duration interaction
          /\ LearningInteraction.validation stored
             = LearningInteraction.validation interaction
          /\ LearningInteraction.timestamp stored
             = LearningInteraction.timestamp interaction)
  /\ (find (fun i => interaction_id i =? interactionId) (interactions l) = None ->
      l' = l)
  /\ (UserFeedback.helpful feedback = true \/ names_server feedback = None ->
      serverPerformance l' = serverPerformance l).
Proof.
  intros l'. subst l'.
  split; [|split; [|split; [|split; [|split]]]].
  - unfold recordFeedback.
    destruct (find _ (interactions l)); [|reflexivity].
    destruct (UserFeedback.helpful feedback);
      [|destruct (names_server feedback)]; reflexivity.
  - unfold recordFeedback.
    destruct (find _ (interactions l)); [|reflexivity].
    destruct (UserFeedback.helpful feedback);
      [|destruct (names_server feedback)]; reflexivity.
  - destruct (find (fun i => interaction_id i =? interactionId)
                (interactions l)) as [interaction|] eqn:F.
    + rewrite (interactions_recordFeedback _ _ _ _ F).
      apply update_first_keeps. reflexivity.
    + unfold recordFeedback. now rewrite F.
  - intros interaction F.
    rewrite (interactions_recordFeedback _ _ _ _ F).
    destruct (update_first_split _ (fun i => with_feedback i feedback) _ _ F)
      as (before & after & Hl & Hb & Hx & Hu).
    exists before, after, (with_feedback interaction feedback).
    split; [exact Hl|]. split.
    { intros i Hi. apply String.eqb_neq. now apply Hb. }
    split; [now apply String.eqb_eq|].
    split; [exact Hu|].
    cbn [with_feedback LearningInteraction.feedback LearningInteraction.query
         LearningInteraction.intent LearningInteraction.routing
         LearningInteraction.result LearningInteraction.duration
         LearningInteraction.validation LearningInteraction.timestamp].
    repeat split.
  - intros F. unfold recordFeedback. now rewrite F.
  - intros H. unfold recordFeedback.
    destruct (find _ (interactions l)); [|reflexivity].
    destruct (UserFeedback.helpful feedback);
      [reflexivity|].
    destruct (names_server feedback); [|reflexivity].
    destruct H; discriminate.
Qed.

Lemma updateServerPerformance_ignores_rate l1 l2 i :
  More.same_entry
    (JsMap.get (serverPerformance l1)
       (RoutingDecision.server (LearningInteraction.routing i)))
    (JsMap.get (serverPerformance l2)
       (RoutingDecision.server (LearningInteraction.routing i))) ->
  JsMap.get (serverPerformance (updateServerPerformance l1 i))
    (RoutingDecision.server (LearningInteraction.routing i))
  = JsMap.get (serverPerformance (updateServerPerformance l2 i))
      (RoutingDecision.server (LearningInteraction.routing i)).
Proof.
  unfold updateServerPerformance, JsMap.has, More.same_entry.
  set (server := RoutingDecision.server (LearningInteraction.routing i)).
  destruct (JsMap.get (serverPerformance l1) server) as [p|] eqn:G1;
    destruct (JsMap.get (serverPerformance l2) server) as [q|] eqn:G2;
    try tauto.
  - intros (Ht & Hs & Ha & Hp). rewrite G1, G2. cbn [serverPerformance].
    rewrite !JsMapFacts.get_set_same, Ht, Hs, Ha, Hp. reflexivity.
  - intros _. rewrite !JsMapFacts.get_set_same. cbn [serverPerformance].
    rewrite !JsMapFacts.get_set_same. reflexivity.
Qed.

Lemma feedback_keeps_counts l interactionId feedback server :
  names_server feedback <> Some server ->
  More.same_entry
    (JsMap.get (serverPerformance (recordFeedback l interactionId feedback))
       server)
    (JsMap.get (serverPerformance l) server).
Proof.
  intros Hne.
  assert (Hrefl : forall o, More.same_entry o o)
    by (intros [p|]; simpl; unfold More.same_counts; auto).
  unfold recordFeedback.
  destruct (find _ (interactions l)) as [interaction|]; [|apply Hrefl].
  destruct (UserFeedback.helpful feedback); [apply Hrefl|].
  destruct (names_server feedback) as [B|]; [|apply Hrefl].
  assert (HB : B <> server) by congruence.
  unfold adjustServerPreference. cbn [serverPerformance].
  set (A := RoutingDecision.server (LearningInteraction.routing interaction)).
  set (perfs := serverPerformance l).
  set (perfs1 := match JsMap.get perfs B with
                 | Some preferred => _
                 | None => perfs
                 end).
  assert (H1 : JsMap.get perfs1 server = JsMap.get perfs server).
  { subst perfs1. destruct (JsMap.get perfs B); [|reflexivity].
    now apply JsMapFacts.get_set_other. }
  destruct (JsMap.get perfs1 A) as [current|] eqn:GA;
    [|rewrite H1; apply Hrefl].
  destruct (String.eqb_spec A server) as [E|NA].
  - rewrite E, JsMapFacts.get_set_same. rewrite E, H1 in GA. rewrite GA.
    simpl. unfold More.same_counts. simpl. auto.
  - rewrite JsMapFacts.get_set_other by assumption. rewrite H1. apply Hrefl.
Qed.

(** X30.  The nudge that feedback gives to an error rate lasts until
    the server serves again: for a server that the feedback does not
    name as the correct one, the entry that the next [recordInteraction]
    routed to it stores is the one it would store without the feedback,
    since the error rate is then recomputed from the request counts. *)
Theorem next_record_overwrites_feedback_nudge
  (l : t) (interactionId : string) (feedback : UserFeedback.t)
  (now : Js.Date) (interaction : LearningInteraction.t) :
  names_server feedback
  <> Some (RoutingDecision.server (LearningInteraction.routing interaction)) ->
  getServerPerformance
    (recordInteraction (recordFeedback l interactionId feedback) now interaction)
    (RoutingDecision.server (LearningInteraction.routing interaction))
  = getServerPerformance (recordInteraction l now interaction)
      (RoutingDecision.server (LearningInteraction.routing interaction)).
Proof.
  intros Hne. unfold getServerPerformance, recordInteraction.
  apply (updateServerPerformance_ignores_rate _ _
           (with_timestamp interaction now)).
  rewrite !(proj2 (proj2 (interactions_updatePatterns _ _ _))).
  cbn [serverPerformance with_timestamp LearningInteraction.routing].
  now apply feedback_keeps_counts.
Qed.

Lemma next_record_overwrites_feedback_nudge_witness :
  getServerPerformance
    (recordInteraction
       (recordFeedback Scenario.learnedOneFailure "0-list units"
          Scenario.preferB)
       Scenario.epoch
       (Scenario.interaction "show units" "A"
          (Scenario.intent ActQuery []) true (10 # 1)))
    "A"
  = getServerPerformance
      (recordInteraction Scenario.learnedOneFailure Scenario.epoch
         (Scenario.interaction "show units" "A"
            (Scenario.intent ActQuery []) true (10 # 1)))
      "A".
Proof.
  apply (next_record_overwrites_feedback_nudge Scenario.learnedOneFailure
           "0-list units" Scenario.preferB Scenario.epoch
           (Scenario.interaction "show units" "A"
              (Scenario.intent ActQuery []) true (10 # 1))).
  discriminate.
Defined.

End LearningMore.

(* ================================================================= *)
(** ** The running averages in binary64 *)

Module Binary64Props.
Import PrimFloat Binary64.

Ltac each_count k tac :=
  intros k;
  repeat (destruct k as [|k];
          [intros _; tac
          |try (intros Hk; exfalso; lia)]).

(** One update of a rate that is the rounded mean of at most 21 flags
    gives the rounded mean again: checked on every count. *)
Lemma running_flag_step_nat (n k : nat) :
  (n < 22)%nat -> (k <= n)%nat -> forall s : bool,
  running (rate (Z.of_nat k) (Z.of_nat n)) (Z.of_nat (S n)) (flag s)
  = rate (Z.of_nat (k + (if s then 1 else 0))) (Z.of_nat (S n)).
Proof.
  intros Hn. revert k.
  do 22 (destruct n as [|n];
         [clear Hn;
          each_count k ltac:(intros [|]; vm_compute; reflexivity)|]).
  exfalso; lia.
Qed.

Lemma running_flag_step (n k : Z) (s : bool) :
  (0 <= k <= n)%Z -> (n < 22)%Z ->
  running (rate k n) (n + 1) (flag s)
  = rate (k + (if s then 1 else 0)) (n + 1).
Proof.
  intros Hk Hn.
  pose proof (running_flag_step_nat (Z.to_nat n) (Z.to_nat k)
                ltac:(lia) ltac:(lia) s) as H.
  rewrite !Z2Nat.id in H by lia.
  replace (Z.of_nat (S (Z.to_nat n))) with (n + 1)%Z in H by lia.
  replace (Z.of_nat (Z.to_nat k + (if s then 1 else 0)))
    with (k + (if s then 1 else 0))%Z in H by (destruct s; lia).
  exact H.
Qed.

(** The success branch of [updateMetrics] has no addend. *)
Lemma success_step_nat (n k : nat) :
  (n < 22)%nat -> (k <= n)%nat ->
  div (mul (rate (Z.of_nat k) (Z.of_nat n)) (of_count (Z.of_nat (S n) - 1)))
    (of_count (Z.of_nat (S n)))
  = rate (Z.of_nat k) (Z.of_nat (S n)).
Proof.
  intros Hn. revert k.
  do 22 (destruct n as [|n];
         [clear Hn; each_count k ltac:(vm_compute; reflexivity)|]).
  exfalso; lia.
Qed.

Lemma success_step (n k : Z) :
  (0 <= k <= n)%Z -> (n < 22)%Z ->
  div (mul (rate k n) (of_count (n + 1 - 1))) (of_count (n + 1))
  = rate k (n + 1).
Proof.
  intros Hk Hn.
  pose proof (success_step_nat (Z.to_nat n) (Z.to_nat k)
                ltac:(lia) ltac:(lia)) as H.
  rewrite !Z2Nat.id in H by lia.
  replace (Z.of_nat (S (Z.to_nat n))) with (n + 1)%Z in H by lia.
  exact H.
Qed.

Lemma count_cons {A} (p : A -> bool) (x : A) (l : list A) :
  count p (x :: l) = ((if p x then 1 else 0) + count p l)%Z.
Proof.
  unfold count. cbn [filter]. destruct (p x); cbn [length]; lia.
Qed.

(** Up to 22 flags, the running average is the rounded mean. *)
Lemma averaged_flags (flags : list bool) : forall n k,
  (0 <= k <= n)%Z ->
  (n + Z.of_nat (length flags) <= 22)%Z ->
  averaged (rate k n) n (map flag flags)
  = rate (k + count id flags) (n + Z.of_nat (length flags)).
Proof.
  induction flags as [|s flags IH]; intros n k Hk Hn.
  - unfold count. cbn [averaged map filter length Z.of_nat].
    now rewrite !Z.add_0_r.
  - cbn [length] in Hn. cbn [map averaged].
    rewrite running_flag_step by lia.
    rewrite IH by (destruct s; lia).
    rewrite count_cons. unfold id at 2. cbn [length].
    f_equal; lia.
Qed.

Lemma updatePatterns_same patterns now i :
  let key := LearningSystem.getPatternKey (LearningInteraction.intent i) in
  let '(n, avg, sr) := pattern_stats patterns key in
  pattern_stats (updatePatterns patterns now i) key
  = ((n + 1)%Z, running avg (n + 1) (LearningInteraction.duration i),
     running sr (n + 1) (success_value i)).
Proof.
  intros key. unfold pattern_stats, updatePatterns, JsMap.has. fold key.
  destruct (JsMap.get patterns key) as [p|] eqn:G.
  - rewrite G, JsMapFacts.get_set_same. reflexivity.
  - rewrite !JsMapFacts.get_set_same. reflexivity.
Qed.

Lemma recordAll_pattern_stats key recs : forall patterns,
  (forall r, In r recs ->
     LearningSystem.getPatternKey (LearningInteraction.intent (snd r)) = key) ->
  let '(n, avg, sr) := pattern_stats patterns key in
  pattern_stats (recordAll patterns recs) key
  = ((n + Z.of_nat (length recs))%Z,
     averaged avg n (map (fun r => LearningInteraction.duration (snd r)) recs),
     averaged sr n (map (fun r => success_value (snd r)) recs)).
Proof.
  induction recs as [|r recs IH]; intros patterns Hkeys.
  - cbn [recordAll fold_left length map averaged Z.of_nat].
    destruct (pattern_stats patterns key) as [[n avg] sr].
    now rewrite Z.add_0_r.
  - cbn [recordAll fold_left].
    fold (recordAll (updatePatterns patterns (fst r) (snd r)) recs).
    pose proof (updatePatterns_same patterns (fst r) (snd r)) as Hstep.
    cbv zeta in Hstep. rewrite (Hkeys r (or_introl eq_refl)) in Hstep.
    specialize (IH (updatePatterns patterns (fst r) (snd r))
                  (fun r' H => Hkeys r' (or_intror H))).
    destruct (pattern_stats patterns key) as [[n avg] sr].
    rewrite Hstep in IH. rewrite IH. cbn [length map averaged].
    do 2 f_equal. lia.
Qed.

Lemma map_success_value recs :
  map (fun r => success_value (snd r)) recs = map flag (map is_valid recs).
Proof. rewrite map_map. reflexivity. Qed.

Lemma count_map_id {A} (p : A -> bool) (l : list A) :
  count id (map p l) = count p l.
Proof.
  induction l as [|x l IH]; [reflexivity|].
  cbn [map]. rewrite !count_cons, IH. reflexivity.
Qed.

(** C9.  [N >= 1] interactions of one pattern key, recorded on patterns
    that do not hold the key.  Afterwards the pattern has frequency
    [N]; its [avgDuration] and its [successRate] are the values of the
    running average, rounded at each operation, over the durations and
    over the validity values (1 for valid, 0 for invalid); and for
    [N <= 22] the [successRate] is the batch mean: the binary64 number
    nearest to the share of valid interactions. *)
Theorem pattern_rates_are_rounded_running_averages
  (patterns : JsMap.t QueryPattern.t)
  (recs : list (Js.Date * LearningInteraction.t)) (key : string) :
  recs <> [] ->
  (forall r, In r recs ->
     LearningSystem.getPatternKey (LearningInteraction.intent (snd r)) = key) ->
  JsMap.get patterns key = None ->
  exists p,
    JsMap.get (recordAll patterns recs) key = Some p
    /\ QueryPattern.frequency p = Z.of_nat (length recs)
    /\ QueryPattern.avgDuration p
       = averaged 0 0 (map (fun r => LearningInteraction.duration (snd r)) recs)
    /\ QueryPattern.successRate p
       = averaged 0 0 (map (fun r => success_value (snd r)) recs)
    /\ ((length recs <= 22)%nat ->
        QueryPattern.successRate p
        = rounded_mean (count is_valid recs) (Z.of_nat (length recs))).
Proof.
  intros Hne Hkeys Hnew.
  pose proof (recordAll_pattern_stats key recs patterns Hkeys) as H.
  unfold pattern_stats in H at 1. rewrite Hnew in H.
  assert (Hlen : (0 < Z.of_nat (length recs))%Z)
    by (destruct recs; [congruence | cbn [length]; lia]).
  unfold pattern_stats in H.
  destruct (JsMap.get (recordAll patterns recs) key) as [p|].
  - injection H as Hn Havg Hsr. exists p.
    split; [reflexivity|]. split; [lia|]. split; [exact Havg|].
    split; [exact Hsr|].
    intros Hsmall. rewrite Hsr, map_success_value.
    change (averaged 0 0 (map flag (map is_valid recs)))
      with (averaged (rate 0 0) 0 (map flag (map is_valid recs))).
    rewrite averaged_flags by (rewrite ?length_map; lia).
    rewrite count_map_id, length_map. unfold rate.
    destruct (Z.eqb_spec (0 + Z.of_nat (length recs)) 0) as [E|_]; [lia|].
    reflexivity.
  - injection H as Hn _ _. lia.
Qed.

Lemma pattern_rates_are_rounded_running_averages_witness :
  exists p,
    JsMap.get (recordAll JsMap.empty eightDurations) "query" = Some p
    /\ QueryPattern.frequency p = 8%Z
    /\ QueryPattern.successRate p = 1%float.
Proof.
  destruct (pattern_rates_are_rounded_running_averages
              JsMap.empty eightDurations "query")
    as (p & Hp & Hn & _ & _ & Hsr).
  - discriminate.
  - intros r Hr. cbn in Hr.
    repeat (destruct Hr as [<-|Hr]; [reflexivity|]). contradiction.
  - reflexivity.
  - exists p. split; [exact Hp|]. split; [exact Hn|].
    rewrite Hsr by (cbn; lia). vm_compute. reflexivity.
Defined.

(** The claim as the specification has it fails at 23 interactions:
    after fifteen valid and eight invalid ones the stored rate is
    0.6521739130434782, below the batch mean 15/23, which in binary64
    is 0.6521739130434783.  The average duration differs sooner: the
    eight durations have the mean 7.875, and 7.874999999999999 is
    stored. *)
Lemma pattern_rate_is_not_the_batch_mean :
  (exists p,
     JsMap.get (recordAll JsMap.empty fifteenOfTwentyThree) "query" = Some p
     /\ QueryPattern.frequency p = 23%Z
     /\ QueryPattern.successRate p = 0x1.4de9bd37a6f4dp-1%float
     /\ rounded_mean (count is_valid fifteenOfTwentyThree) 23
        = 0x1.4de9bd37a6f4ep-1%float)
  /\ (exists p,
        JsMap.get (recordAll JsMap.empty eightDurations) "query" = Some p
        /\ QueryPattern.frequency p = 8%Z
        /\ QueryPattern.avgDuration p = 0x1.f7fffffffffffp+2%float
        /\ rounded_mean 63 8 = 7.875%float).
Proof.
  split; eexists; (split; [vm_compute; reflexivity|]);
    repeat split; vm_compute; reflexivity.
Qed.

Lemma updateAll_metrics (samples : list (float * bool)) : forall m k,
  (0 <= k <= Metrics.totalRequests m)%Z ->
  Metrics.totalRequests (updateAll m samples)
  = (Metrics.totalRequests m + Z.of_nat (length samples))%Z
  /\ ((Metrics.totalRequests m + Z.of_nat (length samples) <= 22)%Z ->
      Metrics.errorRate m = rate k (Metrics.totalRequests m) ->
      Metrics.errorRate (updateAll m samples)
      = rate (k + count is_failure samples)
          (Metrics.totalRequests m + Z.of_nat (length samples))).
Proof.
  induction samples as [|s samples IH]; intros m k Hk.
  - unfold count. cbn [updateAll fold_left length filter Z.of_nat].
    rewrite !Z.add_0_r. auto.
  - cbn [updateAll fold_left].
    fold (updateAll (metrics_update m (fst s) (snd s)) samples).
    destruct (IH (metrics_update m (fst s) (snd s))
                (k + (if is_failure s then 1 else 0))%Z) as (Hn & Herr).
    { cbn [metrics_update Metrics.totalRequests].
      destruct (is_failure s); lia. }
    cbn [metrics_update Metrics.totalRequests] in Hn, Herr.
    cbn [length]. split; [lia|].
    intros Hsmall Hrate.
    rewrite count_cons, Z.add_assoc.
    replace (Metrics.totalRequests m + Z.of_nat (S (length samples)))%Z
      with (Metrics.totalRequests m + 1 + Z.of_nat (length samples))%Z by lia.
    apply Herr; [lia|].
    cbn [metrics_update Metrics.errorRate]. rewrite Hrate.
    unfold is_failure. destruct (snd s); cbn [negb].
    + rewrite Z.add_0_r. apply success_step; lia.
    + apply (running_flag_step _ _ true); lia.
Qed.

(** X2.  On the metrics that [register] installs, [N] calls of
    [updateMetrics] leave [totalRequests = N]; and for [N <= 22] the
    [errorRate] is the share of failed calls as binary64 has it, the
    number nearest to failures / N (0 before the first call). *)
Theorem updateMetrics_error_rate_is_rounded_share
  (samples : list (float * bool)) :
  Metrics.totalRequests (updateAll zero_metrics samples)
  = Z.of_nat (length samples)
  /\ ((length samples <= 22)%nat ->
      Metrics.errorRate (updateAll zero_metrics samples)
      = rate (count is_failure samples) (Z.of_nat (length samples))).
Proof.
  destruct (updateAll_metrics samples zero_metrics 0) as (Hn & Herr).
  { cbn. lia. }
  cbn [zero_metrics Metrics.totalRequests Metrics.errorRate] in Hn, Herr.
  rewrite !Z.add_0_l in Herr. rewrite Z.add_0_l in Hn.
  split; [exact Hn|].
  intros Hsmall. apply Herr; [lia|reflexivity].
Qed.

End Binary64Props.
